(** * LoveACE release tool: manifest model and release orchestration

    A shallow embedding of [utils/manifest.py], [utils/s3_client.py] and
    [utils/cli.py], with the properties of the manifest update logic.

    Conventions of the embedding.
    - A Python [str] is kept as the byte string of its UTF-8 encoding, so
      that [s.encode("utf-8")] is the identity and [+] on [str] is
      [String.append] (written [+:+]).
    - A pydantic model is a record; [Optional[X]] is [option X].
    - The JSON text layer ([json.loads], pydantic's JSON writer) belongs to
      the libraries: a document is kept as the JSON value it denotes.
    - Commands run in a state-and-exception monad over a [World] holding
      the settings, the bucket, the local files and directories, a fault
      oracle for the remote operations and the trace of I/O events.
    - The libraries behind the console and the storage client are not
      part of the three files. Of rich the world holds what a command
      depends on, whether its markup parser reads a text through or
      raises; of opendal, that a read or a write goes through or
      raises. *)

From Stdlib Require Import ZArith List String Ascii Lia Bool.
From stdpp Require Import base option gmap strings list.
Import ListNotations.

Local Open Scope string_scope.
Local Open Scope Z_scope.
Local Open Scope nat_scope.
Local Open Scope list_scope.

(* ===================================================================== *)
(** ** [hashlib.md5(...).hexdigest()] (RFC 1321) *)
(* ===================================================================== *)

Module MD5.
Local Open Scope Z_scope.

Definition mask32 (x : Z) : Z := Z.land x 0xffffffff.
Definition add32 (x y : Z) : Z := mask32 (x + y).
Definition not32 (x : Z) : Z := Z.lxor x 0xffffffff.
Definition rotl32 (x c : Z) : Z :=
  Z.lor (mask32 (Z.shiftl x c)) (Z.shiftr x (32 - c)).

Definition K : list Z :=
  [ 0xd76aa478; 0xe8c7b756; 0x242070db; 0xc1bdceee;
    0xf57c0faf; 0x4787c62a; 0xa8304613; 0xfd469501;
    0x698098d8; 0x8b44f7af; 0xffff5bb1; 0x895cd7be;
    0x6b901122; 0xfd987193; 0xa679438e; 0x49b40821;
    0xf61e2562; 0xc040b340; 0x265e5a51; 0xe9b6c7aa;
    0xd62f105d; 0x02441453; 0xd8a1e681; 0xe7d3fbc8;
    0x21e1cde6; 0xc33707d6; 0xf4d50d87; 0x455a14ed;
    0xa9e3e905; 0xfcefa3f8; 0x676f02d9; 0x8d2a4c8a;
    0xfffa3942; 0x8771f681; 0x6d9d6122; 0xfde5380c;
    0xa4beea44; 0x4bdecfa9; 0xf6bb4b60; 0xbebfbc70;
    0x289b7ec6; 0xeaa127fa; 0xd4ef3085; 0x04881d05;
    0xd9d4d039; 0xe6db99e5; 0x1fa27cf8; 0xc4ac5665;
    0xf4292244; 0x432aff97; 0xab9423a7; 0xfc93a039;
    0x655b59c3; 0x8f0ccc92; 0xffeff47d; 0x85845dd1;
    0x6fa87e4f; 0xfe2ce6e0; 0xa3014314; 0x4e0811a1;
    0xf7537e82; 0xbd3af235; 0x2ad7d2bb; 0xeb86d391 ].

Definition shifts : list Z :=
  [ 7; 12; 17; 22; 7; 12; 17; 22; 7; 12; 17; 22; 7; 12; 17; 22;
    5; 9; 14; 20; 5; 9; 14; 20; 5; 9; 14; 20; 5; 9; 14; 20;
    4; 11; 16; 23; 4; 11; 16; 23; 4; 11; 16; 23; 4; 11; 16; 23;
    6; 10; 15; 21; 6; 10; 15; 21; 6; 10; 15; 21; 6; 10; 15; 21 ].

Definition state : Type := Z * Z * Z * Z.

Definition init : state :=
  (0x67452301, 0xefcdab89, 0x98badcfe, 0x10325476).

(** The round function and the message word index of operation [i]. *)
Definition mix (i : nat) (b c d : Z) : Z * nat :=
  if (i <? 16)%nat then (Z.lor (Z.land b c) (Z.land (not32 b) d), i)
  else if (i <? 32)%nat then
    (Z.lor (Z.land d b) (Z.land (not32 d) c), Nat.modulo (5 * i + 1) 16)
  else if (i <? 48)%nat then
    (Z.lxor (Z.lxor b c) d, Nat.modulo (3 * i + 5) 16)
  else (Z.lxor c (Z.lor b (not32 d)), Nat.modulo (7 * i) 16).

Definition step (M : list Z) (s : state) (i : nat) : state :=
  let '(a, b, c, d) := s in
  let '(f, g) := mix i b c d in
  let f' := add32 (add32 (add32 f a) (nth i K 0)) (nth g M 0) in
  (d, add32 b (rotl32 f' (nth i shifts 0)), b, c).

(** Little-endian 32-bit words of a block. *)
Fixpoint words (bs : list Z) : list Z :=
  match bs with
  | b0 :: b1 :: b2 :: b3 :: r =>
      (b0 + Z.shiftl b1 8 + Z.shiftl b2 16 + Z.shiftl b3 24) :: words r
  | _ => []
  end.

Definition compress (s : state) (chunk : list Z) : state :=
  let '(a0, b0, c0, d0) := s in
  let '(a, b, c, d) := fold_left (step (words chunk)) (seq 0 64) s in
  (add32 a0 a, add32 b0 b, add32 c0 c, add32 d0 d).

Fixpoint chunks (fuel : nat) (bs : list Z) : list (list Z) :=
  match fuel, bs with
  | O, _ | _, [] => []
  | S fuel', _ => firstn 64 bs :: chunks fuel' (skipn 64 bs)
  end.

Definition le_bytes (n : nat) (x : Z) : list Z :=
  map (fun i => Z.land (Z.shiftr x (8 * Z.of_nat i)) 0xff) (seq 0 n).

Definition pad (bs : list Z) : list Z :=
  let len := Z.of_nat (length bs) in
  bs ++ [0x80] ++ repeat 0 (Z.to_nat ((55 - len) mod 64))
     ++ le_bytes 8 ((8 * len) mod 2 ^ 64).

Definition digest (bs : list Z) : list Z :=
  let p := pad bs in
  let '(a, b, c, d) := fold_left compress (chunks (length p) p) init in
  le_bytes 4 a ++ le_bytes 4 b ++ le_bytes 4 c ++ le_bytes 4 d.

Definition hex_digit (x : Z) : ascii :=
  nth (Z.to_nat x) (list_ascii_of_string "0123456789abcdef") "0"%char.

Definition hex (bs : list Z) : string :=
  string_of_list_ascii
    (flat_map (fun b => [hex_digit (Z.shiftr b 4); hex_digit (Z.land b 0xf)])
       bs).

Definition bytes_of_string (s : string) : list Z :=
  map (fun a => Z.of_N (N_of_ascii a)) (list_ascii_of_string s).

Definition hexdigest (s : string) : string :=
  hex (digest (bytes_of_string s)).

End MD5.

(* ===================================================================== *)
(** ** Python values shared by the three files *)
(* ===================================================================== *)

(** The value [json.loads] returns. Objects are Python dicts, hence finite
    maps; numbers never occur in a manifest and are kept as integers. *)
#[warnings="-register-all"]
Inductive json : Type :=
| JNull
| JBool (b : bool)
| JNum (z : Z)
| JStr (s : string)
| JArr (l : list json)
| JObj (o : gmap string json).

(** Truth value of a [str] ([if content:]). *)
Definition str_truthy (s : string) : bool := negb (String.eqb s "").

(** Truth value of whatever [json.loads] returned ([if data:]). *)
Definition json_truthy (j : json) : bool :=
  match j with
  | JNull => false
  | JBool b => b
  | JNum z => negb (z =? 0)%Z
  | JStr s => str_truthy s
  | JArr l => match l with [] => false | _ => true end
  | JObj o => negb (bool_decide (o = ∅))
  end.

(** [d[k] = v] when [v] is present, nothing otherwise: how a dump with
    [exclude_none=True] treats an optional field. *)
Definition put_opt (k : string) (v : option json)
    (d : gmap string json) : gmap string json :=
  match v with
  | Some j => <[k := j]> d
  | None => d
  end.


(** [s.lower()] on the letters of ASCII. *)
Definition lower_ascii (a : ascii) : ascii :=
  let n := nat_of_ascii a in
  if (65 <=? n) && (n <=? 90) then ascii_of_nat (n + 32) else a.

Fixpoint lower (s : string) : string :=
  match s with
  | EmptyString => EmptyString
  | String a r => String (lower_ascii a) (lower r)
  end.

(** Field access of the validators. [None] is a pydantic
    [ValidationError]. *)
Definition field_str (d : gmap string json) (k : string) : option string :=
  match d !! k with
  | Some (JStr s) => Some s
  | _ => None
  end.

(** A [bool] in pydantic's lax mode, the mode of [model_validate]: a
    boolean, the integers 0 and 1, and a text that reads as one of the
    words below whatever the case of its letters. *)
Definition validate_bool (j : json) : option bool :=
  match j with
  | JBool b => Some b
  | JNum z =>
      if (z =? 0)%Z then Some false
      else if (z =? 1)%Z then Some true
      else None
  | JStr s =>
      let word := lower s in
      if existsb (String.eqb word) ["0"; "off"; "f"; "false"; "n"; "no"]
      then Some false
      else if existsb (String.eqb word) ["1"; "on"; "t"; "true"; "y"; "yes"]
      then Some true
      else None
  | JNull | JArr _ | JObj _ => None
  end.

Definition field_bool_default (d : gmap string json) (k : string)
    (dflt : bool) : option bool :=
  match d !! k with
  | None => Some dflt
  | Some j => validate_bool j
  end.

Definition field_str_default (d : gmap string json) (k : string)
    (dflt : string) : option string :=
  match d !! k with
  | None => Some dflt
  | Some (JStr s) => Some s
  | Some _ => None
  end.

(** An [Optional[X]] field with default [None]: a missing key and an
    explicit [null] both give [None]. *)
Definition field_optional {A : Type} (validate : json -> option A)
    (d : gmap string json) (k : string) : option (option A) :=
  match d !! k with
  | None | Some JNull => Some None
  | Some j => x ← validate j; Some (Some x)
  end.

(* ===================================================================== *)
(** ** manifest.py *)
(* ===================================================================== *)

Module Announcement.

Record t : Type := mk {
  title : string;
  content : string;
  confirm_require : bool
}.

(** The computed field: MD5 of [title + content]. *)
Definition md5 (self : t) : string :=
  let combined := title self +:+ content self in
  MD5.hexdigest combined.

(** [model_dump(mode="json", exclude_none=True)]; a computed field is
    part of the dump. *)
Definition model_dump (self : t) : json :=
  JObj (<["title" := JStr (title self)]>
       (<["content" := JStr (content self)]>
       (<["confirm_require" := JBool (confirm_require self)]>
       (<["md5" := JStr (md5 self)]> ∅)))).

(** [model_validate]; keys that are not fields (the dumped [md5]) are
    ignored. *)
Definition model_validate (data : json) : option t :=
  match data with
  | JObj d =>
      t' ← field_str d "title";
      c ← field_str d "content";
      r ← field_bool_default d "confirm_require" false;
      Some (mk t' c r)
  | _ => None
  end.

End Announcement.

Module ChangelogEntry.

Record t : Type := mk {
  version : string;
  changes : string
}.

Definition model_dump (self : t) : json :=
  JObj (<["version" := JStr (version self)]>
       (<["changes" := JStr (changes self)]> ∅)).

Definition model_validate (data : json) : option t :=
  match data with
  | JObj d =>
      v ← field_str d "version";
      c ← field_str d "changes";
      Some (mk v c)
  | _ => None
  end.

End ChangelogEntry.

Module PlatformRelease.

Record t : Type := mk {
  version : string;
  force_ota : bool;
  url : string;
  md5 : string
}.

Definition model_dump (self : t) : json :=
  JObj (<["version" := JStr (version self)]>
       (<["force_ota" := JBool (force_ota self)]>
       (<["url" := JStr (url self)]>
       (<["md5" := JStr (md5 self)]> ∅)))).

Definition model_validate (data : json) : option t :=
  match data with
  | JObj d =>
      v ← field_str d "version";
      f ← field_bool_default d "force_ota" false;
      u ← field_str d "url";
      m ← field_str d "md5";
      Some (mk v f u m)
  | _ => None
  end.

End PlatformRelease.

Module OTA.

Record t : Type := mk {
  content : string;
  changelog : list ChangelogEntry.t;
  android : option PlatformRelease.t;
  ios : option PlatformRelease.t;
  windows : option PlatformRelease.t;
  macos : option PlatformRelease.t;
  linux : option PlatformRelease.t
}.

(** [Field(max_length=10)] of [changelog]. *)
Definition max_length : nat := 10.

(** [getattr(self, name, None)] for the name of a platform field. The
    callers check [name in PLATFORMS] first, so no other name gets here;
    for those the default [None] is returned. *)
Definition getattr (self : t) (name : string) : option PlatformRelease.t :=
  if String.eqb name "android" then android self
  else if String.eqb name "ios" then ios self
  else if String.eqb name "windows" then windows self
  else if String.eqb name "macos" then macos self
  else if String.eqb name "linux" then linux self
  else None.

(** [setattr(self, name, value)] for the name of a platform field. An
    assignment is not validated. [None] stands for the exception an
    assignment to another name would end in. *)
Definition setattr (self : t) (name : string)
    (value : option PlatformRelease.t) : option t :=
  let '(mk c l a i w m x) := self in
  if String.eqb name "android" then Some (mk c l value i w m x)
  else if String.eqb name "ios" then Some (mk c l a value w m x)
  else if String.eqb name "windows" then Some (mk c l a i value m x)
  else if String.eqb name "macos" then Some (mk c l a i w value x)
  else if String.eqb name "linux" then Some (mk c l a i w m value)
  else None.

Definition model_dump (self : t) : json :=
  JObj (<["content" := JStr (content self)]>
       (<["changelog" := JArr (ChangelogEntry.model_dump <$> changelog self)]>
       (put_opt "android" (PlatformRelease.model_dump <$> android self)
       (put_opt "ios" (PlatformRelease.model_dump <$> ios self)
       (put_opt "windows" (PlatformRelease.model_dump <$> windows self)
       (put_opt "macos" (PlatformRelease.model_dump <$> macos self)
       (put_opt "linux" (PlatformRelease.model_dump <$> linux self) ∅))))))).

(** The [changelog] field: a list of at most [max_length] entries, the
    empty list when the key is missing. *)
Definition validate_changelog (d : gmap string json)
    : option (list ChangelogEntry.t) :=
  match d !! "changelog" with
  | None => Some []
  | Some (JArr l) =>
      es ← mapM ChangelogEntry.model_validate l;
      if length es <=? max_length then Some es else None
  | Some _ => None
  end.

Definition model_validate (data : json) : option t :=
  match data with
  | JObj d =>
      c ← field_str_default d "content" "";
      l ← validate_changelog d;
      a ← field_optional PlatformRelease.model_validate d "android";
      i ← field_optional PlatformRelease.model_validate d "ios";
      w ← field_optional PlatformRelease.model_validate d "windows";
      m ← field_optional PlatformRelease.model_validate d "macos";
      x ← field_optional PlatformRelease.model_validate d "linux";
      Some (mk c l a i w m x)
  | _ => None
  end.

End OTA.

Module LoveACEManifest.

Record t : Type := mk {
  announcement : option Announcement.t;
  ota : option OTA.t
}.

(** [LoveACEManifest()] *)
Definition empty : t := mk None None.

(** [model_dump_json(indent=2, exclude_none=True)], as the JSON value
    the text denotes. *)
Definition model_dump (self : t) : json :=
  JObj (put_opt "announcement" (Announcement.model_dump <$> announcement self)
       (put_opt "ota" (OTA.model_dump <$> ota self) ∅)).

Definition model_validate (data : json) : option t :=
  match data with
  | JObj d =>
      a ← field_optional Announcement.model_validate d "announcement";
      o ← field_optional OTA.model_validate d "ota";
      Some (mk a o)
  | _ => None
  end.

(** What the type admits: every changelog obeys [max_length]. *)
Definition valid (self : t) : Prop :=
  match ota self with
  | Some o => length (OTA.changelog o) <= OTA.max_length
  | None => True
  end.

End LoveACEManifest.

(* ===================================================================== *)
(** ** The world a command runs in *)
(* ===================================================================== *)

(** The content of an object of the bucket: the UTF-8 text of a JSON
    value, or bytes that [json.loads] rejects (an installer, a truncated
    or corrupt document). *)
Inductive blob : Type :=
| Raw (bytes : string)
| Text (doc : json).

(** The I/O calls a command issues, in the order it issues them. *)
Inductive event : Type :=
| FsExists (path : string)
| FsRead (path : string)
| S3Read (key : string)
| S3Write (key : string).

Definition is_remote (e : event) : bool :=
  match e with
  | S3Read _ | S3Write _ => true
  | FsExists _ | FsRead _ => false
  end.

Definition event_eqb (e1 e2 : event) : bool :=
  match e1, e2 with
  | FsExists a, FsExists b | FsRead a, FsRead b
  | S3Read a, S3Read b | S3Write a, S3Write b => String.eqb a b
  | _, _ => false
  end.

(** What a command hands to the console of rich: a panel with its title,
    a line of text, or a table with its title, column headers and rows. *)
Inductive printed : Type :=
| Panel (text title : string)
| Markup (text : string)
| Table (title : string) (columns : list string) (rows : list (list string)).

(** The texts of it that the console reads as markup. *)
Definition texts (p : printed) : list string :=
  match p with
  | Panel text title => [text; title]
  | Markup text => [text]
  | Table title columns rows => title :: columns ++ concat rows
  end.

(** config.py: the two settings [S3Client] keeps. *)
Record Settings : Type := mkSettings {
  cdn_base_url : string;
  s3_bucket : string
}.

Record World : Type := mkWorld {
  settings : Settings;
  (** the markup parser of rich, which is not part of the three files:
      whether it reads a text through; where it does not, it raises
      [MarkupError], as for a closing tag that closes nothing *)
  renders : string -> bool;
  (** the bucket: key to content *)
  objects : gmap string blob;
  (** the local regular files: path to bytes *)
  files : gmap string string;
  (** the local paths that exist and are no regular file: directories *)
  directories : gset string;
  (** one flag per remote call still to come: [true] makes the call
      raise; no flag left means no fault *)
  faults : list bool;
  trace : list event
}.

(** How a command ends other than normally: [typer.Exit(1)] after a
    message of cli.py (the first four), or an exception nobody
    catches. *)
Inductive error : Type :=
| InvalidPlatform
| FileNotFound
| NoOtaConfigured
| PlatformNotReleased
| ValidationError
| OpError
| OSError
| ValueError
| AttributeError
| MarkupError.

(** State and exceptions: the world is kept when an exception is raised. *)
Definition M (A : Type) : Type := World -> World * (error + A).

Definition ret {A : Type} (a : A) : M A := fun w => (w, inr a).

Definition raise {A : Type} (e : error) : M A := fun w => (w, inl e).

Definition bind {A B : Type} (m : M A) (k : A -> M B) : M B :=
  fun w =>
    match m w with
    | (w', inr a) => k a w'
    | (w', inl e) => (w', inl e)
    end.

Notation "'let*' x := m 'in' k" := (bind m (fun x => k))
  (at level 10, x name, m at level 100, k at level 200, only parsing).

(** [try: m except Exception: return None] *)
Definition try_except {A : Type} (m : M A) : M (option A) :=
  fun w =>
    match m w with
    | (w', inr a) => (w', inr (Some a))
    | (w', inl _) => (w', inr None)
    end.

(** An [option] whose [None] is the exception [e]. *)
Definition or_raise {A : Type} (e : error) (o : option A) : M A :=
  match o with
  | Some a => ret a
  | None => raise e
  end.

Definition emit (e : event) : M unit :=
  fun w => (mkWorld (settings w) (renders w) (objects w) (files w)
              (directories w) (faults w) (trace w ++ [e]), inr tt).

(** The next flag of the fault oracle. *)
Definition next_fault : M bool :=
  fun w => (mkWorld (settings w) (renders w) (objects w) (files w)
              (directories w) (tail (faults w)) (trace w),
            inr (match faults w with b :: _ => b | [] => false end)).

(** [op.read(key)]: raises on a fault and on a missing key. *)
Definition op_read (key : string) : M blob :=
  let* _ := emit (S3Read key) in
  let* fault := next_fault in
  if fault then raise OpError
  else fun w => or_raise OpError (objects w !! key) w.

(** [op.write(key, data, content_type=...)]: replaces the object unless a
    fault makes it raise. *)
Definition op_write (key : string) (data : blob) : M unit :=
  let* _ := emit (S3Write key) in
  let* fault := next_fault in
  if fault then raise OpError
  else fun w => (mkWorld (settings w) (renders w)
                   (<[key := data]> (objects w)) (files w) (directories w)
                   (faults w) (trace w), inr tt).

(** There is something at the path, a regular file or a directory. *)
Definition exists_at (w : World) (path : string) : bool :=
  bool_decide (is_Some (files w !! path))
  || bool_decide (path ∈ directories w).

(** [path.exists()] *)
Definition path_exists (path : string) : M bool :=
  let* _ := emit (FsExists path) in
  fun w => ret (exists_at w path) w.

(** [open(path, "rb")] and reading it to the end: raises for a path
    with nothing at it and for a directory. *)
Definition read_file (path : string) : M string :=
  let* _ := emit (FsRead path) in
  fun w => or_raise OSError (files w !! path) w.

(** The console reads every text of [p] through. *)
Definition shows (w : World) (p : printed) : bool :=
  forallb (renders w) (texts p).

(** [console.print(p)] and the [print] of rich: the texts are read as
    markup, and a text the parser does not read through makes the call
    raise. What reaches the terminal is not kept. *)
Definition console_print (p : printed) : M unit :=
  fun w => if shows w p then ret tt w else raise MarkupError w.

(** [console.status(text)]: the text of the spinner is read as markup
    when the status is made, before the block under it runs. *)
Definition console_status (text : string) : M unit :=
  console_print (Markup text).

(* ===================================================================== *)
(** ** s3_client.py *)
(* ===================================================================== *)

Module S3Client.

(** [s.rstrip(c)] for a single character [c]. *)
Fixpoint rstrip (c : ascii) (s : string) : string :=
  match s with
  | EmptyString => EmptyString
  | String a r =>
      match rstrip c r with
      | EmptyString => if Ascii.eqb a c then EmptyString else String a EmptyString
      | r' => String a r'
      end
  end.

(** Without a CDN base URL the call [self.op.info()] raises: an
    [opendal.Operator] has no attribute of that name. *)
Definition _get_url (s3_key : string) : M string :=
  fun w =>
    let cdn := cdn_base_url (settings w) in
    if str_truthy cdn then ret (rstrip "/"%char cdn +:+ "/" +:+ s3_key) w
    else raise AttributeError w.

(** The content type passed to [op.write] does not reach the model. *)
Definition upload_file (local_path s3_key : string) : M string :=
  let* data := read_file local_path in
  let* _ := op_write s3_key (Raw data) in
  _get_url s3_key.

Definition upload_content (content : blob) (s3_key : string) : M string :=
  let* _ := op_write s3_key content in
  _get_url s3_key.

(** [json.loads(data.decode("utf-8"))] *)
Definition json_loads (data : blob) : M json :=
  match data with
  | Text doc => ret doc
  | Raw _ => raise ValueError
  end.

(** [None] is Python's [None]: what a failed read returns, and also what
    the document [null] parses to. *)
Definition get_json (s3_key : string) : M (option json) :=
  let* r :=
    try_except (let* data := op_read s3_key in json_loads data) in
  ret match r with
      | Some JNull | None => None
      | Some doc => Some doc
      end.

End S3Client.

(* ===================================================================== *)
(** ** cli.py *)
(* ===================================================================== *)

Definition PLATFORMS : list string :=
  ["android"; "ios"; "windows"; "macos"; "linux"].

Definition MANIFEST_KEY : string := "loveace/manifest.json".

Definition DOWNLOAD_PAGE_KEY : string := "loveace/download.html".

Definition FAVICON_KEY : string := "loveace/favicon.png".

(** [platform in PLATFORMS] *)
Definition in_PLATFORMS (platform : string) : bool :=
  existsb (String.eqb platform) PLATFORMS.

(** The line feed of an f-string. *)
Definition LF : string := String "010"%char EmptyString.

(** ['是' if b else '否'] *)
Definition yes_no (b : bool) : string := if b then "是" else "否".

(** [s.upper()] for text of ASCII letters, which the names of
    [PLATFORMS] are: a small letter becomes the capital, any other byte
    stays. *)
Definition upper_ascii (a : ascii) : ascii :=
  let n := nat_of_ascii a in
  if (97 <=? n) && (n <=? 122) then ascii_of_nat (n - 32) else a.

Fixpoint upper (s : string) : string :=
  match s with
  | EmptyString => EmptyString
  | String a r => String (upper_ascii a) (upper r)
  end.

(** A byte that continues a character of UTF-8 text. *)
Definition is_continuation (a : ascii) : bool :=
  let n := nat_of_ascii a in (128 <=? n) && (n <? 192).

(** [s[:n]]: the first [n] characters of UTF-8 text, with the bytes that
    continue them. *)
Fixpoint str_take (n : nat) (s : string) : string :=
  match s with
  | EmptyString => EmptyString
  | String a r =>
      if is_continuation a then String a (str_take n r)
      else
        match n with
        | O => EmptyString
        | S n' => String a (str_take n' r)
        end
  end.

(** A part of a path that pathlib keeps: parts that are empty or a
    single dot are dropped when the [Path] is made. *)
Definition is_part (part : string) : bool :=
  negb (String.eqb part EmptyString) && negb (String.eqb part ".").

(** [Path.name] of a POSIX path: the last of the parts between slashes
    that pathlib keeps, the empty text when it keeps none. [last] is the
    last part kept so far and [part] the part being read. *)
Fixpoint name_from (last part path : string) : string :=
  match path with
  | EmptyString => if is_part part then part else last
  | String a r =>
      if Ascii.eqb a "/"%char
      then name_from (if is_part part then part else last) EmptyString r
      else name_from last (part +:+ String a EmptyString) r
  end.

Definition path_name (path : string) : string :=
  name_from EmptyString EmptyString path.

Definition get_file_md5 (file_path : string) : M string :=
  let* data := read_file file_path in
  ret (MD5.hexdigest data).

(** The part of [load_manifest] after the read: a falsy [data] gives the
    empty manifest, anything else is validated. *)
Definition manifest_of_data (data : option json)
    : option LoveACEManifest.t :=
  match data with
  | Some doc =>
      if json_truthy doc then LoveACEManifest.model_validate doc
      else Some LoveACEManifest.empty
  | None => Some LoveACEManifest.empty
  end.

Definition load_manifest : M LoveACEManifest.t :=
  let* data := S3Client.get_json MANIFEST_KEY in
  or_raise ValidationError (manifest_of_data data).

Definition save_manifest (manifest : LoveACEManifest.t) : M string :=
  let content := Text (LoveACEManifest.model_dump manifest) in
  S3Client.upload_content content MANIFEST_KEY.

(** cli.py 78, 171 *)
Definition manifest_url_line (url : string) : printed :=
  Markup ("[dim]Manifest URL: " +:+ url +:+ "[/]").

(** cli.py 106, 239 *)
Definition unsupported_platform (platform : string) : printed :=
  Markup ("[red]❌ 不支持的平台: " +:+ platform +:+ "，支持: "
          +:+ String.concat ", " PLATFORMS +:+ "[/]").

(** *** announce, clear-announce *)

(** cli.py 62-67: [manifest.announcement = Announcement(...)] *)
Definition setAnnouncement (manifest : LoveACEManifest.t)
    (title content : string) (confirm_require : bool) : LoveACEManifest.t :=
  let announcement := Announcement.mk title content confirm_require in
  LoveACEManifest.mk (Some announcement) (LoveACEManifest.ota manifest).

(** cli.py 71-77 *)
Definition announce_panel (title md5 : string) (confirm_require : bool)
    : printed :=
  Panel ("[bold green]✅ 公告发布成功[/]" +:+ LF +:+ LF
         +:+ "[cyan]标题:[/] " +:+ title +:+ LF
         +:+ "[cyan]MD5:[/] " +:+ md5 +:+ LF
         +:+ "[cyan]需确认:[/] " +:+ yes_no confirm_require)
    "公告".

Definition announce (title content : string) (confirm_require : bool)
    : M unit :=
  let* manifest := load_manifest in
  let announcement := Announcement.mk title content confirm_require in
  let manifest := setAnnouncement manifest title content confirm_require in
  let* url := save_manifest manifest in
  let* _ := console_print
              (announce_panel title (Announcement.md5 announcement)
                 confirm_require) in
  console_print (manifest_url_line url).

(** cli.py 86: [manifest.announcement = None] *)
Definition clearAnnouncement (manifest : LoveACEManifest.t)
    : LoveACEManifest.t :=
  LoveACEManifest.mk None (LoveACEManifest.ota manifest).

(** cli.py 88 *)
Definition announcement_cleared : printed := Markup "[green]✅ 公告已清除[/]".

Definition clear_announce : M unit :=
  let* manifest := load_manifest in
  let manifest := clearAnnouncement manifest in
  let* _ := save_manifest manifest in
  console_print announcement_cleared.

(** *** release *)

(** cli.py 133-134: the body of the loop over the old changelog. *)
Definition keep_entry (version : string)
    (changelogs : list ChangelogEntry.t) (entry : ChangelogEntry.t)
    : list ChangelogEntry.t :=
  if negb (String.eqb (ChangelogEntry.version entry) version)
     && (length changelogs <? 10)
  then changelogs ++ [entry]
  else changelogs.

(** cli.py 126-134 *)
Definition build_changelog (manifest : LoveACEManifest.t)
    (version changelog : string) : list ChangelogEntry.t :=
  let changelogs :=
    if str_truthy changelog then [ChangelogEntry.mk version changelog]
    else [] in
  match LoveACEManifest.ota manifest with
  | Some ota =>
      match OTA.changelog ota with
      | [] => changelogs
      | old => fold_left (keep_entry version) old changelogs
      end
  | None => changelogs
  end.

(** cli.py 137-148 *)
Definition update_ota (manifest : LoveACEManifest.t) (content : string)
    (changelogs : list ChangelogEntry.t) : OTA.t :=
  match LoveACEManifest.ota manifest with
  | Some ota =>
      let ota := OTA.mk (OTA.content ota) changelogs (OTA.android ota)
                   (OTA.ios ota) (OTA.windows ota) (OTA.macos ota)
                   (OTA.linux ota) in
      if str_truthy content then
        OTA.mk content (OTA.changelog ota) (OTA.android ota) (OTA.ios ota)
          (OTA.windows ota) (OTA.macos ota) (OTA.linux ota)
      else ota
  | None => OTA.mk content changelogs None None None None None
  end.

(** cli.py 126-159: what [release] does to the manifest it loaded. *)
Definition release_manifest (manifest : LoveACEManifest.t)
    (platform version : string) (force : bool)
    (download_url file_md5 content changelog : string)
    : option LoveACEManifest.t :=
  let changelogs := build_changelog manifest version changelog in
  let ota := update_ota manifest content changelogs in
  let platform_release :=
    PlatformRelease.mk version force download_url file_md5 in
  ota ← OTA.setattr ota platform (Some platform_release);
  Some (LoveACEManifest.mk (LoveACEManifest.announcement manifest) (Some ota)).

(** The update operation of a release: the platform check of cli.py
    105-107 followed by [release_manifest]. *)
Definition publishRelease (manifest : LoveACEManifest.t)
    (platform version : string) (forceUpdate : bool)
    (url checksum sharedContent changelogText : string)
    : error + LoveACEManifest.t :=
  if negb (in_PLATFORMS platform) then inl InvalidPlatform
  else
    match release_manifest manifest platform version forceUpdate url
            checksum sharedContent changelogText with
    | Some manifest' => inr manifest'
    | None => inl ValueError
    end.

(** cli.py 110; [file] is the text of the [Path]. *)
Definition file_missing (file : string) : printed :=
  Markup ("[red]❌ 文件不存在: " +:+ file +:+ "[/]").

(** cli.py 118 *)
Definition md5_line (file_md5 : string) : printed :=
  Markup ("[dim]文件 MD5: " +:+ file_md5 +:+ "[/]").

(** cli.py 122 *)
Definition upload_status (name : string) : string :=
  "[bold blue]上传 " +:+ name +:+ "...".

(** cli.py 162-170 *)
Definition release_panel (version platform file_md5 : string) (force : bool)
    (download_url : string) : printed :=
  Panel ("[bold green]✅ 版本发布成功[/]" +:+ LF +:+ LF
         +:+ "[cyan]版本:[/] " +:+ version +:+ LF
         +:+ "[cyan]平台:[/] " +:+ platform +:+ LF
         +:+ "[cyan]MD5:[/] " +:+ file_md5 +:+ LF
         +:+ "[cyan]强制更新:[/] " +:+ yes_no force +:+ LF
         +:+ "[cyan]下载地址:[/] " +:+ download_url)
    "OTA 发布".

(** [file] is the text of the [Path] of the option, [str(file)]. *)
Definition release (version platform file : string) (force : bool)
    (content changelog : string) : M unit :=
  if negb (in_PLATFORMS platform) then
    let* _ := console_print (unsupported_platform platform) in
    raise InvalidPlatform
  else
    let* found := path_exists file in
    if negb found then
      let* _ := console_print (file_missing file) in
      raise FileNotFound
    else
      let* manifest := load_manifest in
      let* file_md5 := get_file_md5 file in
      let* _ := console_print (md5_line file_md5) in
      let s3_key := "loveace/releases/" +:+ platform +:+ "/" +:+ version
                      +:+ "/" +:+ path_name file in
      let* _ := console_status (upload_status (path_name file)) in
      let* download_url := S3Client.upload_file file s3_key in
      let* manifest :=
        or_raise ValueError
          (release_manifest manifest platform version force download_url
             file_md5 content changelog) in
      let* url := save_manifest manifest in
      let* _ := console_print
                  (release_panel version platform file_md5 force
                     download_url) in
      console_print (manifest_url_line url).

(** *** set-force *)

(** cli.py 245-256: what [set_force] does to the manifest it loaded. *)
Definition force_manifest (manifest : LoveACEManifest.t)
    (platform : string) (force : bool) : error + LoveACEManifest.t :=
  match LoveACEManifest.ota manifest with
  | None => inl NoOtaConfigured
  | Some ota =>
      match OTA.getattr ota platform with
      | None => inl PlatformNotReleased
      | Some release =>
          let release :=
            PlatformRelease.mk (PlatformRelease.version release) force
              (PlatformRelease.url release) (PlatformRelease.md5 release) in
          match OTA.setattr ota platform (Some release) with
          | Some ota =>
              inr (LoveACEManifest.mk (LoveACEManifest.announcement manifest)
                     (Some ota))
          | None => inl ValueError
          end
      end
  end.

(** The update operation of set-force: the platform check of cli.py
    238-240 followed by [force_manifest]. *)
Definition setForceUpdate (manifest : LoveACEManifest.t)
    (platform : string) (forceUpdate : bool) : error + LoveACEManifest.t :=
  if negb (in_PLATFORMS platform) then inl InvalidPlatform
  else force_manifest manifest platform forceUpdate.

(** cli.py 246 *)
Definition no_ota_configured : printed := Markup "[red]❌ 暂无 OTA 配置[/]".

(** cli.py 251 *)
Definition platform_not_released (platform : string) : printed :=
  Markup ("[red]❌ 平台 " +:+ platform +:+ " 暂无发布信息[/]").

(** cli.py 259 *)
Definition force_updated (platform : string) (force : bool) : printed :=
  Markup ("[green]✅ 已" +:+ (if force then "启用" else "禁用") +:+ " "
          +:+ upper platform +:+ " 平台的强制更新[/]").

(** [console.print] of each in turn. *)
Fixpoint print_all (ps : list printed) : M unit :=
  match ps with
  | [] => ret tt
  | p :: ps' => let* _ := console_print p in print_all ps'
  end.

Definition set_force (platform : string) (force : bool) : M unit :=
  if negb (in_PLATFORMS platform) then
    let* _ := console_print (unsupported_platform platform) in
    raise InvalidPlatform
  else
    let* manifest := load_manifest in
    match LoveACEManifest.ota manifest with
    | None =>
        let* _ := console_print no_ota_configured in
        raise NoOtaConfigured
    | Some ota =>
        match OTA.getattr ota platform with
        | None =>
            let* _ := console_print (platform_not_released platform) in
            raise PlatformNotReleased
        | Some release =>
            let release :=
              PlatformRelease.mk (PlatformRelease.version release) force
                (PlatformRelease.url release) (PlatformRelease.md5 release) in
            let* ota :=
              or_raise ValueError
                (OTA.setattr ota platform (Some release)) in
            let manifest :=
              LoveACEManifest.mk (LoveACEManifest.announcement manifest)
                (Some ota) in
            let* _ := save_manifest manifest in
            console_print (force_updated platform force)
        end
    end.

(** *** status *)

(** cli.py 212-218: the row of a platform with a record. *)
Definition platform_row (p : string) (release : PlatformRelease.t)
    : list string :=
  [upper p;
   PlatformRelease.version release;
   yes_no (PlatformRelease.force_ota release);
   str_take 16 (PlatformRelease.md5 release) +:+ "...";
   PlatformRelease.url release].

(** cli.py 209-218: the rows of the platforms of [PLATFORMS] that have a
    record, in the order of [PLATFORMS]. *)
Definition platform_rows (o : OTA.t) : list (list string) :=
  fold_left
    (fun rows p =>
       match OTA.getattr o p with
       | Some release => rows ++ [platform_row p release]
       | None => rows
       end)
    PLATFORMS [].

(** cli.py 181-191 *)
Definition announcement_output (manifest : LoveACEManifest.t) : printed :=
  match LoveACEManifest.announcement manifest with
  | Some a =>
      Panel ("[cyan]标题:[/] " +:+ Announcement.title a +:+ LF
             +:+ "[cyan]内容:[/] " +:+ Announcement.content a +:+ LF
             +:+ "[cyan]MD5:[/] " +:+ Announcement.md5 a +:+ LF
             +:+ "[cyan]需确认:[/] "
             +:+ yes_no (Announcement.confirm_require a))
        "📢 当前公告"
  | None => Markup "[dim]📢 暂无公告[/]"
  end.

(** cli.py 194-229 *)
Definition ota_output (manifest : LoveACEManifest.t) : list printed :=
  match LoveACEManifest.ota manifest with
  | Some o =>
      [Panel ("[cyan]弹窗内容:[/] "
              +:+ (if str_truthy (OTA.content o) then OTA.content o
                   else "(无)"))
         "📦 OTA 配置";
       Table "平台发布信息" ["平台"; "版本"; "强制更新"; "MD5"; "下载地址"]
         (platform_rows o)]
      ++ match OTA.changelog o with
         | [] => []
         | entries =>
             [Table "更新日志" ["版本"; "更新内容"]
                (map (fun entry => [ChangelogEntry.version entry;
                                    ChangelogEntry.changes entry])
                   entries)]
         end
  | None => [Markup "[dim]📦 暂无版本信息[/]"]
  end.

(** The command returns what it printed. *)
Definition status : M (list printed) :=
  let* manifest := load_manifest in
  let output := announcement_output manifest :: ota_output manifest in
  let* _ := print_all output in
  ret output.

(** *** deploy-page *)

(** cli.py 271-286: the messages of the command. *)
Definition page_missing : printed := Markup "[red]❌ download.html 不存在[/]".

Definition page_status : string := "[bold blue]上传下载页面...".

Definition page_deployed : printed := Markup "[green]✅ 下载页面已部署[/]".

Definition icon_status : string := "[bold blue]上传 Favicon...".

Definition icon_deployed : printed := Markup "[green]✅ Favicon 已部署[/]".

Definition icon_skipped : printed :=
  Markup "[yellow]⚠️ favicon.png 不存在，跳过[/]".

Definition url_line (url : string) : printed :=
  Markup ("[dim]URL: " +:+ url +:+ "[/]").

(** [base_path] is the directory of cli.py and [parent] the directory
    above it, as [Path(__file__)] gives them where the tool is
    installed. The exit after the message that download.html does not
    exist is recorded as [FileNotFound]. *)
Definition deploy_page (base_path parent : string) : M unit :=
  let html_path := base_path +:+ "/download.html" in
  let favicon_path := parent +:+ "/web/favicon.png" in
  let* found := path_exists html_path in
  if negb found then
    let* _ := console_print page_missing in
    raise FileNotFound
  else
    let* _ := console_status page_status in
    let* html_url := S3Client.upload_file html_path DOWNLOAD_PAGE_KEY in
    let* _ := console_print page_deployed in
    let* _ := console_print (url_line html_url) in
    let* icon := path_exists favicon_path in
    if icon then
      let* _ := console_status icon_status in
      let* favicon_url := S3Client.upload_file favicon_path FAVICON_KEY in
      let* _ := console_print icon_deployed in
      console_print (url_line favicon_url)
    else console_print icon_skipped.

(* ===================================================================== *)
(** ** Notions the properties are stated with *)
(* ===================================================================== *)

Definition versions (l : list ChangelogEntry.t) : list string :=
  ChangelogEntry.version <$> l.

(** The changelog of a manifest; a manifest without OTA has none. *)
Definition changelog_of (manifest : LoveACEManifest.t)
    : list ChangelogEntry.t :=
  match LoveACEManifest.ota manifest with
  | Some ota => OTA.changelog ota
  | None => []
  end.

(** The changelog of a release as the specification words it: the new
    entry when there is text, then the old entries of other versions in
    their order, the whole cut to ten. *)
Definition changelog_spec (old : list ChangelogEntry.t)
    (version text : string) : list ChangelogEntry.t :=
  take 10
    ((if str_truthy text then [ChangelogEntry.mk version text] else [])
       ++ filter (λ e, ChangelogEntry.version e ≠ version) old).

(** The manifests that releases build up from the empty one. *)
Inductive reachable : LoveACEManifest.t -> Prop :=
| reachable_empty : reachable LoveACEManifest.empty
| reachable_release manifest manifest' platform version forceUpdate url
    checksum sharedContent changelogText :
    reachable manifest ->
    publishRelease manifest platform version forceUpdate url checksum
      sharedContent changelogText = inr manifest' ->
    reachable manifest'.

(** The record of a platform in a manifest. *)
Definition platform_record (manifest : LoveACEManifest.t)
    (platform : string) : option PlatformRelease.t :=
  ota ← LoveACEManifest.ota manifest; OTA.getattr ota platform.

(** The shared popup text of a manifest. *)
Definition shared_content (manifest : LoveACEManifest.t) : option string :=
  OTA.content <$> LoveACEManifest.ota manifest.

(** [j.get(k)] for a JSON object [j]. *)
Definition object_field (j : json) (k : string) : option json :=
  match j with
  | JObj d => d !! k
  | _ => None
  end.

(** No field of the object is [null] or an empty object. *)
Definition no_empty_field (j : json) : Prop :=
  forall k v, object_field j k = Some v -> v ≠ JNull /\ v ≠ JObj ∅.

(** The flag the next remote call meets. *)
Definition head_fault (w : World) : bool :=
  match faults w with
  | b :: _ => b
  | [] => false
  end.

(** The world after a local call. *)
Definition logged (e : event) (w : World) : World :=
  mkWorld (settings w) (renders w) (objects w) (files w) (directories w)
    (faults w) (trace w ++ [e]).

(** The world after a remote call that left the bucket as it was. *)
Definition called (e : event) (w : World) : World :=
  mkWorld (settings w) (renders w) (objects w) (files w) (directories w)
    (tail (faults w)) (trace w ++ [e]).

(** The world after a write that went through. *)
Definition written (key : string) (data : blob) (w : World) : World :=
  mkWorld (settings w) (renders w) (<[key := data]> (objects w))
    (files w) (directories w) (tail (faults w)) (trace w ++ [S3Write key]).

(** The world with the object at [key] removed. *)
Definition without (key : string) (w : World) : World :=
  mkWorld (settings w) (renders w) (delete key (objects w)) (files w)
    (directories w) (faults w) (trace w).

(** The read of the object at [key] fails: the call meets a fault, there
    is no such object, or its bytes are not JSON text. *)
Definition read_fails (w : World) (key : string) : bool :=
  head_fault w
  || match objects w !! key with
     | Some (Text _) => false
     | Some (Raw _) | None => true
     end.

(** What [get_json] returns for the object at [key]. *)
Definition fetched (w : World) (key : string) : option json :=
  if head_fault w then None
  else
    match objects w !! key with
    | Some (Text JNull) => None
    | Some (Text doc) => Some doc
    | Some (Raw _) | None => None
    end.

(** A CDN base URL is set. *)
Definition has_cdn (w : World) : bool := str_truthy (cdn_base_url (settings w)).

(** The URL of an object as [_get_url] builds it from the CDN base URL. *)
Definition url_of (w : World) (s3_key : string) : string :=
  S3Client.rstrip "/"%char (cdn_base_url (settings w)) +:+ "/" +:+ s3_key.

(** How a run ends that has only [ps] left to print. *)
Definition printing (w : World) (ps : list printed) : error + unit :=
  if forallb (shows w) ps then inr tt else inl MarkupError.

(** How a run ends that has the URL of its last upload to build and
    then [ps] to print. *)
Definition ending (w : World) (ps : list printed) : error + unit :=
  if has_cdn w then printing w ps else inl AttributeError.

(** How a run ends that prints [ps] and then exits with [e]. *)
Definition exiting {A : Type} (w : World) (ps : list printed) (e : error)
    : error + A :=
  if forallb (shows w) ps then inl e else inl MarkupError.

(** The message [set_force] prints before the exit with [e]. *)
Definition exit_message (platform : string) (e : error) : list printed :=
  match e with
  | InvalidPlatform => [unsupported_platform platform]
  | NoOtaConfigured => [no_ota_configured]
  | PlatformNotReleased => [platform_not_released platform]
  | _ => []
  end.

(** The key an installer is uploaded to. *)
Definition release_key (platform version file : string) : string :=
  "loveace/releases/" +:+ platform +:+ "/" +:+ version +:+ "/"
    +:+ path_name file.

(** The keys written to, in the order of the writes. *)
Definition writes_of (tr : list event) : list string :=
  omap (λ e, match e with S3Write key => Some key | _ => None end) tr.

(** The position of the first [e] in a trace. *)
Fixpoint position (e : event) (tr : list event) : option nat :=
  match tr with
  | [] => None
  | e' :: tr' => if event_eqb e e' then Some 0 else S <$> position e tr'
  end.

(** Both calls were issued, the first [e1] before the first [e2]. *)
Definition happens_before (e1 e2 : event) (tr : list event) : bool :=
  match position e1 tr, position e2 tr with
  | Some i, Some j => i <? j
  | _, _ => false
  end.

(** The order of the calls of a release as the specification gives it:
    path check, checksum, upload, manifest read, manifest write. *)
Definition specified_release_order (file key : string)
    (tr : list event) : bool :=
  happens_before (FsExists file) (FsRead file) tr
  && happens_before (FsRead file) (S3Write key) tr
  && happens_before (S3Write key) (S3Read MANIFEST_KEY) tr
  && happens_before (S3Read MANIFEST_KEY) (S3Write MANIFEST_KEY) tr.

(** The calls of a release that goes through, in the order of cli.py. *)
Definition release_calls (file key : string) : list event :=
  [FsExists file; S3Read MANIFEST_KEY; FsRead file; FsRead file;
   S3Write key; S3Write MANIFEST_KEY].

(** The manifest a command loads from the world. *)
Definition stored_manifest (w : World) : option LoveACEManifest.t :=
  manifest_of_data (fetched w MANIFEST_KEY).

(** What a successful set-force may change: the flag of the record of
    [platform], nothing else. *)
Definition only_flag_set (platform : string) (force : bool)
    (m m' : LoveACEManifest.t) : Prop :=
  (exists r, platform_record m platform = Some r
     /\ platform_record m' platform
        = Some (PlatformRelease.mk (PlatformRelease.version r) force
                  (PlatformRelease.url r) (PlatformRelease.md5 r)))
  /\ (forall q, q ≠ platform -> platform_record m' q = platform_record m q)
  /\ LoveACEManifest.announcement m' = LoveACEManifest.announcement m
  /\ shared_content m' = shared_content m
  /\ changelog_of m' = changelog_of m.

(** What a release prints before the upload, and after the manifest was
    written. *)
Definition release_progress (file data : string) : list printed :=
  [md5_line (MD5.hexdigest data); Markup (upload_status (path_name file))].

Definition release_report (w : World) (version platform file : string)
    (force : bool) (data : string) : list printed :=
  [release_panel version platform (MD5.hexdigest data) force
     (url_of w (release_key platform version file));
   manifest_url_line (url_of w MANIFEST_KEY)].

(** What [announce] prints after the manifest was written. *)
Definition announce_report (w : World) (title content : string)
    (confirm : bool) : list printed :=
  [announce_panel title
     (Announcement.md5 (Announcement.mk title content confirm)) confirm;
   manifest_url_line (url_of w MANIFEST_KEY)].

(** What [status] prints for a manifest. *)
Definition status_output (m : LoveACEManifest.t) : list printed :=
  announcement_output m :: ota_output m.

(** The state of [name_from] at the end of a part. *)
Definition kept_part (last part : string) : string :=
  if is_part part then part else last.

(** *** Sample data *)

(** A parser for the samples: it reads a text through unless a closing
    tag comes while no tag is open. *)
Fixpoint tags_close (open : nat) (text : string) : bool :=
  match text with
  | EmptyString => true
  | String a r =>
      if Ascii.eqb a "["%char then
        match r with
        | EmptyString => true
        | String b _ =>
            if Ascii.eqb b "/"%char then
              match open with
              | O => false
              | S n => tags_close n r
              end
            else tags_close (S open) r
        end
      else tags_close open r
  end.

Definition sample_world : World :=
  mkWorld (mkSettings "https://cdn.example.com/" "releases") (tags_close 0)
    ∅ (<["dist/app.apk" := "installer bytes"]> ∅) {["dist"]} [] [].

Definition sample_url : string :=
  "https://cdn.example.com/loveace/releases/android/1.0.0/app.apk".

Definition sample_md5 : string := "92e746f0c579159888b6d46cc04bec37".

(** The empty manifest after the release of 1.0.0 for android with the
    changelog text Initial. *)
Definition released_once : LoveACEManifest.t :=
  LoveACEManifest.mk None
    (Some (OTA.mk EmptyString [ChangelogEntry.mk "1.0.0" "Initial"]
             (Some (PlatformRelease.mk "1.0.0" false sample_url sample_md5))
             None None None None)).

(** The same after a second release of 1.0.0 with the text Initial fix. *)
Definition released_twice : LoveACEManifest.t :=
  LoveACEManifest.mk None
    (Some (OTA.mk EmptyString [ChangelogEntry.mk "1.0.0" "Initial fix"]
             (Some (PlatformRelease.mk "1.0.0" false sample_url sample_md5))
             None None None None)).

(** The world with another bucket. *)
Definition with_objects (o : gmap string blob) (w : World) : World :=
  mkWorld (settings w) (renders w) o (files w) (directories w) (faults w)
    (trace w).

(** A world whose bucket holds [released_once]. *)
Definition released_world : World :=
  with_objects
    (<[MANIFEST_KEY := Text (LoveACEManifest.model_dump released_once)]> ∅)
    sample_world.

(** A world whose manifest object is JSON text of another shape. *)
Definition legacy_world : World :=
  with_objects
    (<[MANIFEST_KEY := Text (JObj (<["ota" := JStr "1.0.0"]> ∅))]> ∅)
    sample_world.

(** A world whose manifest object is not JSON text. *)
Definition corrupt_world : World :=
  with_objects (<[MANIFEST_KEY := Raw "{ announcement: "]> ∅) sample_world.

(** The world once no fault is to come. *)
Definition settled (w : World) : World :=
  mkWorld (settings w) (renders w) (objects w) (files w) (directories w) []
    (trace w).

(** The text has a slash. *)
Definition has_slash (s : string) : bool :=
  existsb (Ascii.eqb "/"%char) (list_ascii_of_string s).

(** The last byte of the text is [c]. *)
Fixpoint ends_with (c : ascii) (s : string) : bool :=
  match s with
  | EmptyString => false
  | String a EmptyString => Ascii.eqb a c
  | String _ r => ends_with c r
  end.

(** The world with another CDN base URL. *)
Definition with_cdn (base : string) (w : World) : World :=
  mkWorld (mkSettings base (s3_bucket (settings w))) (renders w)
    (objects w) (files w) (directories w) (faults w) (trace w).

(* ===================================================================== *)
(** ** Basic facts *)
(* ===================================================================== *)

Lemma str_truthy_true (s : string) : str_truthy s = true <-> s ≠ EmptyString.
Proof.
  unfold str_truthy. destruct (String.eqb_spec s EmptyString); split;
    intros; try done; congruence.
Qed.

Lemma str_truthy_false (s : string) : str_truthy s = false <-> s = EmptyString.
Proof.
  unfold str_truthy. destruct (String.eqb_spec s EmptyString); split;
    intros; try done; congruence.
Qed.

Lemma in_PLATFORMS_cases (p : string) :
  in_PLATFORMS p = true <->
  p = "android" \/ p = "ios" \/ p = "windows" \/ p = "macos" \/ p = "linux".
Proof.
  unfold in_PLATFORMS, PLATFORMS. cbn [existsb].
  rewrite !orb_true_iff, !String.eqb_eq. intuition discriminate.
Qed.

Lemma in_PLATFORMS_spec (p : string) : in_PLATFORMS p = true <-> p ∈ PLATFORMS.
Proof.
  rewrite in_PLATFORMS_cases. unfold PLATFORMS.
  rewrite !elem_of_cons, elem_of_nil. tauto.
Qed.

Lemma not_in_PLATFORMS (p : string) : in_PLATFORMS p = false <-> p ∉ PLATFORMS.
Proof.
  rewrite <- in_PLATFORMS_spec. destruct (in_PLATFORMS p); split; done.
Qed.

(** Case analysis on the name tests of [getattr] and [setattr]. *)
Ltac name_cases :=
  repeat match goal with
    | |- context [String.eqb ?a ?b] =>
        destruct (String.eqb_spec a b); subst; try congruence
    | H : context [String.eqb ?a ?b] |- _ =>
        destruct (String.eqb_spec a b); subst; try congruence
    end.

Lemma setattr_platform (o : OTA.t) (p : string)
    (r : option PlatformRelease.t) :
  in_PLATFORMS p = true -> is_Some (OTA.setattr o p r).
Proof.
  rewrite in_PLATFORMS_cases. destruct o.
  intros [-> | [-> | [-> | [-> | ->]]]]; cbn; eauto.
Qed.

Lemma setattr_shared (o o' : OTA.t) (p : string)
    (r : option PlatformRelease.t) :
  OTA.setattr o p r = Some o' ->
  OTA.content o' = OTA.content o /\ OTA.changelog o' = OTA.changelog o.
Proof.
  destruct o. unfold OTA.setattr. intros H.
  name_cases; inversion H; subst; auto.
Qed.

Lemma getattr_setattr_eq (o o' : OTA.t) (p : string)
    (r : option PlatformRelease.t) :
  OTA.setattr o p r = Some o' -> OTA.getattr o' p = r.
Proof.
  destruct o. unfold OTA.setattr. intros H.
  name_cases; inversion H; subst; reflexivity.
Qed.

Lemma getattr_setattr_ne (o o' : OTA.t) (p q : string)
    (r : option PlatformRelease.t) :
  OTA.setattr o p r = Some o' -> q ≠ p -> OTA.getattr o' q = OTA.getattr o q.
Proof.
  destruct o. unfold OTA.setattr, OTA.getattr. intros H Hq.
  name_cases; inversion H; subst; cbn; name_cases; reflexivity.
Qed.

(* ===================================================================== *)
(** ** The changelog of a release *)
(* ===================================================================== *)

Lemma filter_none {A : Type} (P : A -> Prop) `{!forall x, Decision (P x)}
    (l : list A) :
  (forall x, x ∈ l -> ~ P x) -> filter P l = [].
Proof.
  induction l as [|a l IH]; intros Hno; [reflexivity|].
  rewrite filter_cons_False by (apply Hno; left).
  apply IH. intros x Hx. apply Hno. by right.
Qed.

Section Changelog.

Variable version : string.

Local Abbreviation other :=
  (fun e : ChangelogEntry.t => ChangelogEntry.version e ≠ version).

(** The loop of cli.py 132-134 appends the old entries of other versions
    while fewer than ten entries are held. *)
Lemma fold_keep_entry (old acc : list ChangelogEntry.t) :
  fold_left (keep_entry version) old acc
  = acc ++ take (10 - length acc) (filter other old).
Proof.
  revert acc. induction old as [|e old IH]; intros acc; cbn [fold_left].
  - rewrite filter_nil, take_nil. by rewrite app_nil_r.
  - rewrite IH. unfold keep_entry.
    destruct (String.eqb_spec (ChangelogEntry.version e) version) as [E|E];
      cbn [negb andb].
    + rewrite filter_cons_False by (cbn; tauto). reflexivity.
    + rewrite filter_cons_True by exact E.
      destruct (Nat.ltb_spec (length acc) 10) as [L|L].
      * rewrite length_app. cbn [length].
        replace (10 - length acc) with (S (10 - (length acc + 1))) by lia.
        cbn [take]. by rewrite <- app_assoc.
      * replace (10 - length acc) with 0 by lia. reflexivity.
Qed.

(** The code builds the changelog the specification describes. *)
Lemma build_changelog_spec (manifest : LoveACEManifest.t) (text : string) :
  build_changelog manifest version text
  = changelog_spec (changelog_of manifest) version text.
Proof.
  unfold build_changelog, changelog_spec, changelog_of.
  set (new := if str_truthy text then _ else _).
  assert (Hnew : length new <= 1) by (subst new; destruct (str_truthy text); cbn; lia).
  assert (Hgen : forall old,
    fold_left (keep_entry version) old new = take 10 (new ++ filter other old)).
  { intros old. rewrite fold_keep_entry, take_app.
    rewrite (take_ge new) by lia. reflexivity. }
  destruct (LoveACEManifest.ota manifest) as [o|].
  - destruct (OTA.changelog o) as [|e old] eqn:E.
    + rewrite filter_nil, app_nil_r, take_ge by lia. reflexivity.
    + apply Hgen.
  - rewrite filter_nil, app_nil_r, take_ge by lia. reflexivity.
Qed.

Lemma changelog_spec_length (old : list ChangelogEntry.t) (text : string) :
  length (changelog_spec old version text) <= 10.
Proof. unfold changelog_spec. rewrite length_take. lia. Qed.

Lemma changelog_spec_NoDup (old : list ChangelogEntry.t) (text : string) :
  NoDup (versions old) -> NoDup (versions (changelog_spec old version text)).
Proof.
  intros Hold. unfold changelog_spec, versions. rewrite fmap_take.
  eapply sublist_NoDup; [|apply sublist_take].
  rewrite fmap_app. apply NoDup_app. split; [|split].
  - destruct (str_truthy text); cbn; [apply NoDup_singleton | apply NoDup_nil_2].
  - intros v Hv Hin. apply list_elem_of_fmap in Hin as (e & -> & He).
    apply list_elem_of_filter in He as [He _].
    destruct (str_truthy text); cbn in Hv.
    + apply list_elem_of_singleton in Hv. by apply He.
    + by apply elem_of_nil in Hv.
  - eapply sublist_NoDup; [exact Hold|].
    apply fmap_sublist, sublist_filter.
Qed.

(** The entries of the released version: the new one, or none when no
    text came with the release. *)
Lemma changelog_spec_version (old : list ChangelogEntry.t) (text : string) :
  filter (λ e, ChangelogEntry.version e = version)
    (changelog_spec old version text)
  = if str_truthy text then [ChangelogEntry.mk version text] else [].
Proof.
  unfold changelog_spec.
  assert (Hrest : forall n,
    filter (λ e, ChangelogEntry.version e = version)
      (take n (filter other old)) = []).
  { intros n. apply filter_none. intros e He Hv.
    eapply elem_of_sublist in He; [|apply sublist_take].
    apply list_elem_of_filter in He as [He _]. by apply He. }
  destruct (str_truthy text); cbn [app].
  - cbn [take]. rewrite filter_cons_True by reflexivity. by rewrite Hrest.
  - apply Hrest.
Qed.

Lemma changelog_spec_head (old : list ChangelogEntry.t) (text : string) :
  text ≠ EmptyString ->
  head (changelog_spec old version text)
  = Some (ChangelogEntry.mk version text).
Proof.
  intros Ht. apply str_truthy_true in Ht.
  unfold changelog_spec. rewrite Ht. reflexivity.
Qed.

End Changelog.

(* ===================================================================== *)
(** ** The manifest after a release *)
(* ===================================================================== *)

Lemma update_ota_changelog (m : LoveACEManifest.t) (content : string)
    (l : list ChangelogEntry.t) :
  OTA.changelog (update_ota m content l) = l.
Proof.
  unfold update_ota. destruct (LoveACEManifest.ota m); [|reflexivity].
  destruct (str_truthy content); reflexivity.
Qed.

Lemma update_ota_content (m : LoveACEManifest.t) (content : string)
    (l : list ChangelogEntry.t) :
  OTA.content (update_ota m content l)
  = match LoveACEManifest.ota m with
    | Some o => if str_truthy content then content else OTA.content o
    | None => content
    end.
Proof.
  unfold update_ota. destruct (LoveACEManifest.ota m); [|reflexivity].
  destruct (str_truthy content); reflexivity.
Qed.

Lemma update_ota_getattr (m : LoveACEManifest.t) (content : string)
    (l : list ChangelogEntry.t) (q : string) :
  OTA.getattr (update_ota m content l) q = platform_record m q.
Proof.
  unfold update_ota, platform_record.
  destruct (LoveACEManifest.ota m) as [o|]; cbn.
  - destruct (str_truthy content); reflexivity.
  - unfold OTA.getattr; cbn. by name_cases.
Qed.

Lemma release_manifest_inv (m m' : LoveACEManifest.t) (p v : string)
    (f : bool) (u c s t : string) :
  release_manifest m p v f u c s t = Some m' ->
  exists o',
    OTA.setattr (update_ota m s (build_changelog m v t)) p
      (Some (PlatformRelease.mk v f u c)) = Some o'
    /\ m' = LoveACEManifest.mk (LoveACEManifest.announcement m) (Some o').
Proof.
  unfold release_manifest. intros H.
  destruct (OTA.setattr _ p _) as [o'|] eqn:E; cbn in H; [|discriminate].
  exists o'. split; [reflexivity|]. congruence.
Qed.

Lemma publishRelease_inv (m m' : LoveACEManifest.t) (p v : string)
    (f : bool) (u c s t : string) :
  publishRelease m p v f u c s t = inr m' ->
  in_PLATFORMS p = true /\ release_manifest m p v f u c s t = Some m'.
Proof.
  unfold publishRelease. destruct (in_PLATFORMS p); cbn; [|discriminate].
  destruct (release_manifest m p v f u c s t); [|discriminate].
  intros [= ->]. auto.
Qed.

(** With a platform of [PLATFORMS] the update of a release goes through:
    the assignment by name never raises. *)
Lemma release_manifest_total (m : LoveACEManifest.t) (p v : string)
    (f : bool) (u c s t : string) :
  in_PLATFORMS p = true -> is_Some (release_manifest m p v f u c s t).
Proof.
  intros Hp. unfold release_manifest.
  destruct (setattr_platform (update_ota m s (build_changelog m v t)) p
              (Some (PlatformRelease.mk v f u c)) Hp) as [o' ->].
  cbn. eauto.
Qed.

Lemma publishRelease_total (m : LoveACEManifest.t) (p v : string)
    (f : bool) (u c s t : string) :
  in_PLATFORMS p = true ->
  exists m', publishRelease m p v f u c s t = inr m'.
Proof.
  intros Hp. unfold publishRelease. rewrite Hp. cbn.
  destruct (release_manifest_total m p v f u c s t Hp) as [m' ->]. eauto.
Qed.

Lemma publishRelease_invalid (m : LoveACEManifest.t) (p v : string)
    (f : bool) (u c s t : string) :
  in_PLATFORMS p = false -> publishRelease m p v f u c s t = inl InvalidPlatform.
Proof. intros Hp. unfold publishRelease. by rewrite Hp. Qed.

Lemma release_changelog (m m' : LoveACEManifest.t) (p v : string)
    (f : bool) (u c s t : string) :
  publishRelease m p v f u c s t = inr m' ->
  changelog_of m' = changelog_spec (changelog_of m) v t.
Proof.
  intros H. apply publishRelease_inv in H as [_ H].
  apply release_manifest_inv in H as (o' & Ho' & ->).
  apply setattr_shared in Ho' as [_ Hl].
  unfold changelog_of at 1. cbn. rewrite Hl, update_ota_changelog.
  apply build_changelog_spec.
Qed.

Lemma release_record (m m' : LoveACEManifest.t) (p v : string)
    (f : bool) (u c s t : string) :
  publishRelease m p v f u c s t = inr m' ->
  platform_record m' p = Some (PlatformRelease.mk v f u c)
  /\ forall q, q ≠ p -> platform_record m' q = platform_record m q.
Proof.
  intros H. apply publishRelease_inv in H as [_ H].
  apply release_manifest_inv in H as (o' & Ho' & ->).
  unfold platform_record at 1 2. cbn. split.
  - eapply getattr_setattr_eq, Ho'.
  - intros q Hq. rewrite (getattr_setattr_ne _ _ _ _ _ Ho' Hq).
    apply update_ota_getattr.
Qed.

Lemma release_content (m m' : LoveACEManifest.t) (p v : string)
    (f : bool) (u c s t : string) :
  publishRelease m p v f u c s t = inr m' ->
  shared_content m'
  = Some match LoveACEManifest.ota m with
         | Some o => if str_truthy s then s else OTA.content o
         | None => s
         end.
Proof.
  intros H. apply publishRelease_inv in H as [_ H].
  apply release_manifest_inv in H as (o' & Ho' & ->).
  apply setattr_shared in Ho' as [Hc _].
  unfold shared_content. cbn. by rewrite Hc, update_ota_content.
Qed.

Lemma release_announcement (m m' : LoveACEManifest.t) (p v : string)
    (f : bool) (u c s t : string) :
  publishRelease m p v f u c s t = inr m' ->
  LoveACEManifest.announcement m' = LoveACEManifest.announcement m.
Proof.
  intros H. apply publishRelease_inv in H as [_ H].
  by apply release_manifest_inv in H as (o' & _ & ->).
Qed.

Lemma reachable_changelog (m : LoveACEManifest.t) :
  reachable m ->
  length (changelog_of m) <= 10 /\ NoDup (versions (changelog_of m)).
Proof.
  induction 1 as [|m m' p v f u c s t _ [_ IH] Hrel].
  - split; [cbn; lia | apply NoDup_nil_2].
  - rewrite (release_changelog _ _ _ _ _ _ _ _ _ Hrel). split.
    + apply changelog_spec_length.
    + by apply changelog_spec_NoDup.
Qed.

(* ===================================================================== *)
(** ** Serialization *)
(* ===================================================================== *)

Lemma announcement_roundtrip (a : Announcement.t) :
  Announcement.model_validate (Announcement.model_dump a) = Some a.
Proof. destruct a. reflexivity. Qed.

Lemma entry_roundtrip (e : ChangelogEntry.t) :
  ChangelogEntry.model_validate (ChangelogEntry.model_dump e) = Some e.
Proof. destruct e. reflexivity. Qed.

Lemma platform_roundtrip (r : PlatformRelease.t) :
  PlatformRelease.model_validate (PlatformRelease.model_dump r) = Some r.
Proof. destruct r. reflexivity. Qed.

Lemma changelog_roundtrip (d : gmap string json)
    (l : list ChangelogEntry.t) :
  d !! "changelog" = Some (JArr (ChangelogEntry.model_dump <$> l)) ->
  length l <= OTA.max_length ->
  OTA.validate_changelog d = Some l.
Proof.
  intros Hd Hl. unfold OTA.validate_changelog. rewrite Hd.
  rewrite mapM_fmap_Some by exact entry_roundtrip. cbn.
  by apply Nat.leb_le in Hl as ->.
Qed.

Lemma field_optional_Some {A : Type} (validate : json -> option A)
    (d : gmap string json) (k : string) (j : json) (x : A) :
  d !! k = Some j -> j ≠ JNull -> validate j = Some x ->
  field_optional validate d k = Some (Some x).
Proof.
  intros Hd Hj Hx. unfold field_optional. rewrite Hd.
  destruct j; try (by rewrite Hx); congruence.
Qed.

Lemma field_optional_None {A : Type} (validate : json -> option A)
    (d : gmap string json) (k : string) :
  d !! k = None -> field_optional validate d k = Some None.
Proof. intros Hd. unfold field_optional. by rewrite Hd. Qed.

Lemma ota_roundtrip (o : OTA.t) :
  length (OTA.changelog o) <= OTA.max_length ->
  OTA.model_validate (OTA.model_dump o) = Some o.
Proof.
  destruct o as [c l a i w m x]. cbn [OTA.changelog]. intros Hl.
  unfold OTA.model_validate, OTA.model_dump.
  cbn [OTA.content OTA.changelog OTA.android OTA.ios OTA.windows
       OTA.macos OTA.linux].
  destruct a as [[]|], i as [[]|], w as [[]|], m as [[]|], x as [[]|];
    (rewrite (changelog_roundtrip _ l); [reflexivity | reflexivity | exact Hl]).
Qed.

Lemma manifest_validate_dump (m : LoveACEManifest.t) :
  LoveACEManifest.valid m ->
  LoveACEManifest.model_validate (LoveACEManifest.model_dump m) = Some m.
Proof.
  destruct m as [a o]. unfold LoveACEManifest.valid. cbn [LoveACEManifest.ota].
  intros Hv. unfold LoveACEManifest.model_validate, LoveACEManifest.model_dump.
  cbn [LoveACEManifest.announcement LoveACEManifest.ota].
  destruct a as [a|], o as [o|]; cbn [fmap option_fmap option_map put_opt].
  - rewrite (field_optional_Some _ _ _ (Announcement.model_dump a) a);
      [|reflexivity|discriminate|apply announcement_roundtrip].
    rewrite (field_optional_Some _ _ _ (OTA.model_dump o) o);
      [reflexivity|reflexivity|discriminate|by apply ota_roundtrip].
  - rewrite (field_optional_Some _ _ _ (Announcement.model_dump a) a);
      [|reflexivity|discriminate|apply announcement_roundtrip].
    rewrite (field_optional_None OTA.model_validate); reflexivity.
  - rewrite (field_optional_None Announcement.model_validate) by reflexivity.
    rewrite (field_optional_Some _ _ _ (OTA.model_dump o) o);
      [reflexivity|reflexivity|discriminate|by apply ota_roundtrip].
  - reflexivity.
Qed.


(* ===================================================================== *)
(** ** Running the calls *)
(* ===================================================================== *)

Lemma op_read_run (key : string) (w : World) :
  op_read key w
  = (called (S3Read key) w,
     if head_fault w then inl OpError
     else match objects w !! key with
          | Some data => inr data
          | None => inl OpError
          end).
Proof.
  unfold op_read, bind, emit, next_fault, called, head_fault. cbn.
  destruct (faults w) as [|[] fs]; cbn; try reflexivity;
    destruct (objects w !! key); reflexivity.
Qed.

Lemma op_write_run (key : string) (data : blob) (w : World) :
  op_write key data w
  = if head_fault w then (called (S3Write key) w, inl OpError)
    else (written key data w, inr tt).
Proof.
  unfold op_write, bind, emit, next_fault, called, written, head_fault. cbn.
  destruct (faults w) as [|[] fs]; reflexivity.
Qed.

Lemma get_json_run (key : string) (w : World) :
  S3Client.get_json key w = (called (S3Read key) w, inr (fetched w key)).
Proof.
  unfold S3Client.get_json, try_except, bind at 1 2. rewrite op_read_run.
  unfold fetched, ret. destruct (head_fault w); [reflexivity|].
  destruct (objects w !! key) as [[bytes|doc]|]; reflexivity.
Qed.

Lemma load_manifest_run (w : World) :
  load_manifest w
  = (called (S3Read MANIFEST_KEY) w,
     match manifest_of_data (fetched w MANIFEST_KEY) with
     | Some m => inr m
     | None => inl ValidationError
     end).
Proof.
  unfold load_manifest, bind. rewrite get_json_run.
  destruct (manifest_of_data _); reflexivity.
Qed.

Lemma get_url_run (key : string) (w : World) :
  S3Client._get_url key w
  = (w, if has_cdn w then inr (url_of w key) else inl AttributeError).
Proof.
  unfold S3Client._get_url, url_of, has_cdn, ret, raise.
  destruct (str_truthy (cdn_base_url (settings w))); reflexivity.
Qed.

Lemma upload_content_run (content : blob) (key : string) (w : World) :
  S3Client.upload_content content key w
  = if head_fault w then (called (S3Write key) w, inl OpError)
    else (written key content w,
          if has_cdn w then inr (url_of w key) else inl AttributeError).
Proof.
  unfold S3Client.upload_content, bind. rewrite op_write_run.
  destruct (head_fault w); [reflexivity|]. by rewrite get_url_run.
Qed.

Lemma save_manifest_run (m : LoveACEManifest.t) (w : World) :
  save_manifest m w
  = if head_fault w then (called (S3Write MANIFEST_KEY) w, inl OpError)
    else (written MANIFEST_KEY (Text (LoveACEManifest.model_dump m)) w,
          if has_cdn w then inr (url_of w MANIFEST_KEY)
          else inl AttributeError).
Proof. apply upload_content_run. Qed.

Lemma bind_inr {A B : Type} (m : M A) (k : A -> M B) (w w' : World) (a : A) :
  m w = (w', inr a) -> bind m k w = k a w'.
Proof. intros H. unfold bind. by rewrite H. Qed.

Lemma bind_inl {A B : Type} (m : M A) (k : A -> M B) (w w' : World)
    (e : error) :
  m w = (w', inl e) -> bind m k w = (w', inl e).
Proof. intros H. unfold bind. by rewrite H. Qed.

Lemma path_exists_run (path : string) (w : World) :
  path_exists path w = (logged (FsExists path) w, inr (exists_at w path)).
Proof. reflexivity. Qed.

Lemma read_file_run (path : string) (w : World) :
  read_file path w
  = (logged (FsRead path) w,
     match files w !! path with
     | Some data => inr data
     | None => inl OSError
     end).
Proof.
  unfold read_file, bind, emit, logged, or_raise. cbn.
  destruct (files w !! path); reflexivity.
Qed.

Lemma read_file_ok (path data : string) (w : World) :
  files w !! path = Some data ->
  read_file path w = (logged (FsRead path) w, inr data).
Proof. intros H. rewrite read_file_run. by rewrite H. Qed.

Lemma exists_at_file (w : World) (path data : string) :
  files w !! path = Some data -> exists_at w path = true.
Proof.
  intros H. unfold exists_at. rewrite bool_decide_eq_true_2 by eauto.
  reflexivity.
Qed.

Lemma exists_at_none (w : World) (path : string) :
  files w !! path = None -> path ∉ directories w ->
  exists_at w path = false.
Proof.
  intros Hf Hd. unfold exists_at.
  rewrite bool_decide_eq_false_2 by (intros [? ?]; congruence).
  by rewrite bool_decide_eq_false_2.
Qed.

Lemma console_print_run (p : printed) (w : World) :
  console_print p w = (w, if shows w p then inr tt else inl MarkupError).
Proof. unfold console_print. destruct (shows w p); reflexivity. Qed.

Lemma print_all_run (ps : list printed) (w : World) :
  print_all ps w = (w, printing w ps).
Proof.
  unfold printing. induction ps as [|p ps IH]; [reflexivity|].
  cbn [print_all forallb]. unfold bind. rewrite console_print_run.
  destruct (shows w p); [exact IH | reflexivity].
Qed.

Lemma upload_file_run (path key : string) (w : World) :
  S3Client.upload_file path key w
  = match files w !! path with
    | None => (logged (FsRead path) w, inl OSError)
    | Some data =>
        if head_fault w
        then (called (S3Write key) (logged (FsRead path) w), inl OpError)
        else (written key (Raw data) (logged (FsRead path) w),
              if has_cdn w then inr (url_of w key) else inl AttributeError)
    end.
Proof.
  unfold S3Client.upload_file.
  destruct (files w !! path) as [data|] eqn:Ef.
  - erewrite bind_inr by (by apply read_file_ok).
    unfold bind. rewrite op_write_run.
    change (head_fault (logged (FsRead path) w)) with (head_fault w).
    destruct (head_fault w); [reflexivity|]. by rewrite get_url_run.
  - erewrite bind_inl; [reflexivity|]. by rewrite read_file_run, Ef.
Qed.

(** The end of a command after its last write: the URL, then the
    prints. *)
Lemma ending_two (w : World) (p1 p2 : printed) :
  ending w [p1; p2]
  = if has_cdn w
    then if shows w p1 then if shows w p2 then inr tt else inl MarkupError
         else inl MarkupError
    else inl AttributeError.
Proof.
  unfold ending, printing. cbn [forallb].
  destruct (has_cdn w), (shows w p1), (shows w p2); reflexivity.
Qed.

Lemma ending_one (w : World) (p : printed) :
  ending w [p]
  = if has_cdn w then if shows w p then inr tt else inl MarkupError
    else inl AttributeError.
Proof.
  unfold ending, printing. cbn [forallb].
  destruct (has_cdn w), (shows w p); reflexivity.
Qed.

Lemma announce_run (title content : string) (confirm : bool) (w : World) :
  announce title content confirm w
  = let w1 := called (S3Read MANIFEST_KEY) w in
    match manifest_of_data (fetched w MANIFEST_KEY) with
    | None => (w1, inl ValidationError)
    | Some m =>
        let m' := setAnnouncement m title content confirm in
        if head_fault w1 then (called (S3Write MANIFEST_KEY) w1, inl OpError)
        else (written MANIFEST_KEY (Text (LoveACEManifest.model_dump m')) w1,
              ending w (announce_report w title content confirm))
    end.
Proof.
  unfold announce. cbn zeta.
  destruct (manifest_of_data (fetched w MANIFEST_KEY)) as [m|] eqn:E.
  - erewrite bind_inr by (rewrite load_manifest_run, E; reflexivity).
    unfold bind at 1. rewrite save_manifest_run.
    destruct (head_fault _); [reflexivity|].
    unfold announce_report. rewrite ending_two.
    change (has_cdn (called (S3Read MANIFEST_KEY) w)) with (has_cdn w).
    destruct (has_cdn w); [|reflexivity].
    unfold bind. rewrite !console_print_run.
    change (shows (written ?k ?d (called ?e w)) ?p) with (shows w p).
    destruct (shows w _); [|reflexivity].
    change (url_of (called (S3Read MANIFEST_KEY) w)) with (url_of w).
    destruct (shows w _); reflexivity.
  - erewrite bind_inl by (rewrite load_manifest_run, E; reflexivity).
    reflexivity.
Qed.

Lemma clear_announce_run (w : World) :
  clear_announce w
  = let w1 := called (S3Read MANIFEST_KEY) w in
    match manifest_of_data (fetched w MANIFEST_KEY) with
    | None => (w1, inl ValidationError)
    | Some m =>
        let m' := clearAnnouncement m in
        if head_fault w1 then (called (S3Write MANIFEST_KEY) w1, inl OpError)
        else (written MANIFEST_KEY (Text (LoveACEManifest.model_dump m')) w1,
              ending w [announcement_cleared])
    end.
Proof.
  unfold clear_announce. cbn zeta.
  destruct (manifest_of_data (fetched w MANIFEST_KEY)) as [m|] eqn:E.
  - erewrite bind_inr by (rewrite load_manifest_run, E; reflexivity).
    unfold bind at 1. rewrite save_manifest_run.
    destruct (head_fault _); [reflexivity|].
    rewrite ending_one.
    change (has_cdn (called (S3Read MANIFEST_KEY) w)) with (has_cdn w).
    destruct (has_cdn w); [|reflexivity].
    rewrite console_print_run.
    change (shows (written ?k ?d (called ?e w)) ?p) with (shows w p).
    reflexivity.
  - erewrite bind_inl by (rewrite load_manifest_run, E; reflexivity).
    reflexivity.
Qed.

Lemma set_force_invalid (platform : string) (force : bool) (w : World) :
  in_PLATFORMS platform = false ->
  set_force platform force w
  = (w, exiting w [unsupported_platform platform] InvalidPlatform).
Proof.
  intros Hp. unfold set_force, exiting, bind. rewrite Hp. cbn [negb forallb].
  rewrite console_print_run.
  destruct (shows w _); reflexivity.
Qed.

Lemma set_force_run (platform : string) (force : bool) (w : World) :
  in_PLATFORMS platform = true ->
  set_force platform force w
  = let w1 := called (S3Read MANIFEST_KEY) w in
    match manifest_of_data (fetched w MANIFEST_KEY) with
    | None => (w1, inl ValidationError)
    | Some m =>
        match force_manifest m platform force with
        | inl e => (w1, exiting w (exit_message platform e) e)
        | inr m' =>
            if head_fault w1
            then (called (S3Write MANIFEST_KEY) w1, inl OpError)
            else (written MANIFEST_KEY
                    (Text (LoveACEManifest.model_dump m')) w1,
                  ending w [force_updated platform force])
        end
    end.
Proof.
  intros Hp. unfold set_force. rewrite Hp. cbn [negb]. cbn zeta.
  destruct (manifest_of_data (fetched w MANIFEST_KEY)) as [m|] eqn:E.
  2: { erewrite bind_inl by (rewrite load_manifest_run, E; reflexivity).
       reflexivity. }
  erewrite bind_inr by (rewrite load_manifest_run, E; reflexivity).
  unfold force_manifest, exiting.
  destruct (LoveACEManifest.ota m) as [o|].
  2: { unfold bind. rewrite console_print_run. cbn [exit_message forallb].
       change (shows (called ?e w) ?p) with (shows w p).
       destruct (shows w _); reflexivity. }
  destruct (OTA.getattr o platform) as [r|].
  2: { unfold bind. rewrite console_print_run. cbn [exit_message forallb].
       change (shows (called ?e w) ?p) with (shows w p).
       destruct (shows w _); reflexivity. }
  destruct (OTA.setattr o platform _) as [o'|]; [|reflexivity].
  erewrite bind_inr by reflexivity.
  unfold bind. rewrite save_manifest_run.
  destruct (head_fault _); [reflexivity|].
  rewrite ending_one.
  change (has_cdn (called (S3Read MANIFEST_KEY) w)) with (has_cdn w).
  destruct (has_cdn w); [|reflexivity].
  rewrite console_print_run.
  change (shows (written ?k ?d (called ?e w)) ?p) with (shows w p).
  reflexivity.
Qed.

Lemma release_invalid (version platform file : string) (force : bool)
    (content changelog : string) (w : World) :
  in_PLATFORMS platform = false ->
  release version platform file force content changelog w
  = (w, exiting w [unsupported_platform platform] InvalidPlatform).
Proof.
  intros Hp. unfold release, exiting, bind. rewrite Hp. cbn [negb forallb].
  rewrite console_print_run.
  destruct (shows w _); reflexivity.
Qed.

Lemma release_run (version platform file : string) (force : bool)
    (content changelog : string) (w : World) :
  in_PLATFORMS platform = true ->
  release version platform file force content changelog w
  = let w1 := logged (FsExists file) w in
    if exists_at w file then
      let w2 := called (S3Read MANIFEST_KEY) w1 in
      match manifest_of_data (fetched w MANIFEST_KEY) with
      | None => (w2, inl ValidationError)
      | Some m =>
          let w3 := logged (FsRead file) w2 in
          match files w !! file with
          | None => (w3, inl OSError)
          | Some data =>
              if forallb (shows w) (release_progress file data) then
                let w4 := logged (FsRead file) w3 in
                let key := release_key platform version file in
                if head_fault w4 then (called (S3Write key) w4, inl OpError)
                else
                  let w5 := written key (Raw data) w4 in
                  if has_cdn w then
                    match release_manifest m platform version force
                            (url_of w key) (MD5.hexdigest data) content
                            changelog with
                    | None => (w5, inl ValueError)
                    | Some m' =>
                        if head_fault w5
                        then (called (S3Write MANIFEST_KEY) w5, inl OpError)
                        else (written MANIFEST_KEY
                                (Text (LoveACEManifest.model_dump m')) w5,
                              printing w
                                (release_report w version platform file
                                   force data))
                    end
                  else (w5, inl AttributeError)
              else (w3, inl MarkupError)
          end
      end
    else (w1, exiting w [file_missing file] FileNotFound).
Proof.
  intros Hp. unfold release. rewrite Hp. cbn [negb]. cbn zeta.
  erewrite bind_inr by apply path_exists_run.
  destruct (exists_at w file) eqn:Ex; cbn [negb].
  2: { unfold bind, exiting. rewrite console_print_run. cbn [forallb].
       change (shows (logged ?e w) ?p) with (shows w p).
       destruct (shows w _); reflexivity. }
  change (fetched w MANIFEST_KEY)
    with (fetched (logged (FsExists file) w) MANIFEST_KEY).
  destruct (manifest_of_data _) as [m|] eqn:E.
  2: { erewrite bind_inl by (rewrite load_manifest_run, E; reflexivity).
       reflexivity. }
  erewrite bind_inr by (rewrite load_manifest_run, E; reflexivity).
  unfold get_file_md5.
  set (w2 := called _ _).
  destruct (files w !! file) as [data|] eqn:Ef.
  2: { erewrite bind_inl; [reflexivity|].
       erewrite bind_inl; [reflexivity|].
       rewrite read_file_run.
       change (files w2) with (files w). by rewrite Ef. }
  erewrite bind_inr.
  2: { erewrite bind_inr by (apply read_file_ok; exact Ef). reflexivity. }
  set (w3 := logged _ w2).
  fold (release_key platform version file).
  set (key := release_key platform version file).
  unfold release_progress, console_status. cbn [forallb].
  unfold bind at 1. rewrite console_print_run.
  change (shows w3 ?p) with (shows w p).
  destruct (shows w (md5_line _)); [|reflexivity].
  unfold bind at 1. rewrite console_print_run.
  change (shows w3 ?p) with (shows w p).
  destruct (shows w (Markup _)); [|reflexivity]. cbn [andb].
  unfold bind at 1. rewrite upload_file_run.
  change (files w3) with (files w). rewrite Ef.
  change (head_fault (logged (FsRead file) w3)) with (head_fault w3).
  destruct (head_fault w3); [reflexivity|].
  change (has_cdn w3) with (has_cdn w).
  destruct (has_cdn w) eqn:Hc; [|reflexivity].
  change (url_of w3 key) with (url_of w key).
  destruct (release_manifest _ _ _ _ _ _ _ _) as [m'|]; [|reflexivity].
  erewrite bind_inr by reflexivity.
  unfold bind at 1. rewrite save_manifest_run.
  destruct (head_fault (written _ _ _)); [reflexivity|].
  change (has_cdn (written ?k ?d (logged ?e w3))) with (has_cdn w).
  rewrite Hc.
  unfold release_report, printing. cbn [forallb].
  unfold bind. rewrite !console_print_run.
  change (shows (written ?k ?d (written ?k' ?d' (logged ?e w3))) ?p)
    with (shows w p).
  destruct (shows w (release_panel _ _ _ _ _)); [|reflexivity].
  change (url_of (written ?k ?d (logged ?e w3))) with (url_of w).
  destruct (shows w (manifest_url_line _)); reflexivity.
Qed.

(* ===================================================================== *)
(** ** Manifests in the bucket *)
(* ===================================================================== *)

Lemma manifest_of_data_dump (m : LoveACEManifest.t) :
  LoveACEManifest.valid m ->
  manifest_of_data (Some (LoveACEManifest.model_dump m)) = Some m.
Proof.
  intros Hv. unfold manifest_of_data.
  destruct (json_truthy (LoveACEManifest.model_dump m)) eqn:Ht.
  - by apply manifest_validate_dump.
  - destruct m as [[a|] [o|]]; cbn in Ht;
      try (rewrite bool_decide_eq_false_2 in Ht by apply insert_non_empty;
           discriminate).
    reflexivity.
Qed.

Lemma validate_changelog_length (d : gmap string json)
    (l : list ChangelogEntry.t) :
  OTA.validate_changelog d = Some l -> length l <= OTA.max_length.
Proof.
  unfold OTA.validate_changelog. intros H.
  destruct (d !! "changelog") as [[| | | |js|]|]; try discriminate.
  - destruct (mapM ChangelogEntry.model_validate js) as [es|]; cbn in H;
      [|discriminate].
    destruct (Nat.leb_spec (length es) OTA.max_length); [|discriminate].
    by injection H as <-.
  - injection H as <-. cbn. lia.
Qed.

Lemma ota_validate_length (j : json) (o : OTA.t) :
  OTA.model_validate j = Some o ->
  length (OTA.changelog o) <= OTA.max_length.
Proof.
  unfold OTA.model_validate. destruct j as [| | | | |d]; try discriminate.
  intros H.
  destruct (field_str_default d "content" EmptyString); [|discriminate].
  destruct (OTA.validate_changelog d) as [l|] eqn:El; [|discriminate].
  cbn in H.
  repeat match type of H with
    | context [field_optional ?v ?d ?k] =>
        destruct (field_optional v d k); cbn in H; [|discriminate]
    end.
  injection H as <-. cbn. by apply validate_changelog_length in El.
Qed.

Lemma manifest_validate_valid (j : json) (m : LoveACEManifest.t) :
  LoveACEManifest.model_validate j = Some m -> LoveACEManifest.valid m.
Proof.
  unfold LoveACEManifest.model_validate.
  destruct j as [| | | | |d]; try discriminate. intros H.
  destruct (field_optional Announcement.model_validate d "announcement")
    as [a|]; [|discriminate].
  cbn in H. unfold field_optional in H.
  destruct (d !! "ota") as [jo|]; [|injection H as <-; exact I].
  destruct (OTA.model_validate jo) as [o|] eqn:Eo.
  - assert (Hm : m = LoveACEManifest.mk a (Some o)
                 \/ m = LoveACEManifest.mk a None)
      by (destruct jo; cbn in H; injection H as <-; auto).
    destruct Hm as [-> | ->]; [|exact I].
    unfold LoveACEManifest.valid. cbn. by eapply ota_validate_length.
  - destruct jo; cbn in H; try discriminate. injection H as <-. exact I.
Qed.

Lemma manifest_of_data_valid (data : option json) (m : LoveACEManifest.t) :
  manifest_of_data data = Some m -> LoveACEManifest.valid m.
Proof.
  unfold manifest_of_data. destruct data as [doc|].
  - destruct (json_truthy doc).
    + apply manifest_validate_valid.
    + intros [= <-]. exact I.
  - intros [= <-]. exact I.
Qed.

Lemma stored_manifest_valid (w : World) (m : LoveACEManifest.t) :
  stored_manifest w = Some m -> LoveACEManifest.valid m.
Proof. apply manifest_of_data_valid. Qed.

(** A manifest written without a fault is the manifest read back. *)
Lemma stored_written (m : LoveACEManifest.t) (w : World) :
  LoveACEManifest.valid m -> faults w = [] ->
  stored_manifest (written MANIFEST_KEY (Text (LoveACEManifest.model_dump m)) w)
  = Some m.
Proof.
  intros Hv Hf. unfold stored_manifest, fetched, written, head_fault. cbn.
  rewrite Hf. cbn. rewrite lookup_insert_eq.
  by apply manifest_of_data_dump.
Qed.

Lemma release_manifest_valid (m m' : LoveACEManifest.t) (p v : string)
    (f : bool) (u c s t : string) :
  release_manifest m p v f u c s t = Some m' -> LoveACEManifest.valid m'.
Proof.
  intros H. apply release_manifest_inv in H as (o' & Ho' & ->).
  apply setattr_shared in Ho' as [_ Hl].
  unfold LoveACEManifest.valid. cbn.
  rewrite Hl, update_ota_changelog, build_changelog_spec.
  apply changelog_spec_length.
Qed.

Lemma force_manifest_ok (m m' : LoveACEManifest.t) (p : string) (f : bool) :
  force_manifest m p f = inr m' -> only_flag_set p f m m'.
Proof.
  unfold force_manifest, only_flag_set, platform_record, shared_content,
    changelog_of.
  destruct (LoveACEManifest.ota m) as [o|]; [|discriminate]. cbn.
  destruct (OTA.getattr o p) as [r|] eqn:Er; [|discriminate].
  destruct (OTA.setattr o p _) as [o'|] eqn:Eo'; [|discriminate].
  intros [= <-]. cbn.
  destruct (setattr_shared _ _ _ _ Eo') as [Hc Hl].
  split; [|split; [|split; [|split]]].
  - exists r. split; [reflexivity|]. eapply getattr_setattr_eq, Eo'.
  - intros q Hq. eapply getattr_setattr_ne; eauto.
  - reflexivity.
  - by rewrite Hc.
  - exact Hl.
Qed.

Lemma force_manifest_valid (m m' : LoveACEManifest.t) (p : string) (f : bool) :
  LoveACEManifest.valid m -> force_manifest m p f = inr m' ->
  LoveACEManifest.valid m'.
Proof.
  intros Hv H. apply force_manifest_ok in H as (_ & _ & _ & _ & Hl).
  unfold LoveACEManifest.valid, changelog_of in *.
  destruct (LoveACEManifest.ota m'), (LoveACEManifest.ota m); cbn in *;
    try exact I; try (rewrite Hl; assumption).
  rewrite Hl. cbn. lia.
Qed.

(* ===================================================================== *)
(** ** The properties *)
(* ===================================================================== *)

(** *** The changelog *)

(** C1. In every manifest that releases build up from the empty one the
    changelog has at most ten entries and no version twice. A further
    release that comes with changelog text puts its entry first, and in
    any case leaves for its version that entry alone: none when it came
    without text, never the entry the version had before. *)
Theorem changelog_invariant (m : LoveACEManifest.t) :
  reachable m ->
  length (changelog_of m) <= 10
  /\ NoDup (versions (changelog_of m))
  /\ forall platform version forceUpdate url checksum sharedContent
       changelogText m',
       publishRelease m platform version forceUpdate url checksum
         sharedContent changelogText = inr m' ->
       (changelogText ≠ EmptyString ->
        head (changelog_of m')
        = Some (ChangelogEntry.mk version changelogText))
       /\ filter (λ e, ChangelogEntry.version e = version) (changelog_of m')
          = (if str_truthy changelogText
             then [ChangelogEntry.mk version changelogText] else []).
Proof.
  intros Hm. destruct (reachable_changelog m Hm) as [Hlen Hdup].
  split; [exact Hlen|]. split; [exact Hdup|].
  intros p v f u c s t m' Hrel.
  rewrite (release_changelog _ _ _ _ _ _ _ _ _ Hrel). split.
  - apply changelog_spec_head.
  - apply changelog_spec_version.
Qed.

Lemma changelog_invariant_witness :
  length (changelog_of released_once) <= 10
  /\ NoDup (versions (changelog_of released_once))
  /\ head (changelog_of released_twice)
     = Some (ChangelogEntry.mk "1.0.0" "Initial fix")
  /\ filter (λ e, ChangelogEntry.version e = "1.0.0")
       (changelog_of released_twice)
     = [ChangelogEntry.mk "1.0.0" "Initial fix"].
Proof.
  assert (Hreach : reachable released_once).
  { apply (reachable_release LoveACEManifest.empty released_once "android"
             "1.0.0" false sample_url sample_md5 EmptyString "Initial").
    - apply reachable_empty.
    - reflexivity. }
  destruct (changelog_invariant released_once Hreach) as (Hlen & Hdup & Hnext).
  destruct (Hnext "android" "1.0.0" false sample_url sample_md5 EmptyString
              "Initial fix" released_twice eq_refl) as [Hhead Hone].
  split; [exact Hlen|]. split; [exact Hdup|]. split.
  - apply Hhead. discriminate.
  - exact Hone.
Defined.

(** *** The digest of an announcement *)

(** C2 as stated fails: two announcements that differ in title and in
    content have the same digest when title followed by content reads the
    same. *)
Lemma digest_collision :
  ("a", "bc") ≠ ("ab", "c")
  /\ Announcement.md5 (Announcement.mk "a" "bc" false)
     = Announcement.md5 (Announcement.mk "ab" "c" false).
Proof. split; [discriminate | vm_compute; reflexivity]. Qed.

(** C2, amended. The digest is the MD5 of title followed by content, the
    same at every computation; announcements whose title followed by
    content read the same have the same digest whatever the confirmation
    flag, and digests differ only where these texts differ. *)
Theorem digest_of_concatenation (a1 a2 : Announcement.t) :
  Announcement.md5 a1
  = MD5.hexdigest (Announcement.title a1 +:+ Announcement.content a1)
  /\ (Announcement.title a1 +:+ Announcement.content a1
      = Announcement.title a2 +:+ Announcement.content a2 ->
      Announcement.md5 a1 = Announcement.md5 a2)
  /\ (Announcement.md5 a1 ≠ Announcement.md5 a2 ->
      Announcement.title a1 +:+ Announcement.content a1
      ≠ Announcement.title a2 +:+ Announcement.content a2).
Proof.
  unfold Announcement.md5. split; [reflexivity|]. split.
  - intros ->. reflexivity.
  - intros Hne Heq. apply Hne. by rewrite Heq.
Qed.

Lemma digest_of_concatenation_witness :
  Announcement.md5 (Announcement.mk "a" "bc" true)
  = Announcement.md5 (Announcement.mk "ab" "c" false)
  /\ Announcement.title (Announcement.mk "Maintenance" "tonight" true)
     +:+ Announcement.content (Announcement.mk "Maintenance" "tonight" true)
     ≠ Announcement.title (Announcement.mk "Maintenance" "tomorrow" true)
       +:+ Announcement.content (Announcement.mk "Maintenance" "tomorrow" true).
Proof.
  split.
  - apply (digest_of_concatenation (Announcement.mk "a" "bc" true)
             (Announcement.mk "ab" "c" false)). vm_compute. reflexivity.
  - apply (digest_of_concatenation
             (Announcement.mk "Maintenance" "tonight" true)
             (Announcement.mk "Maintenance" "tomorrow" true)).
    vm_compute. discriminate.
Defined.

(** *** The records of the platforms *)

(** C4. A release for a platform of [PLATFORMS] goes through, makes the
    record of that platform the released version, flag, URL and checksum,
    and leaves the record of every other platform, present or absent, as
    it was. *)
Theorem release_platform_frame (m : LoveACEManifest.t)
    (P version : string) (forceUpdate : bool)
    (url checksum sharedContent changelogText : string) :
  P ∈ PLATFORMS ->
  exists m',
    publishRelease m P version forceUpdate url checksum sharedContent
      changelogText = inr m'
    /\ platform_record m' P
       = Some (PlatformRelease.mk version forceUpdate url checksum)
    /\ forall Q, Q ≠ P -> platform_record m' Q = platform_record m Q.
Proof.
  intros HP. apply in_PLATFORMS_spec in HP.
  destruct (publishRelease_total m P version forceUpdate url checksum
              sharedContent changelogText HP) as [m' Hm'].
  exists m'. split; [exact Hm'|]. eapply release_record, Hm'.
Qed.

Lemma release_platform_frame_witness :
  exists m',
    publishRelease released_once "ios" "1.0.1" true "https://x/app.ipa"
      "0f" EmptyString "More" = inr m'
    /\ platform_record m' "ios"
       = Some (PlatformRelease.mk "1.0.1" true "https://x/app.ipa" "0f")
    /\ forall Q, Q ≠ "ios" ->
         platform_record m' Q = platform_record released_once Q.
Proof.
  apply (release_platform_frame released_once "ios" "1.0.1" true
           "https://x/app.ipa" "0f" EmptyString "More").
  apply in_PLATFORMS_spec. reflexivity.
Defined.

(** *** The shared popup text *)

(** C5. A release for a platform of [PLATFORMS] onto an existing OTA
    record keeps the shared content when it comes with empty content and
    replaces it otherwise; without an OTA record it creates one with the
    content it comes with. *)
Theorem release_shared_content (m : LoveACEManifest.t)
    (P version : string) (forceUpdate : bool)
    (url checksum sharedContent changelogText : string) :
  P ∈ PLATFORMS ->
  exists m',
    publishRelease m P version forceUpdate url checksum sharedContent
      changelogText = inr m'
    /\ match LoveACEManifest.ota m with
       | Some o =>
           (sharedContent = EmptyString ->
            shared_content m' = Some (OTA.content o))
           /\ (sharedContent ≠ EmptyString ->
               shared_content m' = Some sharedContent)
       | None => shared_content m' = Some sharedContent
       end.
Proof.
  intros HP. apply in_PLATFORMS_spec in HP.
  destruct (publishRelease_total m P version forceUpdate url checksum
              sharedContent changelogText HP) as [m' Hm'].
  exists m'. split; [exact Hm'|].
  rewrite (release_content _ _ _ _ _ _ _ _ _ Hm').
  destruct (LoveACEManifest.ota m) as [o|]; [|reflexivity]. split.
  - intros ->. reflexivity.
  - intros Hs. apply str_truthy_true in Hs. by rewrite Hs.
Qed.

Lemma release_shared_content_witness :
  exists m',
    publishRelease released_once "ios" "1.0.1" true "https://x/app.ipa"
      "0f" "Improvements" "More" = inr m'
    /\ match LoveACEManifest.ota released_once with
       | Some o =>
           ("Improvements" = EmptyString ->
            shared_content m' = Some (OTA.content o))
           /\ ("Improvements" ≠ EmptyString ->
               shared_content m' = Some "Improvements")
       | None => shared_content m' = Some "Improvements"
       end.
Proof.
  apply (release_shared_content released_once "ios" "1.0.1" true
           "https://x/app.ipa" "0f" "Improvements" "More").
  apply in_PLATFORMS_spec. reflexivity.
Defined.

(** *** The persisted document *)

Lemma dump_omits_platform (o : OTA.t) (p : string) :
  p ∈ PLATFORMS -> OTA.getattr o p = None ->
  object_field (OTA.model_dump o) p = None.
Proof.
  rewrite <- in_PLATFORMS_spec, in_PLATFORMS_cases.
  destruct o as [c l a i w m x].
  intros [-> | [-> | [-> | [-> | ->]]]]; cbn; intros ->;
    repeat match goal with
      | r : option PlatformRelease.t |- _ => destruct r
      end; reflexivity.
Qed.

(** Closes a goal on the value found under some key of a dumped object. *)
Ltac dumped_field H :=
  repeat (apply lookup_insert_Some in H as [[_ <-] | [_ H]];
          [split; [discriminate | intros [= E]; by apply insert_non_empty in E
                                  || discriminate] |]);
  by rewrite lookup_empty in H.

Lemma ota_dump_no_empty_field (o : OTA.t) : no_empty_field (OTA.model_dump o).
Proof.
  intros k v H. destruct o as [c l a i w m x].
  destruct a, i, w, m, x; cbn in H; dumped_field H.
Qed.

Lemma manifest_dump_no_empty_field (m : LoveACEManifest.t) :
  no_empty_field (LoveACEManifest.model_dump m).
Proof.
  intros k v H. destruct m as [[a|] [o|]]; cbn in H; dumped_field H.
Qed.

Lemma no_fault (w : World) : faults w = [] -> head_fault w = false.
Proof. unfold head_fault. by intros ->. Qed.

Lemma has_cdn_true (w : World) :
  has_cdn w = true <-> cdn_base_url (settings w) ≠ EmptyString.
Proof. apply str_truthy_true. Qed.

(** C8. A manifest within the bound of its changelog field validates
    back from its dump to itself, also through the bucket: after
    [save_manifest] without faults the object of the manifest is the
    dump and [load_manifest] returns the manifest, whether or not the
    URL could be built; with a CDN base URL [save_manifest] returns the
    URL. The dump has no key for an absent announcement, an absent OTA
    record or a platform without record, and no field of it, of its OTA
    record, of a platform record or of its announcement is null or an
    empty object. *)
Theorem manifest_roundtrip (m : LoveACEManifest.t) :
  (LoveACEManifest.valid m ->
   LoveACEManifest.model_validate (LoveACEManifest.model_dump m) = Some m
   /\ forall w, faults w = [] ->
        objects (fst (save_manifest m w)) !! MANIFEST_KEY
        = Some (Text (LoveACEManifest.model_dump m))
        /\ snd (load_manifest (fst (save_manifest m w))) = inr m
        /\ (cdn_base_url (settings w) ≠ EmptyString ->
            snd (save_manifest m w) = inr (url_of w MANIFEST_KEY)))
  /\ (LoveACEManifest.announcement m = None ->
      object_field (LoveACEManifest.model_dump m) "announcement" = None)
  /\ (LoveACEManifest.ota m = None ->
      object_field (LoveACEManifest.model_dump m) "ota" = None)
  /\ (forall o p, LoveACEManifest.ota m = Some o -> p ∈ PLATFORMS ->
        OTA.getattr o p = None ->
        object_field (LoveACEManifest.model_dump m) "ota"
        = Some (OTA.model_dump o)
        /\ object_field (OTA.model_dump o) p = None)
  /\ no_empty_field (LoveACEManifest.model_dump m)
  /\ (forall o, LoveACEManifest.ota m = Some o ->
        no_empty_field (OTA.model_dump o)
        /\ forall p r, OTA.getattr o p = Some r ->
             no_empty_field (PlatformRelease.model_dump r))
  /\ (forall a, LoveACEManifest.announcement m = Some a ->
        no_empty_field (Announcement.model_dump a)).
Proof.
  split; [|split; [|split; [|split; [|split; [|split]]]]].
  - intros Hv. split; [by apply manifest_validate_dump|].
    intros w Hf. rewrite save_manifest_run, (no_fault w Hf). cbn [fst snd].
    split; [apply lookup_insert_eq|]. split.
    + rewrite load_manifest_run. cbn [snd].
      change (manifest_of_data (fetched ?w' MANIFEST_KEY))
        with (stored_manifest w').
      by rewrite stored_written.
    + intros Hc. apply has_cdn_true in Hc. by rewrite Hc.
  - destruct m as [a o]. cbn. intros ->. by destruct o.
  - destruct m as [a o]. cbn. intros ->. by destruct a.
  - intros o p Ho Hp Hr. split; [|by apply dump_omits_platform].
    destruct m as [a o']. cbn in Ho. subst o'. by destruct a.
  - apply manifest_dump_no_empty_field.
  - intros o _. split; [apply ota_dump_no_empty_field|].
    intros p r _ k v H. destruct r. cbn in H. dumped_field H.
  - intros a _ k v H. destruct a. cbn in H. dumped_field H.
Qed.

Lemma manifest_roundtrip_witness :
  LoveACEManifest.model_validate (LoveACEManifest.model_dump released_once)
  = Some released_once
  /\ snd (load_manifest (fst (save_manifest released_once sample_world)))
     = inr released_once
  /\ object_field (LoveACEManifest.model_dump released_once) "announcement"
     = None
  /\ object_field
       (OTA.model_dump
          (OTA.mk EmptyString [ChangelogEntry.mk "1.0.0" "Initial"]
             (Some (PlatformRelease.mk "1.0.0" false sample_url sample_md5))
             None None None None)) "ios" = None.
Proof.
  destruct (manifest_roundtrip released_once) as (Hrt & Hann & _ & Hp & _).
  assert (Hv : LoveACEManifest.valid released_once)
    by (unfold LoveACEManifest.valid, OTA.max_length; cbn; lia).
  destruct (Hrt Hv) as [Hvalue Hbucket].
  destruct (Hbucket sample_world eq_refl) as (_ & Hload & _).
  split; [exact Hvalue|]. split; [exact Hload|]. split.
  - apply Hann. reflexivity.
  - eapply Hp; [reflexivity | | reflexivity].
    apply in_PLATFORMS_spec. reflexivity.
Defined.

(** *** Announcements *)

(** What a command without faults leaves in the bucket after it loaded
    [m] and saved [m']. *)
Lemma saved_after_load (m' : LoveACEManifest.t) (w : World) :
  faults w = [] -> LoveACEManifest.valid m' ->
  let w1 := written MANIFEST_KEY (Text (LoveACEManifest.model_dump m'))
              (called (S3Read MANIFEST_KEY) w) in
  faults w1 = [] /\ stored_manifest w1 = Some m'
  /\ objects w1
     = <[MANIFEST_KEY := Text (LoveACEManifest.model_dump m')]> (objects w).
Proof.
  intros Hf Hv. cbn zeta. split; [|split].
  - cbn. by rewrite Hf.
  - apply stored_written; [exact Hv|]. cbn. by rewrite Hf.
  - reflexivity.
Qed.

Lemma clear_announce_ok (m : LoveACEManifest.t) (w : World) :
  faults w = [] -> stored_manifest w = Some m ->
  clear_announce w
  = (written MANIFEST_KEY
       (Text (LoveACEManifest.model_dump (clearAnnouncement m)))
       (called (S3Read MANIFEST_KEY) w), ending w [announcement_cleared]).
Proof.
  intros Hf Hm. rewrite clear_announce_run. cbn zeta.
  unfold stored_manifest in Hm. rewrite Hm.
  unfold head_fault. cbn. by rewrite Hf.
Qed.

Lemma announce_ok (m : LoveACEManifest.t) (t c : string) (r : bool)
    (w : World) :
  faults w = [] -> stored_manifest w = Some m ->
  announce t c r w
  = (written MANIFEST_KEY
       (Text (LoveACEManifest.model_dump (setAnnouncement m t c r)))
       (called (S3Read MANIFEST_KEY) w), ending w (announce_report w t c r)).
Proof.
  intros Hf Hm. rewrite announce_run. cbn zeta.
  unfold stored_manifest in Hm. rewrite Hm.
  unfold head_fault. cbn. by rewrite Hf.
Qed.

(** C9. Clearing the announcement twice gives the manifest that clearing
    it once gives, and a manifest without announcement is left as it
    is. So is the command: without faults [clear_announce] leaves in the
    bucket the manifest cleared, a second run leaves the bucket as the
    first left it, and both runs end the same way whether or not there
    was an announcement: normally, or in the exception of a URL that
    cannot be built or of a message the console does not render. *)
Theorem clearAnnouncement_idempotent (m : LoveACEManifest.t) :
  clearAnnouncement (clearAnnouncement m) = clearAnnouncement m
  /\ (LoveACEManifest.announcement m = None -> clearAnnouncement m = m)
  /\ forall w, faults w = [] -> stored_manifest w = Some m ->
       stored_manifest (fst (clear_announce w)) = Some (clearAnnouncement m)
       /\ objects (fst (clear_announce (fst (clear_announce w))))
          = objects (fst (clear_announce w))
       /\ snd (clear_announce w) = ending w [announcement_cleared]
       /\ snd (clear_announce (fst (clear_announce w)))
          = ending w [announcement_cleared]
       /\ (cdn_base_url (settings w) ≠ EmptyString ->
           shows w announcement_cleared = true ->
           snd (clear_announce w) = inr tt
           /\ snd (clear_announce (fst (clear_announce w))) = inr tt).
Proof.
  split; [reflexivity|]. split.
  - destruct m as [a o]. cbn. by intros ->.
  - intros w Hf Hm.
    assert (Hv : LoveACEManifest.valid (clearAnnouncement m))
      by (apply stored_manifest_valid in Hm; exact Hm).
    destruct (saved_after_load (clearAnnouncement m) w Hf Hv)
      as (Hf1 & Hm1 & Ho1).
    rewrite (clear_announce_ok m w Hf Hm). cbn [fst snd].
    rewrite (clear_announce_ok _ _ Hf1 Hm1). cbn [fst snd].
    split; [exact Hm1|]. split; [cbn; by rewrite insert_insert_eq|].
    split; [reflexivity|]. split; [reflexivity|].
    intros Hc Hs. apply has_cdn_true in Hc.
    change (ending (written ?k ?d (called ?e w)) ?ps) with (ending w ps).
    rewrite ending_one, Hc, Hs. by split.
Qed.

Lemma clearAnnouncement_idempotent_witness :
  clearAnnouncement released_once = released_once
  /\ stored_manifest (fst (clear_announce released_world))
     = Some (clearAnnouncement released_once)
  /\ objects (fst (clear_announce (fst (clear_announce released_world))))
     = objects (fst (clear_announce released_world))
  /\ snd (clear_announce released_world) = inr tt
  /\ snd (clear_announce (fst (clear_announce released_world))) = inr tt.
Proof.
  destruct (clearAnnouncement_idempotent released_once) as (_ & Hnone & Hrun).
  split; [apply Hnone; reflexivity|].
  assert (Hm : stored_manifest released_world = Some released_once)
    by (vm_compute; reflexivity).
  destruct (Hrun released_world eq_refl Hm) as (Hst & Hobj & _ & _ & Hend).
  split; [exact Hst|]. split; [exact Hobj|].
  apply Hend; [discriminate | vm_compute; reflexivity].
Defined.

(** *** Runs that end normally *)

Lemma printing_cases (w : World) (ps : list printed) :
  printing w ps = inr tt \/ printing w ps = inl MarkupError.
Proof. unfold printing. destruct (forallb _ _); auto. Qed.

Lemma ending_cases (w : World) (ps : list printed) :
  ending w ps = inr tt \/ ending w ps = inl MarkupError
  \/ ending w ps = inl AttributeError.
Proof.
  unfold ending. destruct (has_cdn w); [|auto].
  destruct (printing_cases w ps); auto.
Qed.

Lemma exiting_cases {A : Type} (w : World) (ps : list printed) (e : error) :
  @exiting A w ps e = inl e \/ @exiting A w ps e = inl MarkupError.
Proof. unfold exiting. destruct (forallb _ _); auto. Qed.

Lemma announce_inr (t c : string) (r : bool) (w : World) :
  snd (announce t c r w) = inr tt ->
  exists m,
    manifest_of_data (fetched w MANIFEST_KEY) = Some m
    /\ fst (announce t c r w)
       = written MANIFEST_KEY
           (Text (LoveACEManifest.model_dump (setAnnouncement m t c r)))
           (called (S3Read MANIFEST_KEY) w).
Proof.
  rewrite announce_run. cbn zeta.
  destruct (manifest_of_data _) as [m|]; [|discriminate].
  destruct (head_fault _); [discriminate|]. intros _. by exists m.
Qed.

Lemma clear_announce_inr (w : World) :
  snd (clear_announce w) = inr tt ->
  exists m,
    manifest_of_data (fetched w MANIFEST_KEY) = Some m
    /\ fst (clear_announce w)
       = written MANIFEST_KEY
           (Text (LoveACEManifest.model_dump (clearAnnouncement m)))
           (called (S3Read MANIFEST_KEY) w).
Proof.
  rewrite clear_announce_run. cbn zeta.
  destruct (manifest_of_data _) as [m|]; [|discriminate].
  destruct (head_fault _); [discriminate|]. intros _. by exists m.
Qed.

Lemma set_force_inr (platform : string) (force : bool) (w : World) :
  snd (set_force platform force w) = inr tt ->
  exists m m',
    in_PLATFORMS platform = true
    /\ manifest_of_data (fetched w MANIFEST_KEY) = Some m
    /\ force_manifest m platform force = inr m'
    /\ fst (set_force platform force w)
       = written MANIFEST_KEY (Text (LoveACEManifest.model_dump m'))
           (called (S3Read MANIFEST_KEY) w).
Proof.
  destruct (in_PLATFORMS platform) eqn:Hp.
  - rewrite set_force_run by exact Hp. cbn zeta.
    destruct (manifest_of_data _) as [m|]; [|discriminate].
    destruct (force_manifest m platform force) as [e|m'] eqn:Ef.
    + cbn [snd]. destruct (exiting_cases (A:=unit) w (exit_message platform e) e)
        as [-> | ->]; discriminate.
    + destruct (head_fault _); [discriminate|]. intros _. by exists m, m'.
  - rewrite set_force_invalid by exact Hp. cbn [snd].
    destruct (exiting_cases (A:=unit) w [unsupported_platform platform]
                InvalidPlatform) as [-> | ->]; discriminate.
Qed.

Lemma release_inr (version platform file : string) (force : bool)
    (content changelog : string) (w : World) :
  snd (release version platform file force content changelog w) = inr tt ->
  exists m data m',
    in_PLATFORMS platform = true
    /\ manifest_of_data (fetched w MANIFEST_KEY) = Some m
    /\ files w !! file = Some data
    /\ has_cdn w = true
    /\ release_manifest m platform version force
         (url_of w (release_key platform version file)) (MD5.hexdigest data)
         content changelog = Some m'
    /\ fst (release version platform file force content changelog w)
       = written MANIFEST_KEY (Text (LoveACEManifest.model_dump m'))
           (written (release_key platform version file) (Raw data)
              (logged (FsRead file)
                 (logged (FsRead file)
                    (called (S3Read MANIFEST_KEY)
                       (logged (FsExists file) w))))).
Proof.
  destruct (in_PLATFORMS platform) eqn:Hp.
  - rewrite release_run by exact Hp. cbn zeta.
    destruct (exists_at w file).
    2: { cbn [snd]. destruct (exiting_cases (A:=unit) w [file_missing file]
                                FileNotFound) as [-> | ->]; discriminate. }
    destruct (manifest_of_data _) as [m|]; [|discriminate].
    destruct (files w !! file) as [data|]; [|discriminate].
    destruct (forallb _ _); [|discriminate].
    destruct (head_fault _); [discriminate|].
    destruct (has_cdn w); [|discriminate].
    destruct (release_manifest _ _ _ _ _ _ _ _) as [m'|] eqn:Er;
      [|discriminate].
    destruct (head_fault _); [discriminate|]. intros _.
    by exists m, data, m'.
  - rewrite release_invalid by exact Hp. cbn [snd].
    destruct (exiting_cases (A:=unit) w [unsupported_platform platform]
                InvalidPlatform) as [-> | ->]; discriminate.
Qed.

(** C10. Setting and clearing the announcement leave the OTA record of a
    manifest as it was, and a release leaves its announcement as it was.
    So do the commands on the manifest in the bucket, read back after a
    run without faults. *)
Theorem announcement_ota_independent (m : LoveACEManifest.t) :
  (forall title content confirm,
     LoveACEManifest.ota (setAnnouncement m title content confirm)
     = LoveACEManifest.ota m)
  /\ LoveACEManifest.ota (clearAnnouncement m) = LoveACEManifest.ota m
  /\ (forall platform version forceUpdate url checksum sharedContent
        changelogText m',
        publishRelease m platform version forceUpdate url checksum
          sharedContent changelogText = inr m' ->
        LoveACEManifest.announcement m' = LoveACEManifest.announcement m)
  /\ forall w, faults w = [] -> stored_manifest w = Some m ->
       (forall title content confirm,
          exists m',
            stored_manifest (fst (announce title content confirm w)) = Some m'
            /\ LoveACEManifest.ota m' = LoveACEManifest.ota m)
       /\ (exists m',
             stored_manifest (fst (clear_announce w)) = Some m'
             /\ LoveACEManifest.ota m' = LoveACEManifest.ota m)
       /\ (forall version platform file force content changelog,
             snd (release version platform file force content changelog w)
             = inr tt ->
             exists m',
               stored_manifest
                 (fst (release version platform file force content
                         changelog w)) = Some m'
               /\ LoveACEManifest.announcement m'
                  = LoveACEManifest.announcement m).
Proof.
  split; [reflexivity|]. split; [reflexivity|]. split.
  { intros p v f u c s t m'. apply release_announcement. }
  intros w Hf Hm.
  assert (Hv : LoveACEManifest.valid m) by (by apply stored_manifest_valid in Hm).
  split; [|split].
  - intros t c r. exists (setAnnouncement m t c r).
    rewrite (announce_ok m) by assumption. cbn [fst].
    split; [|reflexivity]. by apply saved_after_load.
  - exists (clearAnnouncement m).
    rewrite (clear_announce_ok m) by assumption. cbn [fst].
    split; [|reflexivity]. by apply saved_after_load.
  - intros v p file force c t Hok.
    apply release_inr in Hok as (m0 & data & m' & Hp & Hm0 & _ & _ & Er & ->).
    unfold stored_manifest in Hm. rewrite Hm in Hm0. injection Hm0 as <-.
    exists m'. split.
    + apply stored_written; [by eapply release_manifest_valid|].
      cbn. rewrite Hf. reflexivity.
    + by apply release_manifest_inv in Er as (o' & _ & ->).
Qed.

Lemma announcement_ota_independent_witness :
  (exists m',
     stored_manifest (fst (announce "Maintenance" "tonight" true
                             released_world)) = Some m'
     /\ LoveACEManifest.ota m' = LoveACEManifest.ota released_once)
  /\ exists m',
       stored_manifest
         (fst (release "1.0.1" "ios" "dist/app.apk" false EmptyString "More"
                 released_world)) = Some m'
       /\ LoveACEManifest.announcement m'
          = LoveACEManifest.announcement released_once.
Proof.
  destruct (announcement_ota_independent released_once)
    as (_ & _ & _ & Hrun).
  destruct (Hrun released_world eq_refl) as (Hann & _ & Hrel).
  { vm_compute. reflexivity. }
  split.
  - apply Hann.
  - apply Hrel. vm_compute. reflexivity.
Defined.

(** *** set-force *)

Lemma setForceUpdate_cases (m : LoveACEManifest.t) (platform : string)
    (force : bool) :
  (platform ∉ PLATFORMS ->
   setForceUpdate m platform force = inl InvalidPlatform)
  /\ (platform ∈ PLATFORMS -> LoveACEManifest.ota m = None ->
      setForceUpdate m platform force = inl NoOtaConfigured)
  /\ (platform ∈ PLATFORMS -> is_Some (LoveACEManifest.ota m) ->
      platform_record m platform = None ->
      setForceUpdate m platform force = inl PlatformNotReleased)
  /\ (platform ∈ PLATFORMS -> is_Some (platform_record m platform) ->
      exists m', setForceUpdate m platform force = inr m'
                 /\ only_flag_set platform force m m').
Proof.
  unfold setForceUpdate. split; [|split; [|split]].
  - intros Hp. apply not_in_PLATFORMS in Hp. by rewrite Hp.
  - intros Hp Ho. apply in_PLATFORMS_spec in Hp. rewrite Hp. cbn.
    unfold force_manifest. by rewrite Ho.
  - intros Hp [o Ho] Hr. apply in_PLATFORMS_spec in Hp. rewrite Hp. cbn.
    unfold force_manifest, platform_record in *. rewrite Ho in *. cbn in Hr.
    by rewrite Hr.
  - intros Hp [r Hr]. pose proof Hp as Hp'.
    apply in_PLATFORMS_spec in Hp. rewrite Hp. cbn.
    destruct (force_manifest m platform force) as [e|m'] eqn:E.
    + exfalso. unfold force_manifest, platform_record in *.
      destruct (LoveACEManifest.ota m) as [o|]; [|discriminate]. cbn in Hr.
      rewrite Hr in E.
      destruct (setattr_platform o platform
                  (Some (PlatformRelease.mk (PlatformRelease.version r) force
                           (PlatformRelease.url r) (PlatformRelease.md5 r)))
                  Hp) as [o' Ho'].
      rewrite Ho' in E. discriminate.
    + exists m'. split; [reflexivity|]. by apply force_manifest_ok.
Qed.

Lemma writes_of_snoc_read (tr : list event) (key : string) :
  writes_of (tr ++ [S3Read key]) = writes_of tr.
Proof. unfold writes_of. rewrite omap_app. cbn. by rewrite app_nil_r. Qed.

(** C3. [setForceUpdate] fails with [InvalidPlatform] for a platform
    outside [PLATFORMS], else with [NoOtaConfigured] for a manifest
    without OTA record, else with [PlatformNotReleased] when the platform
    has no record; otherwise it sets the flag of that record and nothing
    else. When the update fails the command [set_force] prints the
    message of the failure and exits with it, having written nothing and
    with the bucket as it was. When the update succeeds and the write
    meets no fault, the command writes the updated manifest and then
    ends normally, or in the exception of a URL that cannot be built or
    of a message the console does not render. In every run the bucket is
    as it was or has the updated manifest of a successful update. *)
Theorem set_force_contract (platform : string) (force : bool)
    (m : LoveACEManifest.t) :
  (platform ∉ PLATFORMS ->
   setForceUpdate m platform force = inl InvalidPlatform)
  /\ (platform ∈ PLATFORMS -> LoveACEManifest.ota m = None ->
      setForceUpdate m platform force = inl NoOtaConfigured)
  /\ (platform ∈ PLATFORMS -> is_Some (LoveACEManifest.ota m) ->
      platform_record m platform = None ->
      setForceUpdate m platform force = inl PlatformNotReleased)
  /\ (platform ∈ PLATFORMS -> is_Some (platform_record m platform) ->
      exists m', setForceUpdate m platform force = inr m'
                 /\ only_flag_set platform force m m')
  /\ (forall w, stored_manifest w = Some m ->
        match setForceUpdate m platform force with
        | inl e =>
            snd (set_force platform force w)
            = exiting w (exit_message platform e) e
            /\ objects (fst (set_force platform force w)) = objects w
            /\ writes_of (trace (fst (set_force platform force w)))
               = writes_of (trace w)
        | inr m' =>
            head_fault (called (S3Read MANIFEST_KEY) w) = false ->
            set_force platform force w
            = (written MANIFEST_KEY (Text (LoveACEManifest.model_dump m'))
                 (called (S3Read MANIFEST_KEY) w),
               ending w [force_updated platform force])
        end)
  /\ (forall w,
        objects (fst (set_force platform force w)) = objects w
        \/ exists m0 m',
             stored_manifest w = Some m0
             /\ setForceUpdate m0 platform force = inr m'
             /\ objects (fst (set_force platform force w))
                = <[MANIFEST_KEY := Text (LoveACEManifest.model_dump m')]>
                    (objects w)).
Proof.
  destruct (setForceUpdate_cases m platform force) as (H1 & H2 & H3 & H4).
  do 4 (split; [assumption|]). split.
  - intros w Hm. unfold setForceUpdate.
    destruct (in_PLATFORMS platform) eqn:Hp; cbn [negb].
    + rewrite set_force_run by exact Hp. cbn zeta.
      unfold stored_manifest in Hm. rewrite Hm.
      destruct (force_manifest m platform force) as [e|m'].
      * cbn [fst snd]. split; [reflexivity|]. split; [reflexivity|].
        apply writes_of_snoc_read.
      * by intros ->.
    + rewrite set_force_invalid by exact Hp. cbn. auto.
  - intros w. unfold setForceUpdate. destruct (in_PLATFORMS platform) eqn:Hp.
    + rewrite set_force_run by exact Hp. cbn zeta. unfold stored_manifest.
      destruct (manifest_of_data _) as [m0|]; [|by left].
      destruct (force_manifest m0 platform force) as [e|m'] eqn:Ef;
        [by left|].
      destruct (head_fault _); [by left|]. right. exists m0, m'.
      split; [reflexivity|]. split; [exact Ef | reflexivity].
    + rewrite set_force_invalid by exact Hp. by left.
Qed.

Lemma set_force_contract_witness :
  setForceUpdate released_once "tizen" true = inl InvalidPlatform
  /\ setForceUpdate LoveACEManifest.empty "android" true = inl NoOtaConfigured
  /\ setForceUpdate released_once "ios" true = inl PlatformNotReleased
  /\ (exists m', setForceUpdate released_once "android" true = inr m'
                 /\ only_flag_set "android" true released_once m')
  /\ snd (set_force "ios" true released_world) = inl PlatformNotReleased
  /\ objects (fst (set_force "ios" true released_world))
     = objects released_world.
Proof.
  split; [|split; [|split; [|split]]].
  - apply (set_force_contract "tizen" true released_once).
    apply not_in_PLATFORMS. reflexivity.
  - apply (set_force_contract "android" true LoveACEManifest.empty).
    + apply in_PLATFORMS_spec. reflexivity.
    + reflexivity.
  - apply (set_force_contract "ios" true released_once).
    + apply in_PLATFORMS_spec. reflexivity.
    + cbn. eauto.
    + reflexivity.
  - apply (set_force_contract "android" true released_once).
    + apply in_PLATFORMS_spec. reflexivity.
    + cbn. eauto.
  - destruct (set_force_contract "ios" true released_once)
      as (_ & _ & _ & _ & Hrun & _).
    specialize (Hrun released_world).
    assert (Hm : stored_manifest released_world = Some released_once)
      by (vm_compute; reflexivity).
    specialize (Hrun Hm).
    change (setForceUpdate released_once "ios" true)
      with (@inl error LoveACEManifest.t PlatformNotReleased) in Hrun.
    cbv beta iota in Hrun. destruct Hrun as (He & Ho & _).
    split; [|exact Ho]. rewrite He. vm_compute. reflexivity.
Defined.

(** *** release *)

(** An installer never goes to the key of the manifest. *)
Lemma release_key_not_manifest (platform version file : string) :
  release_key platform version file ≠ MANIFEST_KEY.
Proof. unfold release_key, MANIFEST_KEY. cbn. discriminate. Qed.

(** C6 as stated fails: a release that goes through reads the manifest
    before it reads the installer and uploads it, not after. *)
Lemma release_reads_manifest_first :
  snd (release "1.0.0" "android" "dist/app.apk" false EmptyString "Initial"
         sample_world) = inr tt
  /\ trace (fst (release "1.0.0" "android" "dist/app.apk" false EmptyString
                   "Initial" sample_world))
     = [FsExists "dist/app.apk"; S3Read "loveace/manifest.json";
        FsRead "dist/app.apk"; FsRead "dist/app.apk";
        S3Write "loveace/releases/android/1.0.0/app.apk";
        S3Write "loveace/manifest.json"]
  /\ specified_release_order "dist/app.apk"
       (release_key "android" "1.0.0" "dist/app.apk")
       (trace (fst (release "1.0.0" "android" "dist/app.apk" false
                      EmptyString "Initial" sample_world))) = false.
Proof. repeat split; vm_compute; reflexivity. Qed.

(** Closes the case of a run that ended in an exception after [calls]. *)
Ltac stopped_after calls :=
  split; [discriminate|]; split; [discriminate|];
  split; [intros [?|?]; discriminate|];
  exists calls; split; [cbn; by rewrite <- ?app_assoc | by eexists].

(** C6, amended. [release] checks the platform, then the path, and
    prints the message of the failure and exits with [InvalidPlatform]
    or [FileNotFound] before any remote call. It then reads the
    manifest, reads the installer for its checksum, uploads the
    installer, updates the manifest and writes it: these are the calls
    of a release that goes through, and the calls of any release are the
    first of them, so the upload comes before the write of the
    manifest. What is written is the manifest [publishRelease] gives for
    the loaded one, with the URL of the upload and the checksum of the
    installer. *)
Theorem release_call_order (version platform file : string) (force : bool)
    (content changelog : string) (w : World) :
  (platform ∉ PLATFORMS ->
   release version platform file force content changelog w
   = (w, exiting w [unsupported_platform platform] InvalidPlatform))
  /\ (platform ∈ PLATFORMS -> exists_at w file = false ->
      release version platform file force content changelog w
      = (logged (FsExists file) w,
         exiting w [file_missing file] FileNotFound))
  /\ (snd (release version platform file force content changelog w)
      = inr tt ->
      trace (fst (release version platform file force content changelog w))
      = trace w ++ release_calls file (release_key platform version file))
  /\ (snd (release version platform file force content changelog w)
      = inr tt ->
      exists m data m',
        stored_manifest w = Some m /\ files w !! file = Some data
        /\ publishRelease m platform version force
             (url_of w (release_key platform version file))
             (MD5.hexdigest data) content changelog = inr m'
        /\ objects
             (fst (release version platform file force content changelog w))
           = <[MANIFEST_KEY := Text (LoveACEManifest.model_dump m')]>
               (<[release_key platform version file := Raw data]>
                  (objects w)))
  /\ (snd (release version platform file force content changelog w)
      = inl InvalidPlatform
      \/ snd (release version platform file force content changelog w)
         = inl FileNotFound ->
      objects (fst (release version platform file force content changelog w))
      = objects w
      /\ exists calls,
           trace (fst (release version platform file force content
                         changelog w)) = trace w ++ calls
           /\ existsb is_remote calls = false)
  /\ exists calls,
       trace (fst (release version platform file force content changelog w))
       = trace w ++ calls
       /\ calls `prefix_of`
            release_calls file (release_key platform version file).
Proof.
  destruct (in_PLATFORMS platform) eqn:Hp.
  - assert (Hin : platform ∈ PLATFORMS) by (by apply in_PLATFORMS_spec).
    rewrite release_run by exact Hp. cbn zeta.
    split; [done|].
    destruct (exists_at w file).
    2: { split; [reflexivity|]. cbn [fst snd].
         split; [destruct (exiting_cases (A:=unit) w [file_missing file]
                             FileNotFound) as [-> | ->]; discriminate|].
         split; [destruct (exiting_cases (A:=unit) w [file_missing file]
                             FileNotFound) as [-> | ->]; discriminate|].
         split.
         - intros _. split; [reflexivity|]. by exists [FsExists file].
         - exists [FsExists file]. split; [reflexivity|]. by eexists. }
    split; [intros _ ?; discriminate|].
    destruct (manifest_of_data _) as [m|] eqn:Em.
    2: { stopped_after [FsExists file; S3Read MANIFEST_KEY]. }
    destruct (files w !! file) as [data|].
    2: { stopped_after [FsExists file; S3Read MANIFEST_KEY; FsRead file]. }
    destruct (forallb _ _).
    2: { stopped_after [FsExists file; S3Read MANIFEST_KEY; FsRead file]. }
    destruct (head_fault _).
    { stopped_after [FsExists file; S3Read MANIFEST_KEY; FsRead file;
                     FsRead file;
                     S3Write (release_key platform version file)]. }
    destruct (has_cdn w).
    2: { stopped_after [FsExists file; S3Read MANIFEST_KEY; FsRead file;
                        FsRead file;
                        S3Write (release_key platform version file)]. }
    destruct (release_manifest _ _ _ _ _ _ _ _) as [m'|] eqn:Er.
    2: { stopped_after [FsExists file; S3Read MANIFEST_KEY; FsRead file;
                        FsRead file;
                        S3Write (release_key platform version file)]. }
    destruct (head_fault _).
    { stopped_after (release_calls file (release_key platform version file)). }
    cbn [fst snd].
    split; [intros _; cbn; by rewrite <- !app_assoc|]. split.
    { intros _. exists m, data, m'. split; [exact Em|].
      split; [reflexivity|]. split; [|reflexivity].
      unfold publishRelease. by rewrite Hp, Er. }
    split.
    { destruct (printing_cases w
                  (release_report w version platform file force data))
        as [-> | ->]; intros [?|?]; discriminate. }
    exists (release_calls file (release_key platform version file)).
    split; [cbn; by rewrite <- !app_assoc|]. by exists [].
  - assert (Hout : platform ∉ PLATFORMS) by (by apply not_in_PLATFORMS).
    rewrite release_invalid by exact Hp. cbn [fst snd].
    split; [done|]. split; [done|].
    split; [destruct (exiting_cases (A:=unit) w
                        [unsupported_platform platform] InvalidPlatform)
              as [-> | ->]; discriminate|].
    split; [destruct (exiting_cases (A:=unit) w
                        [unsupported_platform platform] InvalidPlatform)
              as [-> | ->]; discriminate|].
    split.
    + intros _. split; [reflexivity|]. exists []. by rewrite app_nil_r.
    + exists []. split; [by rewrite app_nil_r | by eexists].
Qed.

Lemma release_call_order_witness :
  release "1.0.0" "tizen" "dist/app.apk" false EmptyString "Initial"
    sample_world = (sample_world, inl InvalidPlatform)
  /\ release "1.0.0" "android" "dist/none.apk" false EmptyString "Initial"
       sample_world
     = (logged (FsExists "dist/none.apk") sample_world, inl FileNotFound)
  /\ trace (fst (release "1.0.0" "android" "dist/app.apk" false EmptyString
                   "Initial" sample_world))
     = trace sample_world
       ++ release_calls "dist/app.apk"
            (release_key "android" "1.0.0" "dist/app.apk").
Proof.
  split; [|split].
  - destruct (release_call_order "1.0.0" "tizen" "dist/app.apk" false
                EmptyString "Initial" sample_world) as [Hinvalid _].
    rewrite Hinvalid by (apply not_in_PLATFORMS; reflexivity).
    vm_compute. reflexivity.
  - destruct (release_call_order "1.0.0" "android" "dist/none.apk" false
                EmptyString "Initial" sample_world) as (_ & Hmissing & _).
    rewrite Hmissing;
      [|apply in_PLATFORMS_spec; reflexivity | vm_compute; reflexivity].
    vm_compute. reflexivity.
  - apply (release_call_order "1.0.0" "android" "dist/app.apk" false
             EmptyString "Initial" sample_world).
    vm_compute. reflexivity.
Defined.

(** *** Reading the manifest *)

(** C7. When the read of the manifest object fails, by a fault of the
    call, for want of the object or because its bytes are not JSON text,
    [load_manifest] returns the empty manifest and raises nothing, as it
    does in the world without the object; [announce] goes on from the
    empty manifest, which with the announcement set is what it writes,
    and each of the four commands ends as it does in the world without
    the object. *)
Theorem load_manifest_read_failure (w : World) :
  read_fails w MANIFEST_KEY = true ->
  load_manifest w
  = (called (S3Read MANIFEST_KEY) w, inr LoveACEManifest.empty)
  /\ snd (load_manifest w) = snd (load_manifest (without MANIFEST_KEY w))
  /\ (forall title content confirm,
        head_fault (called (S3Read MANIFEST_KEY) w) = false ->
        announce title content confirm w
        = (written MANIFEST_KEY
             (Text (LoveACEManifest.model_dump
                      (setAnnouncement LoveACEManifest.empty title content
                         confirm)))
             (called (S3Read MANIFEST_KEY) w),
           ending w (announce_report w title content confirm)))
  /\ (forall title content confirm,
        snd (announce title content confirm w)
        = snd (announce title content confirm (without MANIFEST_KEY w)))
  /\ snd (clear_announce w) = snd (clear_announce (without MANIFEST_KEY w))
  /\ (forall version platform file force content changelog,
        snd (release version platform file force content changelog w)
        = snd (release version platform file force content changelog
                 (without MANIFEST_KEY w)))
  /\ (forall platform force,
        snd (set_force platform force w)
        = snd (set_force platform force (without MANIFEST_KEY w))).
Proof.
  intros Hfail.
  assert (Hnone : fetched w MANIFEST_KEY = None).
  { unfold read_fails in Hfail. unfold fetched.
    destruct (head_fault w); [reflexivity|]. cbn in Hfail.
    destruct (objects w !! MANIFEST_KEY) as [[bytes|doc]|];
      [reflexivity|discriminate|reflexivity]. }
  assert (Hgone : fetched (without MANIFEST_KEY w) MANIFEST_KEY = None).
  { unfold fetched, without. cbn. rewrite lookup_delete_eq.
    by destruct (head_fault _). }
  split; [|split; [|split; [|split; [|split; [|split]]]]].
  - rewrite load_manifest_run, Hnone. reflexivity.
  - rewrite !load_manifest_run, Hnone, Hgone. reflexivity.
  - intros t c r Hf. rewrite announce_run, Hnone. cbn zeta.
    cbn [manifest_of_data]. by rewrite Hf.
  - intros t c r. rewrite !announce_run, Hnone, Hgone. cbn zeta.
    change (head_fault (called _ (without MANIFEST_KEY w)))
      with (head_fault (called (S3Read MANIFEST_KEY) w)).
    by destruct (head_fault _).
  - rewrite !clear_announce_run, Hnone, Hgone. cbn zeta.
    change (head_fault (called _ (without MANIFEST_KEY w)))
      with (head_fault (called (S3Read MANIFEST_KEY) w)).
    by destruct (head_fault _).
  - intros v p file force c t. destruct (in_PLATFORMS p) eqn:Hp.
    + rewrite !release_run, Hnone, Hgone by exact Hp. cbn zeta.
      change (exists_at (without MANIFEST_KEY w)) with (exists_at w).
      destruct (exists_at w file); [|reflexivity].
      change (files (without MANIFEST_KEY w)) with (files w).
      destruct (files w !! file) as [data|]; [|reflexivity].
      cbn [manifest_of_data].
      change (shows (without MANIFEST_KEY w)) with (shows w).
      destruct (forallb _ _); [|reflexivity].
      change (url_of (without MANIFEST_KEY w)) with (url_of w).
      change (has_cdn (without MANIFEST_KEY w)) with (has_cdn w).
      set (w4 := logged _ (logged _ (called _ (logged _ w)))).
      set (w4' := logged _ (logged _ (called _ (logged _ (without _ w))))).
      change (head_fault w4') with (head_fault w4).
      destruct (head_fault w4); [reflexivity|].
      destruct (has_cdn w); [|reflexivity].
      destruct (release_manifest _ _ _ _ _ _ _ _); [|reflexivity].
      change (head_fault (written _ _ w4'))
        with (head_fault (written (release_key p v file) (Raw data) w4)).
      by destruct (head_fault _).
    + by rewrite !release_invalid by exact Hp.
  - intros p force. destruct (in_PLATFORMS p) eqn:Hp.
    + rewrite !set_force_run, Hnone, Hgone by exact Hp. reflexivity.
    + by rewrite !set_force_invalid by exact Hp.
Qed.

Lemma load_manifest_read_failure_witness :
  load_manifest corrupt_world
  = (called (S3Read MANIFEST_KEY) corrupt_world, inr LoveACEManifest.empty)
  /\ snd (load_manifest corrupt_world)
     = snd (load_manifest (without MANIFEST_KEY corrupt_world))
  /\ stored_manifest (fst (announce "Maintenance" "tonight" true corrupt_world))
     = Some (setAnnouncement LoveACEManifest.empty "Maintenance" "tonight"
               true).
Proof.
  destruct (load_manifest_read_failure corrupt_world)
    as (Hload & Hsame & Hann & _).
  - vm_compute. reflexivity.
  - split; [exact Hload|]. split; [exact Hsame|].
    rewrite Hann by reflexivity. vm_compute. reflexivity.
Defined.

(** A document that is JSON text of another shape is not a read failure:
    validation raises and the command ends there. *)
Example load_manifest_legacy :
  read_fails legacy_world MANIFEST_KEY = false
  /\ snd (load_manifest legacy_world) = inl ValidationError
  /\ snd (clear_announce legacy_world) = inl ValidationError
  /\ objects (fst (clear_announce legacy_world)) = objects legacy_world.
Proof. repeat split; vm_compute; reflexivity. Qed.

(** A changelog beyond the bound of the field dumps but does not
    validate. *)
Example oversized_changelog_rejected :
  let o := OTA.mk EmptyString
             (replicate 11 (ChangelogEntry.mk "1.0.0" "Initial"))
             None None None None None in
  OTA.model_validate (OTA.model_dump o) = None.
Proof. vm_compute. reflexivity. Qed.

(** The scenarios of the specification. *)
Example scenario_first_release :
  publishRelease LoveACEManifest.empty "android" "1.0.0" false sample_url
    sample_md5 EmptyString "Initial" = inr released_once.
Proof. reflexivity. Qed.

Example scenario_same_version :
  publishRelease released_once "android" "1.0.0" false sample_url sample_md5
    EmptyString "Initial fix" = inr released_twice.
Proof. reflexivity. Qed.

Example scenario_set_force :
  setForceUpdate released_twice "android" true
  = inr (LoveACEManifest.mk None
           (Some (OTA.mk EmptyString [ChangelogEntry.mk "1.0.0" "Initial fix"]
                    (Some (PlatformRelease.mk "1.0.0" true sample_url
                             sample_md5))
                    None None None None))).
Proof. reflexivity. Qed.

Example scenario_release_command :
  stored_manifest
    (fst (release "1.0.0" "android" "dist/app.apk" false EmptyString
            "Initial" sample_world)) = Some released_once.
Proof. vm_compute. reflexivity. Qed.

(** Without a CDN base URL, the default of config.py, the upload of the
    installer goes through and the URL of it raises: the installer is in
    the bucket and the manifest is not written. *)
Example release_without_cdn :
  let r := release "1.0.0" "android" "dist/app.apk" false EmptyString
             "Initial" (with_cdn EmptyString sample_world) in
  snd r = inl AttributeError
  /\ writes_of (trace (fst r)) = ["loveace/releases/android/1.0.0/app.apk"]
  /\ objects (fst r) !! MANIFEST_KEY = None.
Proof. repeat split; vm_compute; reflexivity. Qed.

(** A version with a closing tag in it: the console of the samples
    raises on the report of the release, after the manifest was
    written. *)
Example release_report_not_rendered :
  let r := release "1.0[/rc]" "android" "dist/app.apk" false EmptyString
             "Initial" sample_world in
  snd r = inl MarkupError
  /\ writes_of (trace (fst r))
     = ["loveace/releases/android/1.0[/rc]/app.apk"; MANIFEST_KEY]
  /\ stored_manifest (fst r)
     = Some (LoveACEManifest.mk None
               (Some (OTA.mk EmptyString
                        [ChangelogEntry.mk "1.0[/rc]" "Initial"]
                        (Some (PlatformRelease.mk "1.0[/rc]" false
                                 ("https://cdn.example.com/loveace/releases/"
                                  +:+ "android/1.0[/rc]/app.apk")
                                 sample_md5))
                        None None None None))).
Proof. repeat split; vm_compute; reflexivity. Qed.

(** The path of a directory passes the check of the path; the read for
    the checksum raises, after the manifest was read. *)
Example release_of_directory :
  let r := release "1.0.0" "android" "dist" false EmptyString "Initial"
             sample_world in
  snd r = inl OSError
  /\ trace (fst r) = [FsExists "dist"; S3Read MANIFEST_KEY; FsRead "dist"]
  /\ objects (fst r) = objects sample_world.
Proof. repeat split; vm_compute; reflexivity. Qed.

Example md5_test_vectors :
  MD5.hexdigest EmptyString = "d41d8cd98f00b204e9800998ecf8427e"
  /\ MD5.hexdigest "abc" = "900150983cd24fb0d6963f7d28e17f72"
  /\ MD5.hexdigest "message digest" = "f96b697d7cb7938d525a2f31aaf161d0".
Proof. repeat split; vm_compute; reflexivity. Qed.
(* ===================================================================== *)
(** ** Further properties of the update operations *)
(* ===================================================================== *)

Lemma filter_all {A : Type} (P : A -> Prop) `{!forall x, Decision (P x)}
    (l : list A) :
  (forall x, x ∈ l -> P x) -> filter P l = l.
Proof.
  induction l as [|a l IH]; intros Hall; [reflexivity|].
  rewrite filter_cons_True by (apply Hall; left).
  f_equal. apply IH. intros x Hx. apply Hall. by right.
Qed.

Lemma changelog_spec_again (old : list ChangelogEntry.t)
    (version text : string) :
  changelog_spec (changelog_spec old version text) version text
  = changelog_spec old version text.
Proof.
  unfold changelog_spec.
  set (P := fun e : ChangelogEntry.t => ChangelogEntry.version e ≠ version).
  set (F := filter P old).
  assert (Hkeep : forall n, filter P (take n F) = take n F).
  { intros n. apply filter_all. intros e He.
    eapply elem_of_sublist in He; [|apply sublist_take].
    subst F. by apply list_elem_of_filter in He as [He _]. }
  destruct (str_truthy text); cbn [app].
  - cbn [take]. rewrite filter_cons_False by (subst P; cbn; tauto).
    rewrite Hkeep. cbn [take]. by rewrite take_take.
  - rewrite Hkeep. by rewrite take_take.
Qed.

Lemma setattr_again (o o' : OTA.t) (p : string)
    (r : option PlatformRelease.t) (c : string)
    (l : list ChangelogEntry.t) :
  OTA.setattr o p r = Some o' ->
  OTA.setattr
    (OTA.mk c l (OTA.android o') (OTA.ios o') (OTA.windows o')
       (OTA.macos o') (OTA.linux o')) p r
  = Some (OTA.mk c l (OTA.android o') (OTA.ios o') (OTA.windows o')
            (OTA.macos o') (OTA.linux o')).
Proof.
  destruct o. unfold OTA.setattr. intros H.
  name_cases; inversion H; subst; reflexivity.
Qed.

(** X1. A release run again with the arguments it had changes nothing:
    the manifest it gave is the manifest it gives from that one. *)
Theorem publishRelease_idempotent (m m' : LoveACEManifest.t)
    (platform version : string) (forceUpdate : bool)
    (url checksum sharedContent changelogText : string) :
  publishRelease m platform version forceUpdate url checksum sharedContent
    changelogText = inr m' ->
  publishRelease m' platform version forceUpdate url checksum sharedContent
    changelogText = inr m'.
Proof.
  intros H. pose proof (release_changelog _ _ _ _ _ _ _ _ _ H) as Hlog.
  pose proof (release_content _ _ _ _ _ _ _ _ _ H) as Hcont.
  apply publishRelease_inv in H as [Hp H].
  apply release_manifest_inv in H as (o' & Ho' & ->).
  unfold publishRelease, release_manifest. rewrite Hp. cbn [negb].
  rewrite build_changelog_spec.
  unfold changelog_of in Hlog at 1. cbn in Hlog.
  unfold changelog_of at 1. cbn [LoveACEManifest.ota].
  rewrite Hlog, changelog_spec_again, <- Hlog.
  unfold update_ota. cbn [LoveACEManifest.ota OTA.content OTA.changelog
    OTA.android OTA.ios OTA.windows OTA.macos OTA.linux].
  unfold shared_content in Hcont. cbn in Hcont. injection Hcont as Hcont.
  assert (Hc : (if str_truthy sharedContent then sharedContent
                else OTA.content o') = OTA.content o').
  { destruct (str_truthy sharedContent) eqn:Es; [|reflexivity].
    rewrite Hcont. by destruct (LoveACEManifest.ota m). }
  destruct (str_truthy sharedContent);
    rewrite (setattr_again _ _ _ _ _ _ Ho'); cbn;
    destruct o'; cbn in Hc |- *; congruence.
Qed.

Lemma publishRelease_idempotent_witness :
  publishRelease released_once "android" "1.0.0" false sample_url sample_md5
    EmptyString "Initial" = inr released_once.
Proof.
  apply (publishRelease_idempotent LoveACEManifest.empty released_once).
  reflexivity.
Defined.

(** X2. The changelog after a release is its new entry, when it came
    with text, followed by entries of the old changelog in the order they
    had there, none of them of the released version. When the version was
    not in the old changelog, these are the old entries themselves, cut
    at the end to what fits in ten. *)
Theorem release_keeps_order (m m' : LoveACEManifest.t)
    (platform version : string) (forceUpdate : bool)
    (url checksum sharedContent changelogText : string) :
  publishRelease m platform version forceUpdate url checksum sharedContent
    changelogText = inr m' ->
  let new := if str_truthy changelogText
             then [ChangelogEntry.mk version changelogText] else [] in
  (exists kept,
     changelog_of m' = new ++ kept
     /\ kept `sublist_of` changelog_of m
     /\ Forall (λ e, ChangelogEntry.version e ≠ version) kept)
  /\ (version ∉ versions (changelog_of m) ->
      changelog_of m' = take 10 (new ++ changelog_of m)).
Proof.
  intros H new. rewrite (release_changelog _ _ _ _ _ _ _ _ _ H).
  unfold changelog_spec. fold new.
  set (P := fun e : ChangelogEntry.t => ChangelogEntry.version e ≠ version).
  split.
  - exists (take (10 - length new) (filter P (changelog_of m))).
    split; [|split].
    + rewrite take_app. f_equal. apply take_ge.
      subst new. destruct (str_truthy changelogText); cbn; lia.
    + etransitivity; [apply sublist_take | apply sublist_filter].
    + apply Forall_forall. intros e He.
      eapply elem_of_sublist in He; [|apply sublist_take].
      by apply list_elem_of_filter in He as [He _].
  - intros Hfresh. rewrite filter_all; [reflexivity|].
    intros e He Hv. apply Hfresh. unfold versions.
    apply list_elem_of_fmap. eauto.
Qed.

Lemma release_keeps_order_witness :
  (exists kept,
     changelog_of released_twice
     = [ChangelogEntry.mk "1.0.0" "Initial fix"] ++ kept
     /\ kept `sublist_of` changelog_of released_once
     /\ Forall (λ e, ChangelogEntry.version e ≠ "1.0.0") kept)
  /\ ("1.0.0" ∉ versions (changelog_of released_once) ->
      changelog_of released_twice
      = take 10 ([ChangelogEntry.mk "1.0.0" "Initial fix"]
                   ++ changelog_of released_once)).
Proof.
  apply (release_keeps_order released_once released_twice "android" "1.0.0"
           false sample_url sample_md5 EmptyString "Initial fix").
  reflexivity.
Defined.

(** X3. After a release for a platform the flag of that platform can be
    set: [setForceUpdate] does not fail, gives the record of the release
    with the new flag, and with the flag of the release gives the
    manifest back as it is. *)
Theorem release_then_set_force (m m' : LoveACEManifest.t)
    (platform version : string) (forceUpdate : bool)
    (url checksum sharedContent changelogText : string) :
  publishRelease m platform version forceUpdate url checksum sharedContent
    changelogText = inr m' ->
  setForceUpdate m' platform forceUpdate = inr m'
  /\ forall force,
       exists m'',
         setForceUpdate m' platform force = inr m''
         /\ platform_record m'' platform
            = Some (PlatformRelease.mk version force url checksum)
         /\ changelog_of m'' = changelog_of m'
         /\ shared_content m'' = shared_content m'.
Proof.
  intros H. pose proof (release_record _ _ _ _ _ _ _ _ _ H) as [Hrec _].
  apply publishRelease_inv in H as [Hp H].
  apply release_manifest_inv in H as (o' & Ho' & ->).
  unfold platform_record in Hrec. cbn in Hrec.
  unfold setForceUpdate, force_manifest. rewrite Hp.
  cbn [negb LoveACEManifest.ota LoveACEManifest.announcement].
  rewrite Hrec. cbn [PlatformRelease.version PlatformRelease.url
    PlatformRelease.md5]. split.
  - assert (Hsame : OTA.setattr o' platform
              (Some (PlatformRelease.mk version forceUpdate url checksum))
            = Some o').
    { destruct o'. unfold OTA.getattr in Hrec. unfold OTA.setattr.
      name_cases; cbn in Hrec; congruence. }
    by rewrite Hsame.
  - intros force.
    destruct (setattr_platform o' platform
                (Some (PlatformRelease.mk version force url checksum)) Hp)
      as [o'' Ho''].
    rewrite Ho''. eexists. split; [reflexivity|].
    destruct (setattr_shared _ _ _ _ Ho'') as [Hc Hl].
    unfold platform_record, changelog_of, shared_content. cbn.
    split; [eapply getattr_setattr_eq, Ho''|]. by rewrite Hc, Hl.
Qed.

Lemma release_then_set_force_witness :
  setForceUpdate released_once "android" false = inr released_once
  /\ forall force,
       exists m'',
         setForceUpdate released_once "android" force = inr m''
         /\ platform_record m'' "android"
            = Some (PlatformRelease.mk "1.0.0" force sample_url sample_md5)
         /\ changelog_of m'' = changelog_of released_once
         /\ shared_content m'' = shared_content released_once.
Proof.
  apply (release_then_set_force LoveACEManifest.empty released_once "android"
           "1.0.0" false sample_url sample_md5 EmptyString "Initial").
  reflexivity.
Defined.

(** X4. Setting the flag of a platform a second time to the same value
    changes nothing, and setting it back to the value it had gives back
    the manifest there was. *)
Theorem setForceUpdate_undo (m m' : LoveACEManifest.t) (platform : string)
    (force : bool) :
  setForceUpdate m platform force = inr m' ->
  setForceUpdate m' platform force = inr m'
  /\ exists r,
       platform_record m platform = Some r
       /\ setForceUpdate m' platform (PlatformRelease.force_ota r) = inr m.
Proof.
  unfold setForceUpdate, force_manifest, platform_record.
  destruct (in_PLATFORMS platform) eqn:Hp; [|discriminate]. cbn [negb].
  destruct m as [a [o|]]; [|discriminate].
  cbn [LoveACEManifest.ota LoveACEManifest.announcement mbind option_bind].
  destruct o as [c l an io wi ma li].
  apply in_PLATFORMS_cases in Hp.
  destruct Hp as [-> | [-> | [-> | [-> | ->]]]]; cbn;
    match goal with
    | |- context [match ?r with Some _ => _ | None => _ end] =>
        destruct r as [[v fo u md]|]; [|discriminate]
    end;
    intros [= <-]; cbn; (split; [reflexivity | eexists; split; reflexivity]).
Qed.

Lemma setForceUpdate_undo_witness :
  setForceUpdate
    (LoveACEManifest.mk None
       (Some (OTA.mk EmptyString [ChangelogEntry.mk "1.0.0" "Initial"]
                (Some (PlatformRelease.mk "1.0.0" true sample_url sample_md5))
                None None None None))) "android" true
  = inr (LoveACEManifest.mk None
           (Some (OTA.mk EmptyString [ChangelogEntry.mk "1.0.0" "Initial"]
                    (Some (PlatformRelease.mk "1.0.0" true sample_url
                             sample_md5))
                    None None None None)))
  /\ exists r,
       platform_record released_once "android" = Some r
       /\ setForceUpdate
            (LoveACEManifest.mk None
               (Some (OTA.mk EmptyString
                        [ChangelogEntry.mk "1.0.0" "Initial"]
                        (Some (PlatformRelease.mk "1.0.0" true sample_url
                                 sample_md5))
                        None None None None))) "android"
            (PlatformRelease.force_ota r) = inr released_once.
Proof.
  apply (setForceUpdate_undo released_once _ "android" true). reflexivity.
Defined.


(* ===================================================================== *)
(** ** Further properties of the commands *)
(* ===================================================================== *)

Lemma stored_settled_written (m : LoveACEManifest.t) (w : World) :
  LoveACEManifest.valid m ->
  stored_manifest
    (settled (written MANIFEST_KEY (Text (LoveACEManifest.model_dump m)) w))
  = Some m.
Proof.
  intros Hv. unfold stored_manifest, fetched, settled, written, head_fault.
  cbn. rewrite lookup_insert_eq. by apply manifest_of_data_dump.
Qed.

Lemma setAnnouncement_valid (m : LoveACEManifest.t) (t c : string) (r : bool) :
  LoveACEManifest.valid m -> LoveACEManifest.valid (setAnnouncement m t c r).
Proof. by destruct m. Qed.

Lemma clearAnnouncement_valid (m : LoveACEManifest.t) :
  LoveACEManifest.valid m -> LoveACEManifest.valid (clearAnnouncement m).
Proof. by destruct m. Qed.

(** X5. Whatever the faults, a command that ends normally leaves in the
    bucket a manifest that loads again: it validates, and its changelog
    is within the bound of the field. *)
Theorem commands_keep_manifest_loadable (w : World) :
  (forall title content confirm,
     snd (announce title content confirm w) = inr tt ->
     exists m', stored_manifest
                  (settled (fst (announce title content confirm w))) = Some m'
                /\ LoveACEManifest.valid m')
  /\ (snd (clear_announce w) = inr tt ->
      exists m', stored_manifest (settled (fst (clear_announce w))) = Some m'
                 /\ LoveACEManifest.valid m')
  /\ (forall version platform file force content changelog,
        snd (release version platform file force content changelog w)
        = inr tt ->
        exists m',
          stored_manifest
            (settled (fst (release version platform file force content
                             changelog w))) = Some m'
          /\ LoveACEManifest.valid m')
  /\ (forall platform force,
        snd (set_force platform force w) = inr tt ->
        exists m', stored_manifest
                     (settled (fst (set_force platform force w))) = Some m'
                   /\ LoveACEManifest.valid m').
Proof.
  split; [|split; [|split]].
  - intros t c r Hok. apply announce_inr in Hok as (m & Em & ->).
    assert (Hv : LoveACEManifest.valid (setAnnouncement m t c r))
      by (apply setAnnouncement_valid; by eapply manifest_of_data_valid).
    eexists. split; [by apply stored_settled_written | exact Hv].
  - intros Hok. apply clear_announce_inr in Hok as (m & Em & ->).
    assert (Hv : LoveACEManifest.valid (clearAnnouncement m))
      by (apply clearAnnouncement_valid; by eapply manifest_of_data_valid).
    eexists. split; [by apply stored_settled_written | exact Hv].
  - intros v p file force c t Hok.
    apply release_inr in Hok as (m & data & m' & _ & _ & _ & _ & Er & ->).
    assert (Hv : LoveACEManifest.valid m')
      by (by eapply release_manifest_valid).
    eexists. split; [by apply stored_settled_written | exact Hv].
  - intros p force Hok.
    apply set_force_inr in Hok as (m & m' & _ & Em & Ef & ->).
    assert (Hv : LoveACEManifest.valid m').
    { eapply force_manifest_valid; [|exact Ef].
      by eapply manifest_of_data_valid. }
    eexists. split; [by apply stored_settled_written | exact Hv].
Qed.

Lemma commands_keep_manifest_loadable_witness :
  exists m',
    stored_manifest
      (settled (fst (release "1.0.1" "ios" "dist/app.apk" true "News" "More"
                       released_world))) = Some m'
    /\ LoveACEManifest.valid m'.
Proof.
  destruct (commands_keep_manifest_loadable released_world)
    as (_ & _ & Hrel & _).
  apply Hrel. vm_compute. reflexivity.
Defined.

(** Splits a run of [release] into its cases. *)
Ltac release_cases :=
  repeat match goal with
    | |- context [if ?b then _ else _] => destruct b
    | |- context [match ?o with Some _ => _ | None => _ end] => destruct o
    end.

(** X6. A release that ends in an exception other than the one of the
    console leaves the manifest in the bucket as it was, and every
    object but the one under the key of the installer; one that ends
    with [InvalidPlatform], [FileNotFound], [ValidationError] or
    [OSError] leaves all of the bucket. One that ends in the exception
    of the console left the bucket as it was, or had uploaded the
    installer and written the manifest when its report was not
    rendered. *)
Theorem release_failure_keeps_manifest (version platform file : string)
    (force : bool) (content changelog : string) (w : World) (e : error) :
  snd (release version platform file force content changelog w) = inl e ->
  (e ≠ MarkupError ->
   objects (fst (release version platform file force content changelog w))
     !! MANIFEST_KEY = objects w !! MANIFEST_KEY
   /\ forall key, key ≠ release_key platform version file ->
        objects (fst (release version platform file force content
                        changelog w)) !! key = objects w !! key)
  /\ (e = InvalidPlatform \/ e = FileNotFound \/ e = ValidationError
      \/ e = OSError ->
      objects (fst (release version platform file force content changelog w))
      = objects w)
  /\ (e = MarkupError ->
      objects (fst (release version platform file force content changelog w))
      = objects w
      \/ exists m' data,
           files w !! file = Some data
           /\ objects (fst (release version platform file force content
                              changelog w))
              = <[MANIFEST_KEY := Text (LoveACEManifest.model_dump m')]>
                  (<[release_key platform version file := Raw data]>
                     (objects w))).
Proof.
  pose proof (release_key_not_manifest platform version file) as Hk.
  destruct (in_PLATFORMS platform) eqn:Hp.
  2: { rewrite release_invalid by exact Hp. cbn [fst snd]. intros _.
       split; [done|]. split; [done|]. by left. }
  rewrite release_run by exact Hp. cbn zeta.
  destruct (exists_at w file).
  2: { cbn [fst snd]. intros _. split; [done|]. split; [done|]. by left. }
  destruct (manifest_of_data _) as [m|].
  2: { cbn [fst snd]. intros _. split; [done|]. split; [done|]. by left. }
  destruct (files w !! file) as [data|].
  2: { cbn [fst snd]. intros _. split; [done|]. split; [done|]. by left. }
  destruct (forallb _ _).
  2: { cbn [fst snd]. intros _. split; [done|]. split; [done|]. by left. }
  destruct (head_fault _).
  { cbn [fst snd]. intros _. split; [done|]. split; [done|]. by left. }
  assert (Hup : forall o : gmap string blob,
            o = <[release_key platform version file := Raw data]> (objects w) ->
            o !! MANIFEST_KEY = objects w !! MANIFEST_KEY
            /\ forall key, key ≠ release_key platform version file ->
                 o !! key = objects w !! key).
  { intros o ->. split; [by rewrite lookup_insert_ne|].
    intros key Hkey. by rewrite lookup_insert_ne. }
  destruct (has_cdn w).
  2: { cbn [fst snd]. intros [= <-]. split; [intros _; by apply Hup|].
       split; [|discriminate].
       intros [?|[?|[?|?]]]; discriminate. }
  destruct (release_manifest _ _ _ _ _ _ _ _) as [m'|].
  2: { cbn [fst snd]. intros [= <-]. split; [intros _; by apply Hup|].
       split; [|discriminate].
       intros [?|[?|[?|?]]]; discriminate. }
  destruct (head_fault _).
  { cbn [fst snd]. intros [= <-]. split; [intros _; by apply Hup|].
    split; [|discriminate].
    intros [?|[?|[?|?]]]; discriminate. }
  cbn [fst snd].
  destruct (printing_cases w
              (release_report w version platform file force data))
    as [-> | ->]; [discriminate|].
  intros [= <-]. split; [done|].
  split; [intros [?|[?|[?|?]]]; discriminate|].
  intros _. right. by exists m', data.
Qed.

Lemma release_failure_keeps_manifest_witness :
  objects (fst (release "1.0.1" "ios" "dist/none.apk" true "News" "More"
                  released_world)) !! MANIFEST_KEY
  = objects released_world !! MANIFEST_KEY
  /\ objects (fst (release "1.0.1" "ios" "dist" true "News" "More"
                     released_world))
     = objects released_world.
Proof.
  assert (Hfail : snd (release "1.0.1" "ios" "dist/none.apk" true "News"
                         "More" released_world) = inl FileNotFound)
    by (vm_compute; reflexivity).
  assert (Hdir : snd (release "1.0.1" "ios" "dist" true "News" "More"
                        released_world) = inl OSError)
    by (vm_compute; reflexivity).
  destruct (release_failure_keeps_manifest "1.0.1" "ios" "dist/none.apk" true
              "News" "More" released_world FileNotFound Hfail) as [Hm _].
  destruct (release_failure_keeps_manifest "1.0.1" "ios" "dist" true
              "News" "More" released_world OSError Hdir) as (_ & Hall & _).
  split.
  - assert (Hne : FileNotFound ≠ MarkupError) by discriminate.
    destruct (Hm Hne) as [Hkey _]. exact Hkey.
  - apply Hall. auto.
Defined.

(** X7. Whatever its outcome, a release changes no object of the bucket
    other than the one under the key of the installer and the manifest,
    two different keys, and leaves the local files and the settings. *)
Theorem release_touches_two_keys (version platform file : string)
    (force : bool) (content changelog : string) (w : World) :
  release_key platform version file ≠ MANIFEST_KEY
  /\ (forall key,
        key ≠ release_key platform version file -> key ≠ MANIFEST_KEY ->
        objects (fst (release version platform file force content
                        changelog w)) !! key = objects w !! key)
  /\ files (fst (release version platform file force content changelog w))
     = files w
  /\ settings (fst (release version platform file force content changelog w))
     = settings w.
Proof.
  split; [apply release_key_not_manifest|].
  destruct (in_PLATFORMS platform) eqn:Hp.
  2: { rewrite release_invalid by exact Hp. cbn. auto. }
  rewrite release_run by exact Hp. cbn zeta.
  release_cases; cbn; (split; [|auto]); intros key H1 H2;
    by rewrite ?lookup_insert_ne.
Qed.

(** A release that gets to the write of the manifest. *)
Lemma release_ok (version platform file : string) (force : bool)
    (content changelog data : string) (w : World) (m : LoveACEManifest.t) :
  faults w = [] -> stored_manifest w = Some m ->
  in_PLATFORMS platform = true -> files w !! file = Some data ->
  has_cdn w = true ->
  forallb (shows w) (release_progress file data) = true ->
  exists m',
    publishRelease m platform version force
      (url_of w (release_key platform version file)) (MD5.hexdigest data)
      content changelog = inr m'
    /\ release version platform file force content changelog w
       = (written MANIFEST_KEY (Text (LoveACEManifest.model_dump m'))
            (written (release_key platform version file) (Raw data)
               (logged (FsRead file)
                  (logged (FsRead file)
                     (called (S3Read MANIFEST_KEY)
                        (logged (FsExists file) w))))),
          printing w (release_report w version platform file force data)).
Proof.
  intros Hf Hm Hp Hfile Hc Hshow.
  rewrite release_run by exact Hp. cbn zeta.
  unfold stored_manifest in Hm.
  rewrite (exists_at_file _ _ _ Hfile), Hfile, Hm, Hshow, Hc.
  rewrite (no_fault (logged _ (logged _ _)))
    by (cbn; rewrite Hf; reflexivity).
  destruct (release_manifest_total m platform version force
              (url_of w (release_key platform version file))
              (MD5.hexdigest data) content changelog Hp) as [m' Er].
  rewrite Er.
  rewrite (no_fault (written _ _ _)) by (cbn; rewrite Hf; reflexivity).
  exists m'. split; [|reflexivity].
  unfold publishRelease. by rewrite Hp, Er.
Qed.

(** X8. Without faults and with a CDN base URL, a release for a
    platform of [PLATFORMS], of a regular file, onto a manifest that
    loads, with a console that renders the two lines before the upload,
    gets to the end: it leaves the bytes of the file under the key of
    the installer, and in the manifest a record of the platform with
    the URL of that key and the MD5 of those bytes, the records of the
    other platforms being those of the manifest loaded. It ends
    normally when the console renders its report, and in the exception
    of the console when not. *)
Theorem release_stores_installer (version platform file : string)
    (force : bool) (content changelog data : string) (w : World)
    (m : LoveACEManifest.t) :
  faults w = [] -> stored_manifest w = Some m -> platform ∈ PLATFORMS ->
  files w !! file = Some data ->
  cdn_base_url (settings w) ≠ EmptyString ->
  forallb (shows w) (release_progress file data) = true ->
  snd (release version platform file force content changelog w)
  = printing w (release_report w version platform file force data)
  /\ (forallb (shows w)
        (release_report w version platform file force data) = true ->
      snd (release version platform file force content changelog w) = inr tt)
  /\ objects (fst (release version platform file force content changelog w))
       !! release_key platform version file = Some (Raw data)
  /\ exists m',
       stored_manifest
         (fst (release version platform file force content changelog w))
       = Some m'
       /\ platform_record m' platform
          = Some (PlatformRelease.mk version force
                    (url_of w (release_key platform version file))
                    (MD5.hexdigest data))
       /\ forall Q, Q ≠ platform ->
            platform_record m' Q = platform_record m Q.
Proof.
  intros Hf Hm Hp Hfile Hc Hshow. apply in_PLATFORMS_spec in Hp.
  apply has_cdn_true in Hc.
  destruct (release_ok version platform file force content changelog data w m
              Hf Hm Hp Hfile Hc Hshow) as (m' & Hpub & ->).
  cbn [fst snd]. split; [reflexivity|]. split.
  { intros Hr. unfold printing. by rewrite Hr. }
  split.
  - cbn. rewrite lookup_insert_ne by apply not_eq_sym, release_key_not_manifest.
    apply lookup_insert_eq.
  - exists m'. split.
    + apply stored_written; [|cbn; by rewrite Hf].
      apply publishRelease_inv in Hpub as [_ Hrm].
      by eapply release_manifest_valid.
    + eapply release_record, Hpub.
Qed.

Lemma release_stores_installer_witness :
  snd (release "1.0.1" "ios" "dist/app.apk" true "News" "More"
         released_world) = inr tt
  /\ objects (fst (release "1.0.1" "ios" "dist/app.apk" true "News" "More"
                     released_world))
       !! release_key "ios" "1.0.1" "dist/app.apk"
     = Some (Raw "installer bytes")
  /\ exists m',
       stored_manifest
         (fst (release "1.0.1" "ios" "dist/app.apk" true "News" "More"
                 released_world)) = Some m'
       /\ platform_record m' "ios"
          = Some (PlatformRelease.mk "1.0.1" true
                    (url_of released_world
                       (release_key "ios" "1.0.1" "dist/app.apk"))
                    (MD5.hexdigest "installer bytes"))
       /\ forall Q, Q ≠ "ios" ->
            platform_record m' Q = platform_record released_once Q.
Proof.
  destruct (release_stores_installer "1.0.1" "ios" "dist/app.apk" true "News"
              "More" "installer bytes" released_world released_once)
    as (_ & Hend & Hobj & Hrec).
  - reflexivity.
  - vm_compute. reflexivity.
  - apply in_PLATFORMS_spec. reflexivity.
  - reflexivity.
  - discriminate.
  - vm_compute. reflexivity.
  - split; [apply Hend; vm_compute; reflexivity|]. split; assumption.
Defined.

(** X9. Without faults, what [clear_announce] leaves in the bucket after
    an [announce] is what it leaves without it, and what [announce]
    leaves after another [announce] is what it leaves alone: an
    announcement is replaced whole, nothing of the one before stays. *)
Theorem announce_is_overwritten (title content : string) (confirm : bool)
    (w : World) :
  faults w = [] ->
  objects (fst (clear_announce (fst (announce title content confirm w))))
  = objects (fst (clear_announce w))
  /\ forall title' content' confirm',
       objects (fst (announce title' content' confirm'
                       (fst (announce title content confirm w))))
       = objects (fst (announce title' content' confirm' w)).
Proof.
  intros Hf. destruct (stored_manifest w) as [m|] eqn:Hm.
  - assert (Hv : LoveACEManifest.valid (setAnnouncement m title content confirm))
      by (apply setAnnouncement_valid; by eapply stored_manifest_valid).
    destruct (saved_after_load _ w Hf Hv) as (Hf1 & Hm1 & Ho1).
    rewrite (announce_ok m) by assumption. cbn [fst]. split.
    + rewrite (clear_announce_ok _ _ Hf1 Hm1), (clear_announce_ok _ _ Hf Hm).
      cbn. by rewrite insert_insert_eq.
    + intros t' c' r'.
      rewrite (announce_ok _ _ _ _ _ Hf1 Hm1), (announce_ok _ _ _ _ _ Hf Hm).
      cbn. by rewrite insert_insert_eq.
  - unfold stored_manifest in Hm.
    assert (Ha : announce title content confirm w
                 = (called (S3Read MANIFEST_KEY) w, inl ValidationError))
      by (by rewrite announce_run, Hm).
    rewrite Ha. cbn [fst].
    assert (Hm1 : manifest_of_data
                    (fetched (called (S3Read MANIFEST_KEY) w) MANIFEST_KEY)
                  = None).
    { rewrite <- Hm. unfold fetched, head_fault. cbn. by rewrite Hf. }
    split.
    + by rewrite !clear_announce_run, Hm, Hm1.
    + intros t' c' r'. by rewrite !announce_run, Hm, Hm1.
Qed.

Lemma announce_is_overwritten_witness :
  objects (fst (clear_announce
                  (fst (announce "Maintenance" "tonight" true
                          released_world))))
  = objects (fst (clear_announce released_world)).
Proof.
  destruct (announce_is_overwritten "Maintenance" "tonight" true
              released_world eq_refl) as [Hclear _].
  exact Hclear.
Defined.
(* ===================================================================== *)
(** ** Further properties of loading and validation *)
(* ===================================================================== *)

(** X10. A manifest object that is JSON text of a falsy value (null,
    false, zero, an empty string, list or object) loads as the empty
    manifest; one of a truthy value that is no object makes the load
    raise a validation error. *)
Theorem load_manifest_by_truth (w : World) (doc : json) :
  head_fault w = false ->
  objects w !! MANIFEST_KEY = Some (Text doc) ->
  (json_truthy doc = false ->
   snd (load_manifest w) = inr LoveACEManifest.empty)
  /\ (json_truthy doc = true -> (forall d, doc ≠ JObj d) ->
      snd (load_manifest w) = inl ValidationError).
Proof.
  intros Hf Hdoc. rewrite load_manifest_run. cbn [snd].
  unfold fetched. rewrite Hf, Hdoc. split.
  - intros Ht. destruct doc; cbn [manifest_of_data]; try reflexivity;
      by rewrite Ht.
  - intros Ht Hobj.
    destruct doc; cbn [manifest_of_data]; try discriminate; rewrite ?Ht;
      try reflexivity.
    by destruct (Hobj o).
Qed.

Lemma load_manifest_by_truth_witness :
  snd (load_manifest
         (with_objects (<[MANIFEST_KEY := Text (JArr [])]> ∅) sample_world))
  = inr LoveACEManifest.empty
  /\ snd (load_manifest
            (with_objects (<[MANIFEST_KEY := Text (JArr [JNull])]> ∅)
               sample_world))
     = inl ValidationError.
Proof.
  split.
  - apply (load_manifest_by_truth _ (JArr [])); reflexivity.
  - apply (load_manifest_by_truth _ (JArr [JNull])); try reflexivity.
    discriminate.
Defined.

(** Rewrites the lookups of field keys under an insertion at another
    key. *)
Ltac other_key H :=
  repeat (apply not_elem_of_cons in H as [? H]);
  unfold field_optional, field_str, field_str_default, field_bool_default,
    OTA.validate_changelog;
  rewrite ?lookup_insert_ne by done.

(** X11. Validation does not look at keys that are not fields: a
    document validates to the same value with or without them. For an
    announcement this holds of the key md5, so that the digest is never
    taken from the document. *)
Theorem validation_ignores_other_keys (d : gmap string json) (k : string)
    (v : json) :
  (k ∉ ["title"; "content"; "confirm_require"] ->
   Announcement.model_validate (JObj (<[k := v]> d))
   = Announcement.model_validate (JObj d))
  /\ Announcement.model_validate (JObj (<["md5" := v]> d))
     = Announcement.model_validate (JObj d)
  /\ (k ∉ ["version"; "changes"] ->
      ChangelogEntry.model_validate (JObj (<[k := v]> d))
      = ChangelogEntry.model_validate (JObj d))
  /\ (k ∉ ["version"; "force_ota"; "url"; "md5"] ->
      PlatformRelease.model_validate (JObj (<[k := v]> d))
      = PlatformRelease.model_validate (JObj d))
  /\ (k ∉ ["content"; "changelog"; "android"; "ios"; "windows"; "macos";
           "linux"] ->
      OTA.model_validate (JObj (<[k := v]> d)) = OTA.model_validate (JObj d))
  /\ (k ∉ ["announcement"; "ota"] ->
      LoveACEManifest.model_validate (JObj (<[k := v]> d))
      = LoveACEManifest.model_validate (JObj d)).
Proof.
  split; [|split; [|split; [|split; [|split]]]].
  - intros H. unfold Announcement.model_validate. by other_key H.
  - unfold Announcement.model_validate, field_str, field_bool_default.
    by rewrite !lookup_insert_ne.
  - intros H. unfold ChangelogEntry.model_validate. by other_key H.
  - intros H. unfold PlatformRelease.model_validate. by other_key H.
  - intros H. unfold OTA.model_validate. by other_key H.
  - intros H. unfold LoveACEManifest.model_validate. by other_key H.
Qed.

Lemma validation_ignores_other_keys_witness :
  Announcement.model_validate
    (JObj (<["digest" := JStr "stale"]>
             (<["title" := JStr "a"]> (<["content" := JStr "b"]> ∅))))
  = Announcement.model_validate
      (JObj (<["title" := JStr "a"]> (<["content" := JStr "b"]> ∅))).
Proof.
  apply (validation_ignores_other_keys
           (<["title" := JStr "a"]> (<["content" := JStr "b"]> ∅))
           "digest" (JStr "stale")).
  vm_compute. intros H. by repeat (apply elem_of_cons in H as [H|H];
    [discriminate|]); apply elem_of_nil in H.
Defined.


(* ===================================================================== *)
(** ** Keys and URLs *)
(* ===================================================================== *)

Lemma append_assoc_one (acc : string) (a : ascii) (r : string) :
  (acc +:+ String a EmptyString) +:+ r = acc +:+ String a r.
Proof.
  induction acc as [|b acc IH]; [reflexivity|].
  change (String b ((acc +:+ String a EmptyString) +:+ r)
          = String b (acc +:+ String a r)).
  by rewrite IH.
Qed.

Lemma append_empty (s : string) : s +:+ EmptyString = s.
Proof.
  induction s as [|a s IH]; [reflexivity|].
  change (String a (s +:+ EmptyString) = String a s). by rewrite IH.
Qed.

Lemma has_slash_cons (a : ascii) (s : string) :
  has_slash (String a s) = Ascii.eqb "/"%char a || has_slash s.
Proof. reflexivity. Qed.

Lemma has_slash_snoc (acc : string) (a : ascii) :
  has_slash acc = false -> Ascii.eqb a "/"%char = false ->
  has_slash (acc +:+ String a EmptyString) = false.
Proof.
  intros Hacc Ha. induction acc as [|b acc IH].
  - change (has_slash (String a EmptyString) = false).
    rewrite has_slash_cons, Ascii.eqb_sym, Ha. reflexivity.
  - change (has_slash (String b (acc +:+ String a EmptyString)) = false).
    rewrite has_slash_cons in *. apply orb_false_iff in Hacc as [Hb Hacc].
    by rewrite Hb, IH.
Qed.

Lemma name_from_nil (last part : string) :
  name_from last part EmptyString = kept_part last part.
Proof. reflexivity. Qed.

Lemma name_from_slash (last part r : string) :
  name_from last part (String "/"%char r)
  = name_from (kept_part last part) EmptyString r.
Proof. reflexivity. Qed.

Lemma name_from_cons (last part r : string) (a : ascii) :
  Ascii.eqb a "/"%char = false ->
  name_from last part (String a r)
  = name_from last (part +:+ String a EmptyString) r.
Proof. intros Ha. cbn [name_from]. by rewrite Ha. Qed.

Lemma kept_part_no_slash (last part : string) :
  has_slash last = false -> has_slash part = false ->
  has_slash (kept_part last part) = false.
Proof. intros Hl Hp. unfold kept_part. by destruct (is_part part). Qed.

(** The name has no slash. *)
Lemma name_from_no_slash (last part path : string) :
  has_slash last = false -> has_slash part = false ->
  has_slash (name_from last part path) = false.
Proof.
  revert last part. induction path as [|a path IH]; intros last part Hl Hp.
  - by apply kept_part_no_slash.
  - destruct (Ascii.eqb a "/"%char) eqn:Ea.
    + apply Ascii.eqb_eq in Ea as ->. rewrite name_from_slash.
      apply IH; [by apply kept_part_no_slash | reflexivity].
    + rewrite name_from_cons by exact Ea.
      apply IH; [exact Hl | by apply has_slash_snoc].
Qed.

(** A part without slash is read to its end. *)
Lemma name_from_plain (last part n : string) :
  has_slash n = false ->
  name_from last part n = kept_part last (part +:+ n).
Proof.
  revert part. induction n as [|a n IH]; intros part H.
  - by rewrite name_from_nil, append_empty.
  - rewrite has_slash_cons in H. apply orb_false_iff in H as [Ha Hn].
    rewrite Ascii.eqb_sym in Ha.
    rewrite name_from_cons by exact Ha.
    rewrite IH by exact Hn. by rewrite append_assoc_one.
Qed.

(** What follows a slash is read from the start of a part. *)
Lemma name_from_dir (last part dir n : string) :
  exists last',
    name_from last part (dir +:+ "/" +:+ n)
    = name_from last' EmptyString n.
Proof.
  revert last part. induction dir as [|a dir IH]; intros last part.
  - exists (kept_part last part). reflexivity.
  - change (exists last',
              name_from last part (String a (dir +:+ "/" +:+ n))
              = name_from last' EmptyString n).
    destruct (Ascii.eqb a "/"%char) eqn:Ea.
    + apply Ascii.eqb_eq in Ea as ->. rewrite name_from_slash. apply IH.
    + rewrite name_from_cons by exact Ea. apply IH.
Qed.

(** Slashes and single dots at the end change nothing. *)
Lemma name_from_end (last part path tail : string) :
  (forall l p, name_from l p tail = kept_part l p) ->
  name_from last part (path +:+ tail) = name_from last part path.
Proof.
  intros Htail. revert last part.
  induction path as [|a path IH]; intros last part.
  - change (name_from last part tail = kept_part last part). apply Htail.
  - change (name_from last part (String a (path +:+ tail))
            = name_from last part (String a path)).
    cbn [name_from]. destruct (Ascii.eqb a "/"%char); apply IH.
Qed.

Lemma kept_part_again (last part : string) :
  kept_part (kept_part last part) EmptyString = kept_part last part.
Proof. reflexivity. Qed.

(** X12. The name a release takes from the path of the installer is the
    last part of the path that pathlib keeps: it has no slash, and a
    slash or a part of a single dot at the end of the path changes
    nothing. A part without slash that is not empty and not a single
    dot is its own name and the name of every path that ends in a slash
    and that part, so the key of the installer is the same from whatever
    directory the file is released. *)
Theorem path_name_is_last_part (dir name : string) :
  (forall path, has_slash (path_name path) = false)
  /\ (forall path, path_name (path +:+ "/") = path_name path)
  /\ (forall path, path_name (path +:+ "/.") = path_name path)
  /\ (has_slash name = false -> is_part name = true ->
      path_name name = name
      /\ path_name (dir +:+ "/" +:+ name) = name
      /\ path_name (dir +:+ "/" +:+ name +:+ "/") = name
      /\ forall platform version,
           release_key platform version (dir +:+ "/" +:+ name)
           = release_key platform version name).
Proof.
  assert (Hname : has_slash name = false -> is_part name = true ->
            path_name name = name /\ path_name (dir +:+ "/" +:+ name) = name).
  { intros Hs Hp. unfold path_name. split.
    - rewrite name_from_plain by exact Hs.
      change (EmptyString +:+ name) with name. unfold kept_part.
      by rewrite Hp.
    - destruct (name_from_dir EmptyString EmptyString dir name) as [l ->].
      rewrite name_from_plain by exact Hs.
      change (EmptyString +:+ name) with name. unfold kept_part.
      by rewrite Hp. }
  split; [|split; [|split]].
  - intros path. by apply name_from_no_slash.
  - intros path. unfold path_name. apply name_from_end. reflexivity.
  - intros path. unfold path_name. apply name_from_end. reflexivity.
  - intros Hs Hp. destruct (Hname Hs Hp) as [Hplain Hdir].
    split; [exact Hplain|]. split; [exact Hdir|]. split.
    + replace (dir +:+ "/" +:+ name +:+ "/")
        with ((dir +:+ "/" +:+ name) +:+ "/").
      * unfold path_name in *. rewrite name_from_end by reflexivity.
        exact Hdir.
      * clear. induction dir as [|a dir IH].
        -- change (String "/" (name +:+ "/") = String "/" (name +:+ "/")).
           reflexivity.
        -- change (String a ((dir +:+ "/" +:+ name) +:+ "/")
                   = String a (dir +:+ "/" +:+ name +:+ "/")).
           by rewrite IH.
    + intros p v. unfold release_key. by rewrite Hplain, Hdir.
Qed.

Lemma path_name_is_last_part_witness :
  path_name "app.apk" = "app.apk"
  /\ path_name ("build/outputs" +:+ "/" +:+ "app.apk") = "app.apk"
  /\ path_name ("build/outputs" +:+ "/" +:+ "app.apk" +:+ "/") = "app.apk".
Proof.
  destruct (path_name_is_last_part "build/outputs" "app.apk")
    as (_ & _ & _ & Hname).
  destruct Hname as (Hplain & Hdir & Hslash & _); [reflexivity..|].
  split; [exact Hplain|]. split; [exact Hdir | exact Hslash].
Defined.

(** The names pathlib gives where no part of the path is kept, and past
    parts of a single dot. *)
Example path_name_samples :
  path_name EmptyString = EmptyString
  /\ path_name "." = EmptyString
  /\ path_name "/" = EmptyString
  /\ path_name "./app.apk" = "app.apk"
  /\ path_name "dist//app.apk" = "app.apk"
  /\ path_name "dist/../app.apk/." = "app.apk"
  /\ path_name "dist/.." = "..".
Proof. repeat split; reflexivity. Qed.

Lemma rstrip_snoc (c : ascii) (s : string) :
  S3Client.rstrip c (s +:+ String c EmptyString) = S3Client.rstrip c s.
Proof.
  induction s as [|a s IH].
  - change (S3Client.rstrip c (String c EmptyString) = EmptyString).
    cbn [S3Client.rstrip]. by rewrite Ascii.eqb_refl.
  - change (S3Client.rstrip c (String a (s +:+ String c EmptyString))
            = S3Client.rstrip c (String a s)).
    cbn [S3Client.rstrip]. by rewrite IH.
Qed.

Lemma rstrip_ends (c : ascii) (s : string) :
  ends_with c (S3Client.rstrip c s) = false.
Proof.
  induction s as [|a s IH]; [reflexivity|]. cbn [S3Client.rstrip].
  destruct (S3Client.rstrip c s) as [|b r] eqn:E.
  - destruct (Ascii.eqb a c) eqn:Ea; [reflexivity|]. exact Ea.
  - exact IH.
Qed.

Lemma rstrip_fixed (c : ascii) (s : string) :
  ends_with c s = false -> S3Client.rstrip c s = s.
Proof.
  induction s as [|a s IH]; [reflexivity|]. intros H. cbn [S3Client.rstrip].
  destruct s as [|b r].
  - cbn [S3Client.rstrip]. change (Ascii.eqb a c = false) in H. by rewrite H.
  - rewrite IH by exact H. reflexivity.
Qed.

Lemma str_truthy_snoc (s : string) (c : ascii) :
  str_truthy (s +:+ String c EmptyString) = true.
Proof. by destruct s. Qed.

(** X13. With a CDN base URL that is not empty [_get_url] returns the
    base without the slashes at its end, a slash and the key: one slash
    more at the end of the base gives the same URL, and the part before
    the key never ends in a slash. Without a base it raises
    [AttributeError], and so does an upload, after its write went
    through. *)
Theorem url_ignores_trailing_slash (base key : string) (w : World) :
  (base ≠ EmptyString ->
   S3Client._get_url key (with_cdn base w)
   = (with_cdn base w, inr (S3Client.rstrip "/"%char base +:+ "/" +:+ key))
   /\ ends_with "/"%char (S3Client.rstrip "/"%char base) = false
   /\ snd (S3Client._get_url key (with_cdn (base +:+ "/") w))
      = snd (S3Client._get_url key (with_cdn base w))
   /\ (ends_with "/"%char base = false ->
       snd (S3Client._get_url key (with_cdn base w))
       = inr (base +:+ "/" +:+ key)))
  /\ S3Client._get_url key (with_cdn EmptyString w)
     = (with_cdn EmptyString w, inl AttributeError)
  /\ (forall content, head_fault w = false ->
        S3Client.upload_content content key (with_cdn EmptyString w)
        = (written key content (with_cdn EmptyString w), inl AttributeError)).
Proof.
  split; [|split; [reflexivity|]].
  - intros Hb. apply str_truthy_true in Hb.
    unfold S3Client._get_url, with_cdn. cbn [settings cdn_base_url].
    rewrite Hb, str_truthy_snoc, rstrip_snoc.
    split; [reflexivity|]. split; [apply rstrip_ends|].
    split; [reflexivity|]. intros He. by rewrite rstrip_fixed.
  - intros content Hf. rewrite upload_content_run.
    change (head_fault (with_cdn EmptyString w)) with (head_fault w).
    by rewrite Hf.
Qed.

Lemma url_ignores_trailing_slash_witness :
  snd (S3Client._get_url MANIFEST_KEY
         (with_cdn "https://cdn.example.com" sample_world))
  = inr "https://cdn.example.com/loveace/manifest.json"
  /\ snd (S3Client._get_url MANIFEST_KEY
            (with_cdn ("https://cdn.example.com" +:+ "/") sample_world))
     = snd (S3Client._get_url MANIFEST_KEY
              (with_cdn "https://cdn.example.com" sample_world)).
Proof.
  destruct (url_ignores_trailing_slash "https://cdn.example.com" MANIFEST_KEY
              sample_world) as [Hbase _].
  destruct Hbase as (_ & _ & Hsame & Hplain); [discriminate|].
  split; [|exact Hsame]. apply Hplain. reflexivity.
Defined.

(* ===================================================================== *)
(** ** status and deploy-page *)
(* ===================================================================== *)

Lemma status_run (w : World) :
  status w
  = (called (S3Read MANIFEST_KEY) w,
     match manifest_of_data (fetched w MANIFEST_KEY) with
     | Some m =>
         if forallb (shows w) (status_output m) then inr (status_output m)
         else inl MarkupError
     | None => inl ValidationError
     end).
Proof.
  unfold status. cbn zeta.
  destruct (manifest_of_data (fetched w MANIFEST_KEY)) as [m|] eqn:E.
  - erewrite bind_inr by (rewrite load_manifest_run, E; reflexivity).
    unfold bind. rewrite print_all_run. unfold printing.
    fold (status_output m).
    change (shows (called (S3Read MANIFEST_KEY) w)) with (shows w).
    destruct (forallb _ _); reflexivity.
  - erewrite bind_inl by (rewrite load_manifest_run, E; reflexivity).
    reflexivity.
Qed.

Lemma platform_rows_spec (o : OTA.t) :
  platform_rows o
  = omap (fun p => platform_row p <$> OTA.getattr o p) PLATFORMS.
Proof. destruct o as [c l [a|] [i|] [w|] [m|] [x|]]; reflexivity. Qed.

Lemma read_fails_fetched (w : World) (key : string) :
  read_fails w key = true -> fetched w key = None.
Proof.
  unfold read_fails, fetched. intros Hfail.
  destruct (head_fault w); [reflexivity|]. cbn in Hfail.
  destruct (objects w !! key) as [[bytes|doc]|];
    [reflexivity|discriminate|reflexivity].
Qed.

(** X14. [status] only reads: it issues the read of the manifest and no
    other call, and leaves the bucket and the local files as they are.
    It ends in an exception only when the manifest does not validate or
    the console does not render a text of it; for a manifest that loads
    it prints the announcement and the OTA record when the console
    renders them all. When the read of the manifest fails it works from
    the empty manifest and prints that there is no announcement and no
    version, when the console renders these two lines. *)
Theorem status_reads_only (w : World) :
  objects (fst (status w)) = objects w
  /\ files (fst (status w)) = files w
  /\ trace (fst (status w)) = trace w ++ [S3Read MANIFEST_KEY]
  /\ (forall e, snd (status w) = inl e ->
        e = ValidationError /\ stored_manifest w = None
        \/ e = MarkupError
           /\ exists m, stored_manifest w = Some m
                        /\ forallb (shows w) (status_output m) = false)
  /\ (forall m, stored_manifest w = Some m ->
        forallb (shows w) (status_output m) = true ->
        snd (status w) = inr (status_output m))
  /\ (read_fails w MANIFEST_KEY = true ->
      stored_manifest w = Some LoveACEManifest.empty
      /\ snd (status w)
         = if forallb (shows w)
                [Markup "[dim]📢 暂无公告[/]"; Markup "[dim]📦 暂无版本信息[/]"]
           then inr [Markup "[dim]📢 暂无公告[/]";
                     Markup "[dim]📦 暂无版本信息[/]"]
           else inl MarkupError).
Proof.
  rewrite status_run. cbn [fst snd]. unfold stored_manifest.
  split; [reflexivity|]. split; [reflexivity|]. split; [reflexivity|].
  split; [|split].
  - intros e. destruct (manifest_of_data _) as [m|].
    + destruct (forallb _ _) eqn:Es; [discriminate|]. intros [= <-].
      right. split; [reflexivity|]. by exists m.
    + intros [= <-]. by left.
  - intros m -> ->. reflexivity.
  - intros Hfail. rewrite (read_fails_fetched _ _ Hfail).
    split; reflexivity.
Qed.

Lemma status_reads_only_witness :
  snd (status released_world) = inr (status_output released_once)
  /\ snd (status corrupt_world)
     = inr [Markup "[dim]📢 暂无公告[/]"; Markup "[dim]📦 暂无版本信息[/]"].
Proof.
  destruct (status_reads_only released_world) as (_ & _ & _ & _ & Hout & _).
  destruct (status_reads_only corrupt_world) as (_ & _ & _ & _ & _ & Hfail).
  split.
  - apply Hout; vm_compute; reflexivity.
  - destruct Hfail as [_ Hlines]; [vm_compute; reflexivity|].
    rewrite Hlines. vm_compute. reflexivity.
Defined.

(** X15. The table of the platforms that [status] prints has a row for
    each platform of [PLATFORMS] that has a record and no other row, in
    the order of [PLATFORMS]; a row shows the name in capitals, the
    version, the flag, the first sixteen characters of the checksum and
    the URL. After a release that got to the write of the manifest the
    row of its platform shows the released version and flag, the MD5 of
    the installer and its URL, the changelog starts with the text of the
    release, and this is what [status] prints when the console renders
    it. *)
Theorem status_shows_release (version platform file : string)
    (force : bool) (content changelog data : string) (w : World)
    (m : LoveACEManifest.t) :
  (forall o,
     platform_rows o
     = omap (fun p => platform_row p <$> OTA.getattr o p) PLATFORMS)
  /\ (forall o row,
        row ∈ platform_rows o <->
        exists p r, p ∈ PLATFORMS /\ OTA.getattr o p = Some r
                    /\ row = platform_row p r)
  /\ (faults w = [] -> stored_manifest w = Some m ->
      platform ∈ PLATFORMS -> files w !! file = Some data ->
      cdn_base_url (settings w) ≠ EmptyString ->
      forallb (shows w) (release_progress file data) = true ->
      exists o,
        stored_manifest
          (fst (release version platform file force content changelog w))
        = Some (LoveACEManifest.mk (LoveACEManifest.announcement m) (Some o))
        /\ [upper platform; version; yes_no force;
            str_take 16 (MD5.hexdigest data) +:+ "...";
            url_of w (release_key platform version file)]
           ∈ platform_rows o
        /\ (changelog ≠ EmptyString ->
            head (OTA.changelog o)
            = Some (ChangelogEntry.mk version changelog))
        /\ (forallb (shows w)
              (status_output
                 (LoveACEManifest.mk (LoveACEManifest.announcement m)
                    (Some o))) = true ->
            snd (status (fst (release version platform file force content
                                changelog w)))
            = inr (status_output
                     (LoveACEManifest.mk (LoveACEManifest.announcement m)
                        (Some o))))).
Proof.
  split; [apply platform_rows_spec|]. split.
  - intros o row. rewrite platform_rows_spec, list_elem_of_omap. split.
    + intros (p & Hp & Hrow). destruct (OTA.getattr o p) as [r|] eqn:Er;
        [|discriminate]. injection Hrow as <-. eauto.
    + intros (p & r & Hp & Hr & ->). exists p. by rewrite Hr.
  - intros Hf Hm Hp Hfile Hc Hshow. pose proof Hp as Hin.
    apply in_PLATFORMS_spec in Hp. apply has_cdn_true in Hc.
    destruct (release_ok version platform file force content changelog data
                w m Hf Hm Hp Hfile Hc Hshow) as (m' & Hpub & Hrun).
    rewrite Hrun. cbn [fst].
    pose proof (release_record _ _ _ _ _ _ _ _ _ Hpub) as [Hrec _].
    pose proof (release_changelog _ _ _ _ _ _ _ _ _ Hpub) as Hlog.
    apply publishRelease_inv in Hpub as [_ Hrm].
    pose proof (release_manifest_valid _ _ _ _ _ _ _ _ _ Hrm) as Hv.
    apply release_manifest_inv in Hrm as (o' & _ & ->).
    assert (Hst : stored_manifest
                    (written MANIFEST_KEY
                       (Text (LoveACEManifest.model_dump
                                (LoveACEManifest.mk
                                   (LoveACEManifest.announcement m)
                                   (Some o'))))
                       (written (release_key platform version file)
                          (Raw data)
                          (logged (FsRead file)
                             (logged (FsRead file)
                                (called (S3Read MANIFEST_KEY)
                                   (logged (FsExists file) w))))))
                  = Some (LoveACEManifest.mk (LoveACEManifest.announcement m)
                            (Some o'))).
    { apply stored_written; [exact Hv|]. cbn. by rewrite Hf. }
    exists o'. split; [exact Hst|]. split; [|split].
    + unfold platform_record in Hrec. cbn in Hrec.
      rewrite platform_rows_spec, list_elem_of_omap.
      exists platform. split; [exact Hin|]. by rewrite Hrec.
    + intros Ht. unfold changelog_of in Hlog at 1. cbn in Hlog.
      rewrite Hlog. by apply changelog_spec_head.
    + intros Hs. rewrite status_run. cbn [snd].
      change (manifest_of_data (fetched ?w' MANIFEST_KEY))
        with (stored_manifest w').
      rewrite Hst.
      change (shows (written ?k ?d (written ?k' ?d' (logged ?e1 (logged ?e2
                (called ?e3 (logged ?e4 w)))))))
        with (shows w).
      by rewrite Hs.
Qed.

Lemma status_shows_release_witness :
  exists o,
    stored_manifest
      (fst (release "1.0.1" "ios" "dist/app.apk" true "News" "More"
              released_world))
    = Some (LoveACEManifest.mk (LoveACEManifest.announcement released_once)
              (Some o))
    /\ [upper "ios"; "1.0.1"; yes_no true;
        str_take 16 (MD5.hexdigest "installer bytes") +:+ "...";
        url_of released_world (release_key "ios" "1.0.1" "dist/app.apk")]
       ∈ platform_rows o
    /\ ("More" ≠ EmptyString ->
        head (OTA.changelog o) = Some (ChangelogEntry.mk "1.0.1" "More")).
Proof.
  destruct (status_shows_release "1.0.1" "ios" "dist/app.apk" true "News"
              "More" "installer bytes" released_world released_once)
    as (_ & _ & Hshow).
  destruct Hshow as (o & Hst & Hrow & Hlog & _).
  - reflexivity.
  - vm_compute. reflexivity.
  - apply in_PLATFORMS_spec. reflexivity.
  - reflexivity.
  - discriminate.
  - vm_compute. reflexivity.
  - exists o. split; [exact Hst|]. split; assumption.
Defined.

(** The run of [deploy_page], case by case. *)
Lemma deploy_page_run (base_path parent : string) (w : World) :
  let html := base_path +:+ "/download.html" in
  let icon := parent +:+ "/web/favicon.png" in
  deploy_page base_path parent w
  = let w0 := logged (FsExists html) w in
    if exists_at w html then
      if shows w (Markup page_status) then
        let w1 := logged (FsRead html) w0 in
        match files w !! html with
        | None => (w1, inl OSError)
        | Some page =>
            if head_fault w
            then (called (S3Write DOWNLOAD_PAGE_KEY) w1, inl OpError)
            else
              let w2 := written DOWNLOAD_PAGE_KEY (Raw page) w1 in
              if has_cdn w then
                if forallb (shows w)
                     [page_deployed; url_line (url_of w DOWNLOAD_PAGE_KEY)]
                then
                  let w3 := logged (FsExists icon) w2 in
                  if exists_at w icon then
                    if shows w (Markup icon_status) then
                      let w4 := logged (FsRead icon) w3 in
                      match files w !! icon with
                      | None => (w4, inl OSError)
                      | Some img =>
                          if head_fault w3
                          then (called (S3Write FAVICON_KEY) w4, inl OpError)
                          else (written FAVICON_KEY (Raw img) w4,
                                printing w
                                  [icon_deployed;
                                   url_line (url_of w FAVICON_KEY)])
                      end
                    else (w3, inl MarkupError)
                  else (w3, printing w [icon_skipped])
                else (w2, inl MarkupError)
              else (w2, inl AttributeError)
        end
      else (w0, inl MarkupError)
    else (w0, exiting w [page_missing] FileNotFound).
Proof.
  intros html icon. unfold deploy_page. fold html icon. cbn zeta.
  erewrite bind_inr by apply path_exists_run.
  destruct (exists_at w html); cbn [negb].
  2: { unfold bind, exiting. rewrite console_print_run. cbn [forallb].
       change (shows (logged ?e w) ?p) with (shows w p).
       destruct (shows w _); reflexivity. }
  unfold console_status.
  unfold bind at 1. rewrite console_print_run.
  change (shows (logged ?e w) ?p) with (shows w p).
  destruct (shows w (Markup page_status)); [|reflexivity].
  unfold bind at 1. rewrite upload_file_run.
  change (files (logged (FsExists html) w)) with (files w).
  destruct (files w !! html) as [page|]; [|reflexivity].
  change (head_fault (logged (FsExists html) w)) with (head_fault w).
  destruct (head_fault w); [reflexivity|].
  change (has_cdn (logged (FsExists html) w)) with (has_cdn w).
  destruct (has_cdn w) eqn:Hc; [|reflexivity].
  cbn [forallb].
  unfold bind at 1. rewrite console_print_run.
  change (shows (written ?k ?d (logged ?e1 (logged ?e2 w))) ?p)
    with (shows w p).
  destruct (shows w page_deployed); [|reflexivity].
  unfold bind at 1. rewrite console_print_run.
  change (shows (written ?k ?d (logged ?e1 (logged ?e2 w))) ?p)
    with (shows w p).
  change (url_of (logged (FsExists html) w)) with (url_of w).
  destruct (shows w (url_line _)); [|reflexivity]. cbn [andb].
  erewrite bind_inr by apply path_exists_run.
  change (exists_at (written ?k ?d (logged ?e1 (logged ?e2 w))))
    with (exists_at w).
  destruct (exists_at w icon).
  2: { rewrite console_print_run. unfold printing. cbn [forallb].
       change (shows (logged ?e0 (written ?k ?d (logged ?e1 (logged ?e2 w))))
                 ?p) with (shows w p).
       destruct (shows w icon_skipped); reflexivity. }
  unfold bind at 1. rewrite console_print_run.
  change (shows (logged ?e0 (written ?k ?d (logged ?e1 (logged ?e2 w)))) ?p)
    with (shows w p).
  destruct (shows w (Markup icon_status)); [|reflexivity].
  unfold bind at 1. rewrite upload_file_run.
  change (files (logged ?e0 (written ?k ?d (logged ?e1 (logged ?e2 w)))))
    with (files w).
  destruct (files w !! icon) as [img|]; [|reflexivity].
  destruct (head_fault _); [reflexivity|].
  change (has_cdn (logged ?e0 (written ?k ?d (logged ?e1 (logged ?e2 w)))))
    with (has_cdn w).
  rewrite Hc. unfold printing. cbn [forallb].
  unfold bind. rewrite !console_print_run.
  change (shows (written ?k0 ?d0 (logged ?e3 (logged ?e0
            (written ?k ?d (logged ?e1 (logged ?e2 w)))))) ?p)
    with (shows w p).
  destruct (shows w icon_deployed); [|reflexivity].
  change (url_of (logged ?e0 (written ?k ?d (logged ?e1 (logged ?e2 w)))))
    with (url_of w).
  destruct (shows w (url_line _)); reflexivity.
Qed.

(** X16. [deploy_page] prints that download.html does not exist and
    exits, before any remote call, when nothing is at its path.
    Whatever its outcome it changes no object but those under the keys
    of the page and of the icon, so never the manifest. Without faults,
    with a CDN base URL, the page a regular file and a console that
    renders the lines about the page, the page is uploaded; the icon is
    uploaded when it is a regular file and the console renders the
    status of its upload, and is left as it was in the bucket when
    nothing is at its path; the command then ends normally when the
    console renders its last lines. *)
Theorem deploy_page_contract (base_path parent : string) (w : World) :
  (exists_at w (base_path +:+ "/download.html") = false ->
   deploy_page base_path parent w
   = (logged (FsExists (base_path +:+ "/download.html")) w,
      exiting w [page_missing] FileNotFound))
  /\ (forall key, key ≠ DOWNLOAD_PAGE_KEY -> key ≠ FAVICON_KEY ->
        objects (fst (deploy_page base_path parent w)) !! key
        = objects w !! key)
  /\ objects (fst (deploy_page base_path parent w)) !! MANIFEST_KEY
     = objects w !! MANIFEST_KEY
  /\ (faults w = [] ->
      forall page, files w !! (base_path +:+ "/download.html") = Some page ->
        cdn_base_url (settings w) ≠ EmptyString ->
        forallb (shows w)
          [Markup page_status; page_deployed;
           url_line (url_of w DOWNLOAD_PAGE_KEY)] = true ->
        objects (fst (deploy_page base_path parent w)) !! DOWNLOAD_PAGE_KEY
        = Some (Raw page)
        /\ (forall img,
              files w !! (parent +:+ "/web/favicon.png") = Some img ->
              shows w (Markup icon_status) = true ->
              objects (fst (deploy_page base_path parent w)) !! FAVICON_KEY
              = Some (Raw img)
              /\ snd (deploy_page base_path parent w)
                 = printing w
                     [icon_deployed; url_line (url_of w FAVICON_KEY)])
        /\ (exists_at w (parent +:+ "/web/favicon.png") = false ->
            objects (fst (deploy_page base_path parent w)) !! FAVICON_KEY
            = objects w !! FAVICON_KEY
            /\ snd (deploy_page base_path parent w)
               = printing w [icon_skipped])).
Proof.
  rewrite deploy_page_run. cbn zeta.
  set (html := base_path +:+ "/download.html").
  set (icon := parent +:+ "/web/favicon.png").
  split; [by intros ->|]. split; [|split].
  - intros key H1 H2. release_cases; cbn; by rewrite ?lookup_insert_ne.
  - release_cases; cbn; by rewrite ?lookup_insert_ne.
  - intros Hf page Hpage Hc Hs. apply has_cdn_true in Hc.
    cbn [forallb] in Hs. apply andb_prop in Hs as [Hs1 Hs2].
    rewrite (exists_at_file _ _ _ Hpage), Hs1, Hpage, (no_fault w Hf), Hc.
    cbn [forallb]. rewrite Hs2. split; [|split].
    + destruct (exists_at w icon).
      * destruct (shows w (Markup icon_status)).
        -- destruct (files w !! icon).
           ++ destruct (head_fault _); cbn;
                rewrite ?lookup_insert_ne by discriminate;
                apply lookup_insert_eq.
           ++ cbn. by rewrite lookup_insert_eq.
        -- cbn. by rewrite lookup_insert_eq.
      * cbn. by rewrite lookup_insert_eq.
    + intros img Himg Hsi.
      rewrite (exists_at_file _ _ _ Himg), Hsi, Himg.
      rewrite no_fault by (cbn; by rewrite Hf). cbn [fst snd].
      split; [|reflexivity]. cbn. by rewrite lookup_insert_eq.
    + intros Hnone. rewrite Hnone. cbn [fst snd].
      split; [|reflexivity]. cbn. by rewrite lookup_insert_ne by discriminate.
Qed.

Lemma deploy_page_contract_witness :
  deploy_page "utils" "." released_world
  = (logged (FsExists ("utils" +:+ "/download.html")) released_world,
     inl FileNotFound)
  /\ objects (fst (deploy_page "dist" "."
                     (mkWorld (settings sample_world) (renders sample_world)
                        (objects released_world)
                        (<["dist/download.html" := "<html></html>"]> ∅)
                        ∅ [] []))) !! DOWNLOAD_PAGE_KEY
     = Some (Raw "<html></html>")
  /\ snd (deploy_page "dist" "."
            (mkWorld (settings sample_world) (renders sample_world)
               (objects released_world)
               (<["dist/download.html" := "<html></html>"]> ∅)
               ∅ [] [])) = inr tt.
Proof.
  split.
  - destruct (deploy_page_contract "utils" "." released_world) as [Hmiss _].
    rewrite Hmiss by (vm_compute; reflexivity). vm_compute. reflexivity.
  - destruct (deploy_page_contract "dist" "."
                (mkWorld (settings sample_world) (renders sample_world)
                   (objects released_world)
                   (<["dist/download.html" := "<html></html>"]> ∅)
                   ∅ [] []))
      as (_ & _ & _ & Hok).
    destruct (Hok eq_refl "<html></html>" eq_refl) as (Hpage & _ & Hskip).
    + discriminate.
    + vm_compute. reflexivity.
    + split; [exact Hpage|].
      destruct Hskip as [_ Hend]; [vm_compute; reflexivity|].
      rewrite Hend. vm_compute. reflexivity.
Defined.
(* ===================================================================== *)
(** ** Checksums and the client *)
(* ===================================================================== *)

Lemma le_bytes_length (n : nat) (x : Z) : length (MD5.le_bytes n x) = n.
Proof. unfold MD5.le_bytes. by rewrite length_map, length_seq. Qed.

Lemma digest_length (bs : list Z) : length (MD5.digest bs) = 16.
Proof.
  unfold MD5.digest.
  destruct (fold_left MD5.compress _ MD5.init) as [[[a b] c] d].
  by rewrite !length_app, !le_bytes_length.
Qed.

Lemma hex_digit_in (x : Z) :
  MD5.hex_digit x ∈ list_ascii_of_string "0123456789abcdef".
Proof.
  unfold MD5.hex_digit. apply list_elem_of_In.
  destruct (Z.to_nat x) as [|[|[|[|[|[|[|[|[|[|[|[|[|[|[|[|n]]]]]]]]]]]]]]]];
    try (cbn; tauto).
  destruct n; cbn; tauto.
Qed.

Lemma hex_spec (bs : list Z) :
  String.length (MD5.hex bs) = 2 * length bs
  /\ Forall (λ a, a ∈ list_ascii_of_string "0123456789abcdef")
       (list_ascii_of_string (MD5.hex bs)).
Proof.
  unfold MD5.hex. rewrite list_ascii_of_string_of_list_ascii.
  induction bs as [|b bs [IHl IHf]]; [by split|].
  cbn [flat_map app string_of_list_ascii String.length length]. split.
  - change (String.length (string_of_list_ascii
              (flat_map (fun b => [MD5.hex_digit (Z.shiftr b 4);
                                   MD5.hex_digit (Z.land b 15)]) bs)))
      with (String.length (string_of_list_ascii
              (flat_map (fun b => [MD5.hex_digit (Z.shiftr b 4);
                                   MD5.hex_digit (Z.land b 0xf)]) bs))) .
    rewrite IHl. lia.
  - repeat (constructor; [apply hex_digit_in|]). exact IHf.
Qed.

Lemma str_take_plain (n : nat) (s : string) :
  Forall (λ a, is_continuation a = false) (list_ascii_of_string s) ->
  n <= String.length s ->
  String.length (str_take n s) = n
  /\ exists rest, s = str_take n s +:+ rest.
Proof.
  revert n. induction s as [|a s IH]; intros n Hs Hn.
  - cbn in *. split; [lia | by exists EmptyString].
  - cbn [list_ascii_of_string] in Hs. apply Forall_cons in Hs as [Ha Hs].
    cbn [str_take]. rewrite Ha. destruct n as [|n].
    + split; [reflexivity | by eexists].
    + cbn [String.length] in *.
      destruct (IH n Hs ltac:(lia)) as [Hl [rest Hr]].
      split; [by rewrite Hl|]. exists rest.
      change (String a s = String a (str_take n s +:+ rest)). by rewrite <- Hr.
Qed.

Lemma hex_digit_plain (a : ascii) :
  a ∈ list_ascii_of_string "0123456789abcdef" -> is_continuation a = false.
Proof.
  intros H. apply list_elem_of_In in H. cbn in H.
  repeat (destruct H as [<-|H]; [reflexivity|]). destruct H.
Qed.

(** X17. A digest is thirty-two digits among 0-9 and a-f, for the
    announcement as for the installer of a release; the sixteen
    characters [status] shows of a checksum written by a release are the
    first half of it. *)
Theorem md5_is_32_hex_digits (s : string) (a : Announcement.t) :
  String.length (MD5.hexdigest s) = 32
  /\ Forall (λ c, c ∈ list_ascii_of_string "0123456789abcdef")
       (list_ascii_of_string (MD5.hexdigest s))
  /\ String.length (Announcement.md5 a) = 32
  /\ (String.length (str_take 16 (MD5.hexdigest s)) = 16
      /\ exists rest, MD5.hexdigest s = str_take 16 (MD5.hexdigest s) +:+ rest)
  /\ (forall path data w, files w !! path = Some data ->
        exists sum, snd (get_file_md5 path w) = inr sum
                    /\ sum = MD5.hexdigest data
                    /\ String.length sum = 32).
Proof.
  assert (Hlen : forall t, String.length (MD5.hexdigest t) = 32).
  { intros t. unfold MD5.hexdigest.
    destruct (hex_spec (MD5.digest (MD5.bytes_of_string t))) as [-> _].
    by rewrite digest_length. }
  split; [apply Hlen|]. split; [apply hex_spec|]. split; [apply Hlen|].
  split.
  { apply str_take_plain; [|rewrite Hlen; lia].
    eapply Forall_impl; [apply hex_spec|]. apply hex_digit_plain. }
  intros path data w Hfile. exists (MD5.hexdigest data).
  split; [|split; [reflexivity | apply Hlen]].
  unfold get_file_md5. by erewrite bind_inr by (by apply read_file_ok).
Qed.

Lemma md5_is_32_hex_digits_witness :
  exists sum,
    snd (get_file_md5 "dist/app.apk" sample_world) = inr sum
    /\ sum = MD5.hexdigest "installer bytes"
    /\ String.length sum = 32.
Proof.
  destruct (md5_is_32_hex_digits EmptyString
              (Announcement.mk EmptyString EmptyString false))
    as (_ & _ & _ & _ & Hfile).
  apply (Hfile "dist/app.apk" "installer bytes" sample_world). reflexivity.
Defined.


(** X18. [get_json] never raises and never changes the bucket: it
    returns [None] when the read fails or the document is null, and the
    document otherwise. Without faults it returns what [upload_content]
    stored under the key, whether or not the upload could build its
    URL; [upload_content] returns the URL of the key when there is a CDN
    base URL and raises [AttributeError] when there is none. *)
Theorem get_json_total (key : string) (w : World) :
  (exists r, snd (S3Client.get_json key w) = inr r
             /\ (r = None <->
                 read_fails w key = true
                 \/ objects w !! key = Some (Text JNull)))
  /\ objects (fst (S3Client.get_json key w)) = objects w
  /\ (forall doc, faults w = [] -> doc ≠ JNull ->
        snd (S3Client.get_json key
               (fst (S3Client.upload_content (Text doc) key w)))
        = inr (Some doc)
        /\ snd (S3Client.upload_content (Text doc) key w)
           = if has_cdn w then inr (url_of w key) else inl AttributeError).
Proof.
  rewrite get_json_run. cbn [fst snd]. split; [|split; [reflexivity|]].
  - exists (fetched w key). split; [reflexivity|].
    unfold fetched, read_fails.
    destruct (head_fault w); cbn; [by split; auto|].
    destruct (objects w !! key) as [[bytes|doc]|].
    + split; auto.
    + destruct doc; split; try discriminate; auto;
        intros [H|H]; discriminate.
    + split; auto.
  - intros doc Hf Hdoc. rewrite upload_content_run, (no_fault w Hf).
    cbn [fst snd]. split; [|reflexivity]. rewrite get_json_run. cbn [snd].
    unfold fetched, head_fault. cbn. rewrite Hf. cbn.
    rewrite lookup_insert_eq. by destruct doc.
Qed.

Lemma get_json_total_witness :
  snd (S3Client.get_json "notes.json"
         (fst (S3Client.upload_content (Text (JArr [JStr "a"])) "notes.json"
                 (with_cdn EmptyString sample_world))))
  = inr (Some (JArr [JStr "a"]))
  /\ snd (S3Client.upload_content (Text (JArr [JStr "a"])) "notes.json"
            (with_cdn EmptyString sample_world)) = inl AttributeError.
Proof.
  destruct (get_json_total "notes.json" (with_cdn EmptyString sample_world))
    as (_ & _ & Hround).
  destruct (Hround (JArr [JStr "a"]) eq_refl) as [Hget Hurl]; [discriminate|].
  split; [exact Hget | exact Hurl].
Defined.
